(** * Remote-sensing data readers: a shallow embedding of [remote_sensing.py]

    The readers of [remote_sensing.py] are translated function by function:
    text lines are [string]s, a file object is the list of lines that are
    still unread, Python exceptions are values of [exn], and a pandas
    [DataFrame] is a list of column labels with positional rows of cells.
    The frame of the WindCube reader, whose columns pandas types one by
    one, is a list of typed columns. *)

From Stdlib Require Import String Ascii List Bool Arith Lia ZArith.
From Stdlib Require Import DecimalString DecimalNat.
From Stdlib Require Import SpecFloat.
From Stdlib Require Finite.
Import ListNotations.
Open Scope string_scope.

(** ** Python built-ins on strings and lists *)

Module Py.

(** [str(n)] for a non-negative integer. *)
Definition str (n : nat) : string := NilEmpty.string_of_uint (Nat.to_uint n).

(** [l.count(x)] on a list of strings. *)
Definition count (l : list string) (x : string) : nat :=
  count_occ string_dec l x.

(** [x in l] on a list of strings. *)
Definition mem (x : string) (l : list string) : bool :=
  existsb (String.eqb x) l.

(** [enumerate(l)]. *)
Definition enumerate {A : Type} (l : list A) : list (nat * A) :=
  combine (seq 0 (length l)) l.

(** Characters [str.isspace] accepts among the first 128 code points. *)
Definition isspace (c : ascii) : bool :=
  let n := nat_of_ascii c in
  (((9 <=? n) && (n <=? 13)) || ((28 <=? n) && (n <=? 32)))%nat.

Fixpoint lstrip (s : string) : string :=
  match s with
  | String c s' => if isspace c then lstrip s' else s
  | EmptyString => EmptyString
  end.

(** [rstrip]: a character is kept when something other than white space
    follows it or it is itself not white space. *)
Fixpoint rstrip (s : string) : string :=
  match s with
  | EmptyString => EmptyString
  | String c s' =>
      match rstrip s' with
      | EmptyString => if isspace c then EmptyString else String c EmptyString
      | r => String c r
      end
  end.

(** [s.strip()]. *)
Definition strip (s : string) : string := rstrip (lstrip s).

(** [s.split()] with no argument: maximal runs of non-space characters.
    [cur] is the token being read, in order. *)
Fixpoint split_ws_aux (cur : string) (s : string) : list string :=
  match s with
  | EmptyString => match cur with EmptyString => [] | _ => [cur] end
  | String c s' =>
      if isspace c
      then match cur with
           | EmptyString => split_ws_aux EmptyString s'
           | _ => cur :: split_ws_aux EmptyString s'
           end
      else split_ws_aux (cur ++ String c EmptyString) s'
  end.

Definition split (s : string) : list string := split_ws_aux EmptyString s.

(** [s.split(sep)] for a one-character separator: empty fields are kept
    and the result is never empty. *)
Fixpoint split_on_aux (sep : ascii) (cur : string) (s : string) : list string :=
  match s with
  | EmptyString => [cur]
  | String c s' =>
      if Ascii.eqb c sep
      then cur :: split_on_aux sep EmptyString s'
      else split_on_aux sep (cur ++ String c EmptyString) s'
  end.

Definition split_on (sep : ascii) (s : string) : list string :=
  split_on_aux sep EmptyString s.

(** [c in s] for a character. *)
Fixpoint contains (c : ascii) (s : string) : bool :=
  match s with
  | EmptyString => false
  | String d s' => Ascii.eqb d c || contains c s'
  end.

(** [s.startswith(p)]. *)
Definition startswith (s p : string) : bool := String.prefix p s.

(** *** Numbers read from text *)

Definition is_digit (c : ascii) : bool :=
  let n := nat_of_ascii c in ((48 <=? n) && (n <=? 57))%nat.

Fixpoint digits_value (acc : Z) (s : string) : option Z :=
  match s with
  | EmptyString => Some acc
  | String c s' =>
      if is_digit c
      then digits_value (10 * acc + Z.of_nat (nat_of_ascii c - 48)) s'
      else None
  end.

(** A non-empty run of decimal digits. *)
Definition parse_digits (s : string) : option Z :=
  match s with
  | EmptyString => None
  | _ => digits_value 0 s
  end.

(** An optional sign, then [k] applied to the rest. *)
Definition signed {A : Type} (s : string) (k : bool -> string -> A) : A :=
  match s with
  | String "-" r => k true r
  | String "+" r => k false r
  | _ => k false s
  end.

(** Digit-group underscores, as [int] and [float] accept them: an
    underscore has to follow a digit and to be followed by a digit.  The
    text without its underscores, [None] when one is misplaced; [prev] is
    the character before [s]. *)
Fixpoint drop_underscores (prev : ascii) (s : string) : option string :=
  match s with
  | EmptyString => if Ascii.eqb prev "_" then None else Some EmptyString
  | String c s' =>
      if Ascii.eqb c "_"
      then if is_digit prev then drop_underscores c s' else None
      else if Ascii.eqb prev "_" && negb (is_digit c) then None
           else option_map (String c) (drop_underscores c s')
  end.

Definition without_underscores (s : string) : option string :=
  drop_underscores zero s.

(** [int(s)] in base ten: surrounding white space, an optional sign and
    decimal digits, with digit-group underscores ([None] stands for
    [ValueError]). *)
Definition int (s : string) : option Z :=
  signed (strip s) (fun neg r =>
    match without_underscores r with
    | Some ds =>
        option_map (fun z => if neg then Z.opp z else z) (parse_digits ds)
    | None => None
    end).

(** binary64 *)
Definition prec : Z := 53.
Definition emax : Z := 1024.

(** The binary64 number nearest to [m * 2^e] (ties to even). *)
Definition float_of_Z (m : Z) : spec_float :=
  binary_normalize prec emax m 0 false.

(** The binary64 number nearest to [m / d] with sign [neg], for positive
    [m] and [d]: the quotient is taken with at least 64 significant bits
    and the remainder decides the rounding. *)
Definition float_of_ratio (neg : bool) (m d : Z) : spec_float :=
  let s := Z.max 0 (64 + Z.log2 d - Z.log2 m) in
  let n := Z.shiftl m s in
  let q := Z.div n d in
  let r := Z.modulo n d in
  let l := if Z.eqb r 0 then loc_Exact else loc_Inexact (Z.compare (2 * r) d) in
  binary_round_aux prec emax neg q (- s) l.

(** The binary64 number nearest to [m * 10^e] with sign [neg], [0 <= m]. *)
Definition float_of_decimal (neg : bool) (m e : Z) : spec_float :=
  if Z.eqb m 0 then S754_zero neg
  else if Z.leb 0 e
       then binary_normalize prec emax ((if neg then Z.opp m else m) * 10 ^ e) 0 neg
       else float_of_ratio neg m (10 ^ (- e)).

Definition lower (c : ascii) : ascii :=
  let n := nat_of_ascii c in
  if ((65 <=? n) && (n <=? 90))%nat then ascii_of_nat (n + 32) else c.

Fixpoint lowercase (s : string) : string :=
  match s with
  | EmptyString => EmptyString
  | String c s' => String (lower c) (lowercase s')
  end.

(** The digits of a mantissa [ip.fp]: value of all digits and number of
    fraction digits; at least one digit is required. *)
Definition parse_mantissa (s : string) : option (Z * Z) :=
  match split_on "." s with
  | [ip] => option_map (fun m => (m, 0%Z)) (parse_digits ip)
  | [ip; fp] =>
      match (ip ++ fp)%string with
      | EmptyString => None
      | ds => option_map (fun m => (m, Z.of_nat (String.length fp)))
                         (digits_value 0 ds)
      end
  | _ => None
  end.

(** A numeral of [float] without underscores: an optional sign, then
    [inf], [infinity], [nan] in any case, or a decimal numeral with an
    optional exponent. *)
Definition float_numeral (s : string) : option spec_float :=
  signed s (fun neg r =>
    let r := lowercase r in
    if String.eqb r "inf" || String.eqb r "infinity" then Some (S754_infinity neg)
    else if String.eqb r "nan" then Some S754_nan
    else match split_on "e" r with
         | [ms] =>
             option_map (fun '(m, k) => float_of_decimal neg m (- k))
                        (parse_mantissa ms)
         | [ms; es] =>
             match parse_mantissa ms, signed es (fun eneg d =>
                     option_map (fun z => if eneg then Z.opp z else z)
                                (parse_digits d)) with
             | Some (m, k), Some e => Some (float_of_decimal neg m (e - k))
             | _, _ => None
             end
         | _ => None
         end).

(** [float(s)]: surrounding white space is dropped, digit-group
    underscores are checked and removed, and what is left is read as a
    numeral ([None] stands for [ValueError]). *)
Definition float (s : string) : option spec_float :=
  match without_underscores (strip s) with
  | Some r => float_numeral r
  | None => None
  end.

End Py.

(** ** Exceptions and the file cursor *)

Inductive exn : Type :=
| IOError
| IndexError
| ValueError
| KeyError
| AssertionError
| AttributeError
| NameError
| TypeError
| OverflowError
| InvalidIndexError.

(** A computation that returns or raises. *)
Definition result (A : Type) : Type := (exn + A)%type.
Definition ret {A : Type} (a : A) : result A := inr a.
Definition raise {A : Type} (e : exn) : result A := inl e.
Definition bind {A B : Type} (m : result A) (k : A -> result B) : result B :=
  match m with
  | inl e => inl e
  | inr a => k a
  end.

Declare Scope result_scope.
Delimit Scope result_scope with result.
Notation "x <- m ;; k" := (bind m (fun x => k))
  (at level 61, m at next level, right associativity) : result_scope.
Notation "' p <- m ;; k" := (bind m (fun x => match x with p => k end))
  (at level 61, p pattern, m at next level, right associativity) : result_scope.

(** An open text file: the lines not read yet, each with its line
    terminator.  [readline] gives the empty string at end of file and
    stays there. *)
Definition stream : Type := list string.

Definition readline (f : stream) : string * stream :=
  match f with
  | [] => (EmptyString, [])
  | l :: f' => (l, f')
  end.

(** [n] calls of [f.readline()] whose results are dropped. *)
Definition skip_lines (n : nat) (f : stream) : stream := skipn n f.

(** ** Schema resolution: the header of a profiler block
    ([read_profiler_data_block], the list comprehension over
    [enumerate(header)]) *)

Definition dedup_name (header : list string) (ic : nat * string) : string :=
  let (i, col) := ic in
  if (1 <? Py.count header col)%nat
  then col ++ "." ++ Py.str (Py.count (firstn i header) col)
  else col.

Definition resolve_header (header : list string) : list string :=
  map (dedup_name header) (Py.enumerate header).


(** ** Data frames *)

(** A cell of a frame: a binary64 number (the missing-value marker is the
    NaN), text or [None] in an object column, or a time stamp. *)
Inductive cell : Type :=
| CFloat (x : spec_float)
| CStr (s : string)
| CNone
| CTime (t : Z).

Definition NaN : cell := CFloat S754_nan.

Definition is_nan (x : spec_float) : bool :=
  match x with
  | S754_nan => true
  | _ => false
  end.

(** [x == val] for a cell and a number, as pandas evaluates it element by
    element: IEEE equality on numbers, [False] on anything else. *)
Definition cell_eq (x : cell) (val : spec_float) : bool :=
  match x with
  | CFloat y => SFeqb y val
  | _ => false
  end.

(** Column labels in order and rows of cells, one cell per label. *)
Record DataFrame : Type := mkFrame {
  columns : list string;
  rows : list (list cell)
}.

(** The value of the first column labelled [c] in a row laid out on the
    labels [cols]. *)
Fixpoint lookup {A : Type} (c : string) (cols : list string) (r : list A)
  : option A :=
  match cols, r with
  | c' :: cols', x :: r' => if String.eqb c c' then Some x else lookup c cols' r'
  | _, _ => None
  end.

Fixpoint mapM {A B : Type} (f : A -> result B) (l : list A) : result (list B) :=
  match l with
  | [] => ret []
  | a :: l' =>
      match f a with
      | inl e => inl e
      | inr b =>
          match mapM f l' with
          | inl e => inl e
          | inr bs => ret (b :: bs)
          end
      end
  end.

(** The widest row of a list of rows. *)
Definition width {A : Type} (data : list (list A)) : nat :=
  fold_right (fun r w => Nat.max (length r) w) 0 data.

(** Short rows are completed with [None] on the right. *)
Definition pad_row (w : nat) (r : list string) : list cell :=
  (map CStr r ++ repeat CNone (w - length r))%list.

(** [pd.DataFrame(data=data, columns=cols)] for a list of token lists:
    the frame is as wide as the widest row, which has to be the number of
    labels; no data gives the empty frame on [cols]. *)
Definition frame_of_rows (data : list (list string)) (cols : list string)
  : result DataFrame :=
  match data with
  | [] => ret (mkFrame cols [])
  | _ =>
      if (width data =? length cols)%nat
      then ret (mkFrame cols (map (pad_row (width data)) data))
      else raise ValueError
  end.

(** Conversion of an object cell under [dtype=float]. *)
Definition to_float (x : cell) : result cell :=
  match x with
  | CStr s =>
      match Py.float s with
      | Some v => ret (CFloat v)
      | None => raise ValueError
      end
  | CNone => ret NaN
  | CFloat v => ret (CFloat v)
  | CTime _ => raise TypeError
  end.

(** [pd.DataFrame(data=data, columns=cols, dtype=float)]. *)
Definition float_frame_of_rows (data : list (list string)) (cols : list string)
  : result DataFrame :=
  (df <- frame_of_rows data cols ;;
   rs <- mapM (mapM to_float) (rows df) ;;
   ret (mkFrame (columns df) rs))%result.

(** [df[label] = v] for a scalar [v]: an existing column is overwritten,
    a new one is appended. *)
Fixpoint set_cells (label : string) (v : cell) (cols : list string)
  (r : list cell) : list cell :=
  match cols, r with
  | c :: cols', x :: r' =>
      (if String.eqb c label then v else x) :: set_cells label v cols' r'
  | _, _ => r
  end.

Definition assign (label : string) (v : cell) (df : DataFrame) : DataFrame :=
  if Py.mem label (columns df)
  then mkFrame (columns df) (map (set_cells label v (columns df)) (rows df))
  else mkFrame (columns df ++ [label])%list (map (fun r => r ++ [v])%list (rows df)).

(** *** [pd.concat] *)

(** Labels in order of first appearance. *)
Definition add_labels (acc cs : list string) : list string :=
  fold_left (fun a c => if Py.mem c a then a else (a ++ [c])%list) cs acc.

Definition union_columns (fs : list DataFrame) : list string :=
  fold_left (fun a f => add_labels a (columns f)) fs [].

(** A row of a frame on [fcols] laid out on [cols]; a label the frame
    lacks gets the missing-value marker. *)
Definition reindex (cols fcols : list string) (r : list cell) : list cell :=
  map (fun c => match lookup c fcols r with Some x => x | None => NaN end) cols.

Fixpoint has_dup (l : list string) : bool :=
  match l with
  | [] => false
  | x :: l' => Py.mem x l' || has_dup l'
  end.

Definition list_string_eqb (a b : list string) : bool :=
  if list_eq_dec string_dec a b then true else false.

(** [pd.concat(fs)] with its defaults: rows in the order of [fs], columns
    the union of the labels.  Frames on the very same labels are stacked
    as they are; otherwise each frame is re-laid on the union, which
    pandas refuses for a frame with a repeated label.  An empty list is
    refused too ("No objects to concatenate"). *)
Definition pd_concat (fs : list DataFrame) : result DataFrame :=
  match fs with
  | [] => raise ValueError
  | f0 :: _ =>
      if forallb (fun f => list_string_eqb (columns f) (columns f0)) fs
      then ret (mkFrame (columns f0) (flat_map rows fs))
      else if existsb (fun f => has_dup (columns f)) fs
      then raise InvalidIndexError
      else let cols := union_columns fs in
           ret (mkFrame cols
                  (flat_map (fun f => map (reindex cols (columns f)) (rows f)) fs))
  end.

(** *** Sentinel masking *)

(** [df.loc[df[col]==val, col] = np.nan] on one row. *)
Fixpoint mask_cells (col : string) (val : spec_float) (cols : list string)
  (r : list cell) : list cell :=
  match cols, r with
  | c :: cols', x :: r' =>
      (if String.eqb c col && cell_eq x val then NaN else x)
        :: mask_cells col val cols' r'
  | _, _ => r
  end.

Definition mask_column (col : string) (val : spec_float) (df : DataFrame)
  : DataFrame :=
  mkFrame (columns df) (map (mask_cells col val (columns df)) (rows df)).

(** The columns a requested name stands for: the column of that name, or
    else every column named [col.<something>]. *)
Definition matches (cols : list string) (col : string) : list string :=
  if Py.mem col cols then [col]
  else filter (fun c => Py.startswith c (col ++ ".")) cols.

Definition note (col : string) : string :=
  "Note: column " ++ col ++ "* not found".

(** The loop over [check_na]: what is printed, and [nalist]. *)
Fixpoint resolve_check_na (cols : list string) (check_na : list string)
  : list string * list string :=
  match check_na with
  | [] => ([], [])
  | col :: rest =>
      let m := matches cols col in
      let (out, nalist) := resolve_check_na cols rest in
      if (0 <? length m)%nat then (out, (m ++ nalist)%list)
      else (note col :: out, nalist)
  end.

(** A label of exactly one column. *)
Definition single (cols : list string) (c : string) : bool :=
  (Py.count cols c =? 1)%nat.

(** [df.loc[df[col]==val, col] = np.nan] on a frame.  [df[col]] is a
    [KeyError] for a label the frame lacks; for a label the frame has more
    than once [df[col]==val] is a frame and not a column, and [.loc]
    refuses it with a [KeyError] as well. *)
Definition loc_mask (col : string) (val : spec_float) (df : DataFrame)
  : result DataFrame :=
  if single (columns df) col
  then ret (mask_column col val df)
  else raise KeyError.

(** [for col in check_na: df.loc[df[col]==val,col] = np.nan]. *)
Definition mask_columns (val : spec_float) (check_na : list string)
  (acc : result DataFrame) : result DataFrame :=
  fold_left (fun a col => (d <- a ;; loc_mask col val d)%result) check_na acc.

(** [for val in na_values: for col in check_na: ...]. *)
Definition mask_values (na_values : list spec_float) (check_na : list string)
  (df : DataFrame) : result DataFrame :=
  fold_left (fun a val => mask_columns val check_na a) na_values (ret df).

(** [na_values] as the caller gives it: one value or an iterable. *)
Inductive na_arg : Type :=
| NaScalar (v : spec_float)
| NaList (vs : list spec_float).

Definition na_list (a : na_arg) : list spec_float :=
  match a with
  | NaScalar v => [v]
  | NaList vs => vs
  end.

(** The body of [if na_values is not None:] in [radar_profiler]: the
    lines printed by the loop over [check_na], and then the masked frame
    or the exception of the masking loop. *)
Definition sentinel_mask (check_na : list string) (na_values : na_arg)
  (df : DataFrame) : list string * result DataFrame :=
  let (out, nalist) := resolve_check_na (columns df) check_na in
  (out, mask_values (na_list na_values) nalist df).

(** [if na_values is not None: ...] and [return df]: what is printed and
    the frame. *)
Definition mask_sentinels (check_na : list string) (na_values : option na_arg)
  (df : DataFrame) : result (list string * DataFrame) :=
  match na_values with
  | Some na =>
      let (out, masked) := sentinel_mask check_na na df in
      (df <- masked ;; ret (out, df))%result
  | None => ret ([], df)
  end.

(** The masking loop at the end of [scintec_profiler]: [na_values] is a
    dict from column to sentinel. *)
Definition scintec_mask (na_values : list (string * spec_float))
  (df : DataFrame) : result DataFrame :=
  fold_left
    (fun acc cv => (d <- acc ;; loc_mask (fst cv) (snd cv) d)%result)
    na_values (ret df).

(** ** Blocks of a fixed number of rows *)

(** [for _ in range(n): block.append(tokenize(f.readline()))]. *)
Fixpoint read_fixed_rows (tokenize : string -> list string) (n : nat)
  (f : stream) : list (list string) * stream :=
  match n with
  | O => ([], f)
  | S n' =>
      let (line, f') := readline f in
      let (block, f'') := read_fixed_rows tokenize n' f' in
      (tokenize line :: block, f'')
  end.

(** [ARL_wind_profiler], the rows of one block and its frame.  The module
    globals [header] and [range_gates] are not defined in the file and are
    taken as parameters; [Nh = len(range_gates)]. *)
Definition ARL_read_block (header : list string) (Nh : nat) (f : stream)
  : result (DataFrame * stream) :=
  let (block, f') :=
    read_fixed_rows (fun l => Py.split_on "," (Py.strip l)) Nh f in
  (df <- float_frame_of_rows block header ;; ret (df, f'))%result.

(** [scintec_profiler], the rows of one profile and its frame: the line
    of column names is skipped, then [Nz] lines are read. *)
Definition scintec_read_block (cols : list string) (Nz : nat) (f : stream)
  : result (DataFrame * stream) :=
  let f1 := snd (readline f) in
  let (data, f') := read_fixed_rows Py.split Nz f1 in
  (df <- frame_of_rows data cols ;; ret (df, f'))%result.

(** ** The radar wind profiler *)

Section Radar.

(** [pd.to_datetime] on a string is left open: [None] stands for the
    [ValueError] it raises on text that is no date. *)
Variable to_datetime : string -> option Z.

Definition pd_to_datetime (s : string) : result Z :=
  match to_datetime s with
  | Some t => ret t
  | None => raise ValueError
  end.

(** The [while] loop over the rows of a block: it ends on a line that is
    [$] once stripped, or at end of file. *)
Fixpoint read_block_rows (f : stream) : list (list string) * stream :=
  match f with
  | [] => ([], [])
  | line :: f' =>
      if String.eqb (Py.strip line) "$" || String.eqb line ""
      then ([], f')
      else let (block, f'') := read_block_rows f' in
           (Py.split line :: block, f'')
  end.

Definition default_datatypes : list string := ["WINDS"; "RASS"].

Definition read_profiler_data_block (f : stream)
  : result (DataFrame * stream) :=
  let (l1, f) := readline f in
  let f := if String.eqb (Py.strip l1) "" then snd (readline f) else f in
  let (l3, f) := readline f in
  match Py.split l3 with
  | [] => raise IndexError
  | tag :: _ =>
      if negb (Py.mem tag default_datatypes) then raise AssertionError
      else
        let f := snd (readline f) in
        let (l5, f) := readline f in
        match Py.split l5 with
        | [yr; mo; dy; hr; mi; sc; _] =>
            (date_time <- pd_to_datetime
                            ("20" ++ yr ++ mo ++ dy ++ " " ++ hr ++ mi ++ sc) ;;
             let f := skip_lines 5 f in
             let (hl, f) := readline f in
             let header := resolve_header (Py.split hl) in
             let (block, f) := read_block_rows f in
             df <- float_frame_of_rows block header ;;
             ret (assign "date_time" (CTime date_time) df, f))%result
        | _ => raise ValueError
        end
  end.

(** [for _ in range(modes): dataframes.append(...)]. *)
Fixpoint read_blocks (n : nat) (f : stream) : result (list DataFrame) :=
  match n with
  | O => ret []
  | S n' =>
      match read_profiler_data_block f with
      | inl e => raise e
      | inr (df, f') =>
          (dfs <- read_blocks n' f' ;; ret (df :: dfs))%result
      end
  end.

(** [while True: try: dataframes.append(...) except (IOError, IndexError):
    break].  Every block that is read takes at least one line, so a number
    of rounds above the number of lines is never used up. *)
Fixpoint read_all_blocks (fuel : nat) (f : stream) : result (list DataFrame) :=
  match fuel with
  | O => ret []
  | S fuel' =>
      match read_profiler_data_block f with
      | inl IOError | inl IndexError => ret []
      | inl e => raise e
      | inr (df, f') =>
          (dfs <- read_all_blocks fuel' f' ;; ret (df :: dfs))%result
      end
  end.

(** [radar_profiler]: the file is the stream [f]; [modes] is [None] or a
    number of blocks; the result is what was printed and the frame. *)
Definition radar_profiler (f : stream) (modes : option nat)
  (check_na : list string) (na_values : option na_arg)
  : result (list string * DataFrame) :=
  (dataframes <- match modes with
                 | Some n => read_blocks n f
                 | None => read_all_blocks (S (length f)) f
                 end ;;
   df <- pd_concat dataframes ;;
   mask_sentinels check_na na_values df)%result.

End Radar.

(** ** The WindCube lidar: header *)

(** A value of [scan_info]. *)
Inductive param : Type :=
| PInt (z : Z)
| PFloat (x : spec_float)
| PStr (s : string).

(** A dict with string keys, in insertion order. *)
Definition dict (V : Type) : Type := list (string * V).

Fixpoint dict_set {V : Type} (k : string) (v : V) (d : dict V) : dict V :=
  match d with
  | [] => [(k, v)]
  | (k', v') :: d' =>
      if String.eqb k k' then (k, v) :: d' else (k', v') :: dict_set k v d'
  end.

Fixpoint dict_get {V : Type} (k : string) (d : dict V) : option V :=
  match d with
  | [] => None
  | (k', v') :: d' => if String.eqb k k' then Some v' else dict_get k d'
  end.

(** [try: int(s) except ValueError: try: float(s) except ValueError: s]. *)
Definition typed_value (s : string) : param :=
  match Py.int s with
  | Some z => PInt z
  | None =>
      match Py.float s with
      | Some x => PFloat x
      | None => PStr s
      end
  end.

(** One round of the loop over the metadata lines, on the line read. *)
Definition read_param (line : string) (scan_info : dict param)
  : result (dict param) :=
  if Py.contains "=" line
  then match Py.split_on "=" (Py.strip line) with
       | k :: v :: _ => ret (dict_set k (typed_value v) scan_info)
       | _ => raise IndexError
       end
  else ret scan_info.

(** [for _ in range(Nheader): line = f.readline(); ...]. *)
Fixpoint read_params (n : nat) (f : stream) (scan_info : dict param)
  : result (dict param * stream) :=
  match n with
  | O => ret (scan_info, f)
  | S n' =>
      let (line, f') := readline f in
      match read_param line scan_info with
      | inl e => raise e
      | inr si => read_params n' f' si
      end
  end.

Definition tab : ascii := ascii_of_nat 9.

Definition float_or_raise (s : string) : result spec_float :=
  match Py.float s with
  | Some x => ret x
  | None => raise ValueError
  end.

(** What [windcube_v1] knows when it hands the file to [pd.read_table]. *)
Record windcube_head : Type := mkHead {
  scan_info : dict param;
  wc_columns : list string;
  altitudes : list spec_float;
  wc_data : stream
}.

(** [windcube_v1] from [open] to the call of [pd.read_table]. *)
Definition windcube_header (f : stream) (default_columns : list string)
  (default_altitudes : list spec_float) : result windcube_head :=
  let (firstline, f1) := readline f in
  if Py.contains "=" firstline
  then match Py.int (last (Py.split_on "=" firstline) EmptyString) with
       | None => raise ValueError
       | Some Nheader =>
           match read_params (Z.to_nat Nheader) f1 [] with
           | inl e => raise e
           | inr (si, f2) =>
               let (cl, f3) := readline f2 in
               let cols := (["date"; "time"] ++ tl (Py.split cl))%list in
               match dict_get "Altitudes(m)" si with
               | None => raise KeyError
               | Some (PStr s) =>
                   (alts <- mapM float_or_raise
                                 (Py.split_on tab (Py.strip s)) ;;
                    ret (mkHead si cols alts f3))%result
               | Some _ => raise AttributeError
               end
           end
       end
  else ret (mkHead [] default_columns default_altitudes f).

(** ** The WindCube lidar: from wide to long, speed and direction

    The frame that [pd.read_table] returns is taken column by column,
    each column with the dtype pandas gave it.  Numbers are 64-bit
    integers or binary64 numbers and the arithmetic is that of NumPy on
    each: integers wrap around, binary64 operations round to nearest. *)

Module Reshape.

Definition fmul : spec_float -> spec_float -> spec_float :=
  SFmul Py.prec Py.emax.
Definition fadd : spec_float -> spec_float -> spec_float :=
  SFadd Py.prec Py.emax.
Definition fsub : spec_float -> spec_float -> spec_float :=
  SFsub Py.prec Py.emax.
Definition fdiv : spec_float -> spec_float -> spec_float :=
  SFdiv Py.prec Py.emax.
Definition fsqrt : spec_float -> spec_float := SFsqrt Py.prec Py.emax.

(** The binary64 number of an integer, as NumPy converts an [int64]. *)
Definition f64 (z : Z) : spec_float := Py.float_of_Z z.

(** The [int64] an integer result wraps around to. *)
Definition wrap64 (z : Z) : Z := ((z + 2 ^ 63) mod 2 ^ 64 - 2 ^ 63)%Z.

(** A Python object in a column of dtype [object]. *)
Inductive pyobj : Type :=
| PyInt (z : Z)
| PyFloat (x : spec_float)
| PyStr (s : string)
| PyNone
| PyTime (t : Z).

Inductive dtype : Type :=
| int64
| float64
| datetime64
| object.

(** A column: its values are all of its dtype. *)
Inductive series : Type :=
| Int64 (xs : list Z)
| Float64 (xs : list spec_float)
| Datetime64 (xs : list Z)
| Object (xs : list pyobj).

(** A value taken out of a column. *)
Inductive scalar : Type :=
| SInt (z : Z)
| SFloat (x : spec_float)
| STime (t : Z)
| SObj (o : pyobj).

Definition dtype_of (s : series) : dtype :=
  match s with
  | Int64 _ => int64
  | Float64 _ => float64
  | Datetime64 _ => datetime64
  | Object _ => object
  end.

Definition items (s : series) : list scalar :=
  match s with
  | Int64 xs => map SInt xs
  | Float64 xs => map SFloat xs
  | Datetime64 xs => map STime xs
  | Object xs => map SObj xs
  end.

(** A frame: its columns under their labels, in order. *)
Definition frame : Type := dict series.

(** [[prefix + str(i) for i in range(1, n+1)]]. *)
Definition vars (prefix : string) (n : nat) : list string :=
  map (fun i => (prefix ++ Py.str i)%string) (seq 1 n).

Definition is_int64 (d : dtype) : bool :=
  match d with int64 => true | _ => false end.

Definition is_number (d : dtype) : bool :=
  match d with int64 | float64 => true | _ => false end.

Definition is_datetime64 (d : dtype) : bool :=
  match d with datetime64 => true | _ => false end.

(** The dtype of columns put one under the other: integers stay
    integers, integers and binary64 numbers give binary64 numbers, and
    anything else mixed gives objects. *)
Definition common_dtype (ds : list dtype) : dtype :=
  if forallb is_int64 ds then int64
  else if forallb is_number ds then float64
  else if forallb is_datetime64 ds then datetime64
  else object.

(** A value as it is held in a column of dtype [d]. *)
Definition cast (d : dtype) (x : scalar) : scalar :=
  match d, x with
  | float64, SInt z => SFloat (f64 z)
  | object, SInt z => SObj (PyInt z)
  | object, SFloat v => SObj (PyFloat v)
  | object, STime t => SObj (PyTime t)
  | _, _ => x
  end.

(** A row of [pd.melt(df, id_vars=['date_time'], ...)]. *)
Record melted : Type := mkMelted {
  m_time : scalar;
  m_var : string;
  m_value : scalar
}.

(** The melted frame: the dtype of its value column and its rows. *)
Record molten : Type := mkMolten {
  value_dtype : dtype;
  m_rows : list melted
}.

Definition value_column (df : frame) (v : string) : result (string * series) :=
  match dict_get v df with
  | Some s => ret (v, s)
  | None => raise KeyError
  end.

(** [pd.melt]: a [KeyError] when [date_time] or a value column is no
    label of the frame; otherwise the value columns one after the other,
    each over all rows, in their common dtype. *)
Definition melt (df : frame) (value_vars : list string) : result molten :=
  match dict_get "date_time" df with
  | None => raise KeyError
  | Some times =>
      (cols <- mapM (value_column df) value_vars ;;
       let d := common_dtype (map (fun vs => dtype_of (snd vs)) cols) in
       ret (mkMolten d
              (flat_map
                 (fun vs =>
                    map (fun tx => mkMelted (fst tx) (fst vs) (cast d (snd tx)))
                        (combine (items times) (items (snd vs))))
                 cols)))%result
  end.

(** A melted row with its [height]: [um['um_var'].map(dict(zip(vars,
    altitudes)))]; a variable missing from the dict gets the marker. *)
Definition with_height (vs : list string) (alts : list spec_float)
  (m : melted) : melted * spec_float :=
  (m, match dict_get (m_var m)
              (fold_left (fun d kv => dict_set (fst kv) (snd kv) d)
                         (combine vs alts) []) with
      | Some h => h
      | None => S754_nan
      end).

(** Binary64 numbers as join keys: equal numbers, or two markers. *)
Definition float_key_eqb (a b : spec_float) : bool :=
  SFeqb a b || (is_nan a && is_nan b).

(** The integer a binary64 number is, when it is one. *)
Definition integer_of (x : spec_float) : option Z :=
  match x with
  | S754_zero _ => Some 0%Z
  | S754_finite s m e =>
      let n := if s then Z.neg m else Z.pos m in
      if (0 <=? e)%Z then Some (n * 2 ^ e)%Z
      else if (Z.pos m mod 2 ^ (- e) =? 0)%Z then Some (n / 2 ^ (- e))%Z
           else None
  | _ => None
  end.

(** Python objects as join keys. *)
Definition pyobj_eqb (a b : pyobj) : bool :=
  match a, b with
  | PyInt x, PyInt y => Z.eqb x y
  | PyFloat x, PyFloat y => float_key_eqb x y
  | PyInt x, PyFloat y | PyFloat y, PyInt x =>
      match integer_of y with
      | Some z => Z.eqb x z
      | None => false
      end
  | PyStr s, PyStr t => String.eqb s t
  | PyNone, PyNone => true
  | PyTime s, PyTime t => Z.eqb s t
  | _, _ => false
  end.

Definition scalar_eqb (a b : scalar) : bool :=
  match a, b with
  | SInt x, SInt y => Z.eqb x y
  | SFloat x, SFloat y => float_key_eqb x y
  | STime s, STime t => Z.eqb s t
  | SObj p, SObj q => pyobj_eqb p q
  | _, _ => false
  end.

(** The join key [['date_time','height']]. *)
Definition key_eqb (l r : melted * spec_float) : bool :=
  scalar_eqb (m_time (fst l)) (m_time (fst r))
  && float_key_eqb (snd l) (snd r).

(** [pd.merge(um, vm, on=['date_time','height'])]: the inner join, in the
    order of the left rows and, for each, of the right rows, which is the
    order of pandas 2.2; for keys that each occur once on the left it is
    the order of every version. *)
Definition pd_merge (um vm : list (melted * spec_float))
  : list ((melted * spec_float) * (melted * spec_float)) :=
  flat_map (fun l => map (pair l) (filter (key_eqb l) vm)) um.

Definition um_of (p : (melted * spec_float) * (melted * spec_float)) : scalar :=
  m_value (fst (fst p)).

Definition vm_of (p : (melted * spec_float) * (melted * spec_float)) : scalar :=
  m_value (fst (snd p)).

(** A value of a column of integers or of binary64 numbers. *)
Definition numeric (x : scalar) : Prop :=
  match x with
  | SInt _ | SFloat _ => True
  | _ => False
  end.

(** A number as NumPy hands it to a binary64 function. *)
Definition to_f64 (x : scalar) : spec_float :=
  match x with
  | SInt z => f64 z
  | SFloat v => v
  | _ => S754_nan
  end.

(** [x**2] on a number: in [int64] with wrap-around, in binary64 with
    rounding. *)
Definition sq (x : scalar) : scalar :=
  match x with
  | SInt z => SInt (wrap64 (z * z))
  | SFloat v => SFloat (fmul v v)
  | _ => x
  end.

(** [x + y] on numbers: two integers stay in [int64]; otherwise the sum
    is taken in binary64. *)
Definition plus (a b : scalar) : scalar :=
  match a, b with
  | SInt x, SInt y => SInt (wrap64 (x + y))
  | _, _ => SFloat (fadd (to_f64 a) (to_f64 b))
  end.

Definition is_finite (x : spec_float) : bool :=
  match x with
  | S754_zero _ | S754_finite _ _ _ => true
  | _ => false
  end.

(** [x**2] on one value of a column.  In an object column Python takes
    the power: an integer is squared exactly, a binary64 number raises
    [OverflowError] when its square is out of range, [None] is passed
    over by pandas and gives the marker, and text or a time stamp is a
    [TypeError]. *)
Definition square1 (x : scalar) : result scalar :=
  match x with
  | SInt _ | SFloat _ => ret (sq x)
  | STime _ => raise TypeError
  | SObj (PyInt z) => ret (SObj (PyInt (z * z)))
  | SObj (PyFloat v) =>
      if is_finite v && negb (is_finite (fmul v v))
      then raise OverflowError
      else ret (SObj (PyFloat (fmul v v)))
  | SObj PyNone => ret (SObj (PyFloat S754_nan))
  | SObj _ => raise TypeError
  end.

(** [column**2] for a column of dtype [d]; time stamps have no power. *)
Definition square (d : dtype) (xs : list scalar) : result (list scalar) :=
  match d with
  | datetime64 => raise TypeError
  | _ => mapM square1 xs
  end.

(** [np.sqrt(um**2 + vm**2)] on the columns [um] and [vm] of the merged
    frame.  When one of them is an object column with a row in it,
    [np.sqrt] has a column of Python objects before it and raises
    [TypeError], if the squares have not raised before. *)
Definition speeds (du dv : dtype) (um vm : list scalar)
  : result (list spec_float) :=
  (a <- square du um ;;
   b <- square dv vm ;;
   match du, dv with
   | object, _ | _, object =>
       match a with
       | [] => ret []
       | _ => raise TypeError
       end
   | _, _ =>
       ret (map (fun ab => fsqrt (to_f64 (plus (fst ab) (snd ab))))
                (combine a b))
   end)%result.

(** The speed of one pair of numbers. *)
Definition speed (um vm : scalar) : spec_float :=
  fsqrt (to_f64 (plus (sq um) (sq vm))).

(** [np.pi]. *)
Definition pi64 : spec_float := S754_finite false 7074237752028440 (-51).

Section Direction.

(** [np.arctan2] on binary64 numbers is the function of the C library
    and is left open. *)
Variable arctan2 : spec_float -> spec_float -> spec_float.

(** [270.0 - 180.0/np.pi*np.arctan2(vm, um)]. *)
Definition direction0 (um vm : scalar) : spec_float :=
  fsub (f64 270)
       (fmul (fdiv (f64 180) pi64) (arctan2 (to_f64 vm) (to_f64 um))).

(** [newdf.loc[newdf['direction'] > 360.0,'direction'] -= 360.0]. *)
Definition wrap (d : spec_float) : spec_float :=
  if SFltb (f64 360) d then fsub d (f64 360) else d.

Definition direction (um vm : scalar) : spec_float :=
  wrap (direction0 um vm).

(** A row of the result: [date_time], [height], [speed], [direction]. *)
Record observation : Type := mkObs {
  o_time : scalar;
  o_height : spec_float;
  o_speed : spec_float;
  o_direction : spec_float
}.

(** The row of the result for a pair of the merged frame and its speed. *)
Definition observe
  (ps : ((melted * spec_float) * (melted * spec_float)) * spec_float)
  : observation :=
  let p := fst ps in
  mkObs (m_time (fst (fst p))) (snd (fst p)) (snd ps)
        (direction (um_of p) (vm_of p)).

(** [windcube_v1] after [pd.read_table]. *)
Definition reshape (df : frame) (alts : list spec_float)
  : result (list observation) :=
  let um_vars := vars "um" (length alts) in
  let vm_vars := vars "vm" (length alts) in
  (um <- melt df um_vars ;;
   vm <- melt df vm_vars ;;
   let um' := map (with_height um_vars alts) (m_rows um) in
   let vm' := map (with_height vm_vars alts) (m_rows vm) in
   let newdf := pd_merge um' vm' in
   speed <- speeds (value_dtype um) (value_dtype vm)
                   (map um_of newdf) (map vm_of newdf) ;;
   ret (map observe (combine newdf speed)))%result.

End Direction.

End Reshape.

(** ** The WindCube lidar: the whole reader *)

Section WindCube.

(** [pd.read_table(f, delim_whitespace=True, names=columns,
    parse_dates=[['date','time']], dayfirst=True)] is left open: what it
    makes of the lines that are left and of the column names. *)
Variable read_table : stream -> list string -> result Reshape.frame.

Variable arctan2 : spec_float -> spec_float -> spec_float.

(** [windcube_v1]: the long table and [scan_info], which the caller gets
    with [return_header=True]. *)
Definition windcube_v1 (f : stream) (default_columns : list string)
  (default_altitudes : list spec_float)
  : result (list Reshape.observation * dict param) :=
  (head <- windcube_header f default_columns default_altitudes ;;
   df <- read_table (wc_data head) (wc_columns head) ;;
   newdf <- Reshape.reshape arctan2 df (altitudes head) ;;
   ret (newdf, scan_info head))%result.

End WindCube.

(** ** Notions used in the statements *)

(** A function of the label and the cell, applied along a row. *)
Fixpoint map_row (g : string -> cell -> cell) (cols : list string)
  (r : list cell) : list cell :=
  match cols, r with
  | c :: cols', x :: r' => g c x :: map_row g cols' r'
  | _, _ => r
  end.

Definition map_frame (g : string -> cell -> cell) (df : DataFrame) : DataFrame :=
  mkFrame (columns df) (map (map_row g (columns df)) (rows df)).

Definition mask1 (col : string) (val : spec_float) (c : string) (x : cell) : cell :=
  if String.eqb c col && cell_eq x val then NaN else x.

(** A masking step either keeps a cell or puts the marker, and keeps the
    marker. *)
Definition masking (g : string -> cell -> cell) : Prop :=
  forall c x, (g c x = x \/ g c x = NaN) /\ g c NaN = NaN.

(** What the loops over the sentinels [vals] and the columns [cols] make
    of a cell of column [c]. *)
Definition masked_cell (vals : list spec_float) (cols : list string)
  (c : string) (x : cell) : cell :=
  if Py.mem c cols && existsb (cell_eq x) vals then NaN else x.

(** The loops go through on the labels [labels]: there is no sentinel,
    or every column to mask is the label of one column only. *)
Definition maskable (vals : list spec_float) (cols labels : list string)
  : bool :=
  match vals with
  | [] => true
  | _ => forallb (single labels) cols
  end.

(** After [g], no cell of column [col] equals [val]. *)
Definition clears (g : string -> cell -> cell) (col : string) (val : spec_float)
  : Prop :=
  forall x, cell_eq (g col x) val = false.


(** [reads to_datetime f dfs f']: from [f], the blocks [dfs] are read one
    after the other without an exception, and [f'] is what is left. *)
Inductive reads (to_datetime : string -> option Z)
  : stream -> list DataFrame -> stream -> Prop :=
| reads_nil (f : stream) : reads to_datetime f [] f
| reads_cons (f f1 f2 : stream) (df : DataFrame) (dfs : list DataFrame) :
    read_profiler_data_block to_datetime f = inr (df, f1) ->
    reads to_datetime f1 dfs f2 ->
    reads to_datetime f (df :: dfs) f2.

(** Text files of the examples: each line gets its line feed. *)
Definition nl : string := String (ascii_of_nat 10) EmptyString.

Definition lines_of (ls : list string) : stream := map (fun l => l ++ nl) ls.

(** The altitudes 40 and 80 as the header of a WindCube file gives them. *)
Definition altitudes_line : string :=
  "Altitudes(m)=40" ++ String tab EmptyString ++ "80".

(** Two blocks on different labels, for the examples. *)
Definition block_ab : DataFrame :=
  mkFrame ["a"; "b"]
    [[CFloat (Py.float_of_Z 1); CFloat (Py.float_of_Z 2)]].

Definition block_abc : DataFrame :=
  mkFrame ["a"; "b"; "c"]
    [[CFloat (Py.float_of_Z 3); CFloat (Py.float_of_Z 4);
      CFloat (Py.float_of_Z 5)]].

(** A file of the radar wind profiler with one block of two range gates,
    and a stand-in for [pd.to_datetime] that accepts every text. *)
Definition radar_file : stream :=
  lines_of
    [""; "STATION"; "WINDS    rev 5.1"; "45.0 120.0 100";
     "16 03 01 00 00 00 0"; "24"; "beam"; "beam"; "beam"; "beam";
     "HT SPD DIR"; "0.1 999999 180"; "0.2 7 999999"; "$"].

Definition any_datetime (s : string) : option Z := Some 0%Z.

(** The same file with a speed column named [SPD.x]. *)
Definition radar_file_suffix : stream :=
  lines_of
    [""; "STATION"; "WINDS    rev 5.1"; "45.0 120.0 100";
     "16 03 01 00 00 00 0"; "24"; "beam"; "beam"; "beam"; "beam";
     "HT SPD.x DIR"; "0.1 999999 180"; "0.2 7 999999"; "$"].

(** A file whose header resolves to the labels [a.0 a.1 a.0]. *)
Definition radar_file_repeated : stream :=
  lines_of
    [""; "STATION"; "WINDS    rev 5.1"; "45.0 120.0 100";
     "16 03 01 00 00 00 0"; "24"; "beam"; "beam"; "beam"; "beam";
     "a a a.0"; "1 2 3"; "$"].

(** The cell of a number written as text. *)
Definition num (s : string) : cell :=
  match Py.float s with
  | Some x => CFloat x
  | None => NaN
  end.

(** ** The long table, level by level *)

Module LongTable.
Import Reshape.

(** The column of a frame under a label; an empty object column stands
    for a column the frame lacks. *)
Definition the_column (df : frame) (v : string) : series :=
  match dict_get v df with
  | Some s => s
  | None => Object []
  end.

Definition values (df : frame) (v : string) : list scalar :=
  items (the_column df v).

Definition dtype_at (df : frame) (v : string) : dtype :=
  dtype_of (the_column df v).

(** The time stamps of the rows. *)
Definition times (df : frame) : list scalar := values df "date_time".

(** The dtype in which [pd.melt] holds the values of the columns
    [prefix1], ..., [prefix<n>]. *)
Definition family_dtype (df : frame) (prefix : string) (n : nat) : dtype :=
  common_dtype (map (dtype_at df) (vars prefix n)).

(** The labels [um1], [vm1], ... of [n] levels. *)
Definition components (n : nat) : list string :=
  (vars "um" n ++ vars "vm" n)%list.

(** The frame has [date_time] and the columns [vs]. *)
Definition present (df : frame) (vs : list string) : Prop :=
  dict_get "date_time" df <> None
  /\ forall v, In v vs -> dict_get v df <> None.

(** The columns [vs] hold numbers. *)
Definition numbers (df : frame) (vs : list string) : Prop :=
  forall v, In v vs -> is_number (dtype_at df v) = true.

(** The columns [vs] hold binary64 numbers. *)
Definition floats (df : frame) (vs : list string) : Prop :=
  forall v, In v vs -> dtype_at df v = float64.

(** The columns [vs] have a value in every row. *)
Definition rectangular (df : frame) (vs : list string) : Prop :=
  forall v, In v vs -> length (values df v) = length (times df).

(** The rows of the melted family of the columns [vs], held in the
    dtype [d]. *)
Definition melted_family (df : frame) (d : dtype) (vs : list string)
  : list melted :=
  flat_map
    (fun v => map (fun tx => mkMelted (fst tx) v (cast d (snd tx)))
                  (combine (times df) (values df v)))
    vs.

(** The melted rows of level [i] at height [h], for the family of
    columns that begin with [prefix]. *)
Definition component (df : frame) (prefix : string) (n : nat)
  (ih : nat * spec_float) : list (melted * spec_float) :=
  map (fun tx =>
         (mkMelted (fst tx) (prefix ++ Py.str (fst ih))
                   (cast (family_dtype df prefix n) (snd tx)),
          snd ih))
      (combine (times df) (values df (prefix ++ Py.str (fst ih)))).

(** The levels with their numbers, from 1. *)
Definition levels (alts : list spec_float) : list (nat * spec_float) :=
  combine (seq 1 (length alts)) alts.

Section Table.

Variable arctan2 : spec_float -> spec_float -> spec_float.

(** The row of the result for a time stamp, a height and two
    components. *)
Definition observed (t : scalar) (h : spec_float) (um vm : scalar)
  : observation :=
  mkObs t h (speed um vm) (direction arctan2 um vm).

(** The observations of level [i] at height [h]: one for each row of the
    frame, from its columns [um<i>] and [vm<i>]. *)
Definition level_rows (df : frame) (n : nat) (ih : nat * spec_float)
  : list observation :=
  map (fun txy =>
         observed (fst txy) (snd ih)
                  (cast (family_dtype df "um" n) (fst (snd txy)))
                  (cast (family_dtype df "vm" n) (snd (snd txy))))
      (combine (times df)
               (combine (values df ("um" ++ Py.str (fst ih)))
                        (values df ("vm" ++ Py.str (fst ih))))).

(** The levels one after the other. *)
Definition long_table (df : frame) (alts : list spec_float)
  : list observation :=
  flat_map (level_rows df (length alts)) (levels alts).

End Table.

End LongTable.

(** A stand-in for [np.arctan2] that knows the two half-axes of the
    examples, where the C library is exact: [arctan2(0, 1) = 0] and
    [arctan2(1, 0)] is the binary64 number nearest to pi/2. *)
Definition half_pi64 : spec_float := S754_finite false 7074237752028440 (-52).

Definition axes_arctan2 (y x : spec_float) : spec_float :=
  if SFeqb y (Reshape.f64 0) && SFeqb x (Reshape.f64 1) then S754_zero false
  else if SFeqb y (Reshape.f64 1) && SFeqb x (Reshape.f64 0) then half_pi64
       else S754_nan.

(** A stand-in for [pd.read_table] at the end of the file: no line is
    left, and the frame has the columns of the names and no row. *)
Definition read_nothing (f : stream) (names : list string)
  : result Reshape.frame :=
  ret (map (fun c => (c, Reshape.Object [])) names).

(** Frames of the examples: one level read as binary64 numbers, two
    levels, and one level read as integers. *)
Definition frame_one_level : Reshape.frame :=
  [("date_time", Reshape.Datetime64 [1; 2]%Z);
   ("um1", Reshape.Float64 [Reshape.f64 1; Reshape.f64 0]);
   ("vm1", Reshape.Float64 [Reshape.f64 0; Reshape.f64 1])].


Definition frame_five_rows : Reshape.frame :=
  [("date_time", Reshape.Datetime64 [1; 2; 3; 4; 5]%Z);
   ("um1", Reshape.Float64 (map Reshape.f64 [1; 1; 1; 1; 1]%Z));
   ("vm1", Reshape.Float64 (map Reshape.f64 [0; 0; 0; 0; 0]%Z));
   ("um2", Reshape.Float64 (map Reshape.f64 [0; 0; 0; 0; 0]%Z));
   ("vm2", Reshape.Float64 (map Reshape.f64 [1; 1; 1; 1; 1]%Z))].


(** ** The ARL sodar *)

(** [s.replace(c, '')] for a character. *)
Fixpoint remove_char (c : ascii) (s : string) : string :=
  match s with
  | EmptyString => EmptyString
  | String d s' =>
      if Ascii.eqb d c then remove_char c s' else String d (remove_char c s')
  end.

Definition double_quote : ascii := ascii_of_nat 34.

(** [df[label].values]: [KeyError] for a label the frame lacks. *)
Definition column (label : string) (df : DataFrame) : result (list cell) :=
  if Py.mem label (columns df)
  then ret (map (fun r => match lookup label (columns df) r with
                          | Some x => x
                          | None => CNone
                          end)
                (rows df))
  else raise KeyError.

(** [np.all(values == gates)]: the two have to agree place by place. *)
Fixpoint all_equal (values : list cell) (gates : list spec_float) : bool :=
  match values, gates with
  | [], [] => true
  | x :: values', g :: gates' => cell_eq x g && all_equal values' gates'
  | _, _ => false
  end.

Section ARL.

Variable to_datetime : string -> option Z.

(** The module globals [header] and [range_gates], which the file does
    not define. *)
Variable header : list string.
Variable range_gates : list spec_float.

Variable bad_speed_value bad_direction_value : spec_float.

(** The time stamp of a block, from its first line. *)
Definition ARL_date_time (firstline : string) : result Z :=
  match Py.split_on "," (remove_char double_quote firstline) with
  | [_; year; month; day; time; _] =>
      pd_to_datetime to_datetime
        (year ++ month ++ day ++ " " ++ substring 0 5 time)
  | _ => raise ValueError
  end.

(** The body of the [while] loop, from [firstline] to the frame that is
    appended. *)
Definition ARL_block (firstline : string) (f : stream)
  : result (DataFrame * stream) :=
  (date_time <- ARL_date_time firstline ;;
   let f1 := snd (readline f) in
   r <- ARL_read_block header (length range_gates) f1 ;;
   let df := fst r in
   heights <- column "height_m" df ;;
   if negb (all_equal heights range_gates) then raise AssertionError
   else
     let df1 := assign "date_time" (CTime date_time) df in
     df2 <- loc_mask "windspeed_ms" bad_speed_value df1 ;;
     df3 <- loc_mask "winddirection_deg" bad_direction_value df2 ;;
     ret (df3, snd r))%result.

(** [while not firstline=='': ...; firstline = f.readline()].  Each round
    takes the line it starts from out of the stream, so a number of rounds
    above the number of lines is never used up. *)
Fixpoint ARL_blocks (fuel : nat) (firstline : string) (f : stream)
  : result (list DataFrame) :=
  match fuel with
  | O => ret []
  | S fuel' =>
      if String.eqb firstline "" then ret []
      else
        match ARL_block firstline f with
        | inl e => raise e
        | inr (df, f') =>
            let (next, f'') := readline f' in
            (dfs <- ARL_blocks fuel' next f'' ;; ret (df :: dfs))%result
        end
  end.

Definition ARL_wind_profiler (f : stream) : result DataFrame :=
  let (firstline, f1) := readline f in
  (dataframes <- ARL_blocks (S (length f)) firstline f1 ;;
   pd_concat dataframes)%result.

End ARL.

(** A file of the ARL sodar with two blocks of two range gates. *)
Definition sodar_header : list string :=
  ["height_m"; "windspeed_ms"; "winddirection_deg"].

Definition sodar_file : stream :=
  lines_of
    ["x,2016,03,01,00:10:00,y"; "parameters";
     "30,5.5,180"; "40,-99.9,999";
     "x,2016,03,01,00:20:00,y"; "parameters";
     "30,6.5,190"; "40,7.5,200"].

(** The cells of a frame under a label, row by row. *)
Definition cells_under (label : string) (df : DataFrame) : list (option cell) :=
  map (fun r => lookup label (columns df) r) (rows df).

(** The cell of a row under a label, [None] when the row has none. *)
Definition value_under (label : string) (cols : list string) (r : list cell)
  : cell :=
  match lookup label cols r with
  | Some x => x
  | None => CNone
  end.

(** The cell that is there, [None] when there is none. *)
Definition or_none (o : option cell) : cell :=
  match o with
  | Some x => x
  | None => CNone
  end.

(** The number a text stands for, for the examples. *)
Definition float_of (s : string) : spec_float :=
  match Py.float s with
  | Some x => x
  | None => S754_nan
  end.

Definition sodar_gates : list spec_float := [float_of "30"; float_of "40"].

(** ** The Scintec sodar *)

(** A text with a decimal digit in it. *)
Fixpoint has_digit (s : string) : bool :=
  match s with
  | EmptyString => false
  | String c s' => Py.is_digit c || has_digit s'
  end.

Definition is_infinite (x : spec_float) : bool :=
  match x with
  | S754_infinity _ => true
  | _ => false
  end.

(** [pd.to_numeric] on one cell of an object column.  Text goes through
    the parser of pandas, which takes the numerals [float] takes except
    those with digit-group underscores, [nan], and the decimal numerals
    that are out of the range of binary64; a numeral that [int] takes as
    well has to lie between [-2^63] and [2^64-1].  The value is the one
    [float] gives, with which the parser of pandas agrees up to the
    rounding of long numerals.  [None] gives the marker.  A column of
    integers stays a column of 64-bit integers in pandas; here its cells
    are the binary64 numbers nearest to them. *)
Definition to_number (x : cell) : result cell :=
  match x with
  | CStr s =>
      if Py.contains "_" s then raise ValueError
      else
        match Py.float s with
        | None => raise ValueError
        | Some v =>
            if is_nan v || (is_infinite v && has_digit s)
            then raise ValueError
            else
              match Py.int s with
              | Some z =>
                  if ((z <? - 2 ^ 63) || (2 ^ 64 - 1 <? z))%Z
                  then raise ValueError
                  else ret (CFloat v)
              | None => ret (CFloat v)
              end
        end
  | CNone => ret NaN
  | CFloat v => ret (CFloat v)
  | CTime _ => raise TypeError
  end.

(** [pd.to_numeric] on the cells of a row under [label]. *)
Fixpoint row_to_numeric (label : string) (cols : list string) (r : list cell)
  : result (list cell) :=
  match cols, r with
  | c :: cols', x :: r' =>
      match (if String.eqb c label then to_number x else ret x) with
      | inl e => inl e
      | inr y =>
          match row_to_numeric label cols' r' with
          | inl e => inl e
          | inr ys => ret (y :: ys)
          end
      end
  | _, _ => ret r
  end.

(** [df[label] = pd.to_numeric(df[label])]: [df[label]] is a [KeyError]
    for a label the frame lacks, and for a label the frame has more than
    once it is a frame, which [pd.to_numeric] refuses with a
    [TypeError]. *)
Definition to_numeric_column (label : string) (df : DataFrame)
  : result DataFrame :=
  if Py.mem label (columns df)
  then if single (columns df) label
       then (rs <- mapM (row_to_numeric label (columns df)) (rows df) ;;
             ret (mkFrame (columns df) rs))%result
       else raise TypeError
  else raise KeyError.

Definition int_or_raise (s : string) : result Z :=
  match Py.int s with
  | Some z => ret z
  | None => raise ValueError
  end.

(** [Ncomments,Nvar,Nz = [int(val) for val in number_of]]. *)
Definition three_counts (number_of : list string) : result (Z * Z * Z) :=
  match mapM int_or_raise number_of with
  | inl e => inl e
  | inr [a; b; c] => ret (a, b, c)
  | inr _ => raise ValueError
  end.

(** The loop over the lines that define the variables: the names of the
    columns, and the sentinel of each column whose line ends in a
    number. *)
Fixpoint read_variables (n : nat) (f : stream) (cols : list string)
  (na_values : dict spec_float) : list string * dict spec_float * stream :=
  match n with
  | O => (cols, na_values, f)
  | S n' =>
      let (line, f') := readline f in
      let defn := Py.split_on "#" (Py.strip line) in
      let col := Py.strip (hd EmptyString defn) in
      let na_values' :=
        match Py.float (last defn EmptyString) with
        | Some x => dict_set col x na_values
        | None => na_values
        end in
      read_variables n' f' (cols ++ [col])%list na_values'
  end.

Section Scintec.

Variable to_datetime : string -> option Z.

(** [pd.to_timedelta] on a string is left open like [pd.to_datetime]. *)
Variable to_timedelta : string -> option Z.

Definition pd_to_timedelta (s : string) : result Z :=
  match to_timedelta s with
  | Some t => ret t
  | None => raise ValueError
  end.

(** The [while True] loop over the profiles.  A round that goes on has
    read a line with three tokens, so a number of rounds above the number
    of lines is never used up. *)
Fixpoint read_profiles (fuel : nat) (datetime0 : Z) (cols : list string)
  (Nz : nat) (firstread : bool) (f : stream) : result (list DataFrame) :=
  match fuel with
  | O => ret []
  | S fuel' =>
      let (line, f1) := readline f in
      match Py.split line with
      | day :: time :: duration :: _ =>
          match pd_to_datetime to_datetime (day ++ " " ++ time) with
          | inl e => inl e
          | inr datetime_end =>
              match pd_to_timedelta duration with
              | inl e => inl e
              | inr dt =>
                  let datetime_start := (datetime_end - dt)%Z in
                  if firstread && negb (Z.eqb datetime_end datetime0)
                  then raise AssertionError
                  else
                    match scintec_read_block cols Nz f1 with
                    | inl e => inl e
                    | inr (df, f2) =>
                        let df' := assign "datetime" (CTime datetime_start) df in
                        let f3 := snd (readline f2) in
                        (dfs <- read_profiles fuel' datetime0 cols Nz false f3 ;;
                         ret (df' :: dfs))%result
                    end
              end
          end
      | _ => ret []
      end
  end.

Definition scintec_profiler (f : stream) : result DataFrame :=
  let f := skip_lines 1 f in
  let (dateline, f) := readline f in
  match pd_to_datetime to_datetime
          (String.concat " " (firstn 2 (Py.split dateline))) with
  | inl e => inl e
  | inr datetime0 =>
      let f := skip_lines 1 f in
      let (number_of, f) := readline f in
      match three_counts (Py.split number_of) with
      | inl e => inl e
      | inr (Ncomments, Nvar, Nz) =>
          let f := skip_lines 1 f in
          let f := skip_lines 3 f in
          let f := skip_lines (Z.to_nat Ncomments) f in
          let f := skip_lines 3 f in
          let (main, f) := readline f in
          if negb (String.eqb (Py.strip main) "Main Data")
          then raise AssertionError
          else
            let f := skip_lines 3 f in
            let '(cols, na_values, f) :=
              read_variables (Z.to_nat (Nvar + 1)) f [] [] in
            let f := skip_lines 3 f in
            let f := skip_lines 1 f in
            (dflist <- read_profiles (S (length f)) datetime0 cols
                                     (Z.to_nat Nz) true f ;;
             df <- pd_concat dflist ;;
             df <- to_numeric_column "height" df ;;
             scintec_mask na_values df)%result
      end
  end.

End Scintec.

(** A file of the Scintec sodar with two profiles of two levels. *)
Definition scintec_file : stream :=
  lines_of
    ["FORMAT-1"; "2016-03-01 00:10:00 1"; "MFAS"; "0 2 2"; "";
     "# file information"; "-"; "-";
     "# file type"; "-"; "-"; "Main Data";
     "# variable definitions"; "-"; "-";
     "height # z # m # G1 # 0 # 99999";
     "wind speed # speed # m/s # G1 # 0 # 99.99";
     "wind direction # dir # deg # G1 # 0 # 999.9";
     "# beginning of data block"; "-"; "-"; "";
     "2016-03-01 00:10:00 00:10:00";
     "# z speed dir"; "30 5.5 180"; "40 99.99 999.9"; "";
     "2016-03-01 00:20:00 00:10:00";
     "# z speed dir"; "30 6.5 190"; "40 7.5 200"; ""].

(** A cell that is no number. *)
Definition textual (x : cell) : Prop :=
  match x with
  | CFloat _ => False
  | _ => True
  end.

(** A step that leaves alone what is no number. *)
Definition inert (g : string -> cell -> cell) : Prop :=
  forall c x, textual x -> g c x = x.

(** ** The microwave radiometer: records and their sorting

    [ESRL_radiometrics_mwr] up to the dicts [data] and [datanames]; the
    frames built from them are not modelled. *)

(** A dict with integer keys, in insertion order. *)
Fixpoint zdict_set {V : Type} (k : Z) (v : V) (d : list (Z * V))
  : list (Z * V) :=
  match d with
  | [] => [(k, v)]
  | (k', v') :: d' =>
      if Z.eqb k k' then (k, v) :: d' else (k', v') :: zdict_set k v d'
  end.

Fixpoint zdict_get {V : Type} (k : Z) (d : list (Z * V)) : option V :=
  match d with
  | [] => None
  | (k', v') :: d' => if Z.eqb k k' then Some v' else zdict_get k d'
  end.

(** [s.rstrip(c)] for a character. *)
Fixpoint rstrip_char (c : ascii) (s : string) : string :=
  match s with
  | EmptyString => EmptyString
  | String d s' =>
      match rstrip_char c s' with
      | EmptyString => if Ascii.eqb d c then EmptyString else String d EmptyString
      | r => String d r
      end
  end.

(** The first pass over the file: the lines that begin with [Record]
    give [records], from the record number to the names of its fields. *)
Fixpoint read_records (f : stream) (records : list (Z * list string))
  : result (list (Z * list string)) :=
  match f with
  | [] => ret records
  | line :: f' =>
      let fields := Py.split_on "," (Py.strip line) in
      if negb (String.eqb (hd EmptyString fields) "Record") then ret records
      else
        match nth_error fields 2 with
        | None => raise IndexError
        | Some s =>
            match Py.int s with
            | None => raise ValueError
            | Some rec_id => read_records f' (zdict_set rec_id (skipn 3 fields) records)
            end
        end
  end.

(** The nested function [record_header]. *)
Definition record_header (records : list (Z * list string)) (record_id : Z)
  : result (list string) :=
  let header_id := (record_id - record_id mod 10)%Z in
  match zdict_get header_id records with
  | None => raise AssertionError
  | Some names => ret ("datetime" :: "id" :: names)
  end.

(** The second pass: the lines after the first [Nrecords], each without
    its trailing commas, split, and without its first field. *)
Definition read_rawdata (Nrecords : nat) (f : stream) : list (list string) :=
  map (fun line => tl (Py.split_on "," (rstrip_char "," (Py.strip line))))
      (skipn Nrecords f).

(** What the sorting loop builds: [data], [datanames] and what it
    prints. *)
Record sorted : Type := mkSorted {
  s_data : list (Z * list (list string));
  s_datanames : list (Z * string);
  s_printed : list string
}.

(** [data[rec].append(linesplit)], or [data[rec] = [linesplit]] for a
    new key. *)
Definition data_append (rec : Z) (linesplit : list string)
  (data : list (Z * list (list string))) : list (Z * list (list string)) :=
  match zdict_get rec data with
  | Some ls => zdict_set rec (ls ++ [linesplit])%list data
  | None => zdict_set rec [linesplit] data
  end.

(** One round of the sorting loop. *)
Definition sort_line (verbose : bool) (linesplit : list string) (s : sorted)
  : result sorted :=
  match nth_error linesplit 1 with
  | None => raise IndexError
  | Some t =>
      match Py.int t with
      | None => raise ValueError
      | Some rec =>
          if Z.eqb rec 99
          then ret (if verbose
                    then mkSorted (s_data s) (s_datanames s)
                           (s_printed s
                              ++ [("[99] " ++ " "
                                     ++ String.concat " " (skipn 2 linesplit))%string])%list
                    else s)
          else if Z.eqb rec 101
          then match nth_error linesplit 3 with
               | None => raise IndexError
               | Some name =>
                   match nth_error linesplit 2 with
                   | None => raise IndexError
                   | Some i =>
                       match Py.int i with
                       | None => raise ValueError
                       | Some id =>
                           ret (mkSorted (s_data s)
                                  (zdict_set id name (s_datanames s))
                                  (s_printed s))
                       end
                   end
               end
          else ret (mkSorted (data_append rec linesplit (s_data s))
                      (s_datanames s) (s_printed s))
      end
  end.

(** [for linesplit in rawdata: ...]. *)
Fixpoint sort_lines (verbose : bool) (rawdata : list (list string))
  (s : sorted) : result sorted :=
  match rawdata with
  | [] => ret s
  | linesplit :: rest =>
      match sort_line verbose linesplit s with
      | inl e => inl e
      | inr s' => sort_lines verbose rest s'
      end
  end.

(** The record number of a data line, when it has one. *)
Definition record_of (linesplit : list string) : option Z :=
  match nth_error linesplit 1 with
  | Some t => Py.int t
  | None => None
  end.

(** The lines kept under a key, none when the key is absent. *)
Definition entries (rec : Z) (data : list (Z * list (list string)))
  : list (list string) :=
  match zdict_get rec data with
  | Some ls => ls
  | None => []
  end.

(** The data lines of one record, in their order. *)
Definition lines_of_record (rec : Z) (rawdata : list (list string))
  : list (list string) :=
  filter (fun linesplit => match record_of linesplit with
                           | Some r => Z.eqb r rec
                           | None => false
                           end)
         rawdata.

(** Lines of a radiometer file, for the examples. *)
Definition radiometer_file : stream :=
  lines_of
    ["Record,Date/Time,50,Tamb(K),Rh(%)";
     "Record,Date/Time,400,Ch1,Ch2";
     "1,03/01/16 00:00:01,51,280.5,40.1,";
     "2,03/01/16 00:00:02,401,1.5,2.5,";
     "3,03/01/16 00:00:03,99,restart";
     "4,03/01/16 00:01:01,51,281.5,41.1,"].

(** The labels of every block of a sodar file: those of [header] and
    [date_time]. *)
Definition ARL_labels (header : list string) : list string :=
  columns (assign "date_time" CNone (mkFrame header [])).

(** What holds of the frame of a block of a sodar file. *)
Definition ARL_sound (header : list string) (range_gates : list spec_float)
  (bad_speed_value bad_direction_value : spec_float) (d : DataFrame) : Prop :=
  columns d = ARL_labels header
  /\ (forall r, In r (rows d) -> length r = length (columns d))
  /\ all_equal (map (value_under "height_m" (columns d)) (rows d)) range_gates
     = true
  /\ (forall x, In (Some x) (cells_under "windspeed_ms" d) ->
                cell_eq x bad_speed_value = false)
  /\ (forall x, In (Some x) (cells_under "winddirection_deg" d) ->
                cell_eq x bad_direction_value = false).
(** * Properties *)

(** ** Schema resolution *)

Lemma nth_error_enumerate_from {A : Type} (l : list A) (a i : nat) :
  nth_error (combine (seq a (length l)) l) i
  = option_map (fun x => (a + i, x)) (nth_error l i).
Proof.
  revert a i; induction l as [|x l IH]; intros a i.
  - destruct i; reflexivity.
  - destruct i as [|i]; simpl.
    + now rewrite Nat.add_0_r.
    + rewrite IH. now rewrite Nat.add_succ_r.
Qed.

Lemma resolve_header_length (header : list string) :
  length (resolve_header header) = length header.
Proof.
  unfold resolve_header, Py.enumerate.
  rewrite length_map, length_combine, length_seq. apply Nat.min_id.
Qed.

Lemma resolve_header_nth (header : list string) (p : nat) (col : string) :
  nth_error header p = Some col ->
  nth_error (resolve_header header) p = Some (dedup_name header (p, col)).
Proof.
  intros H. unfold resolve_header, Py.enumerate.
  rewrite nth_error_map, nth_error_enumerate_from, H. reflexivity.
Qed.

(** C1, as amended.  A name at position [p] of the raw header that has
    [k] earlier occurrences is renamed to [<name>.<k>] as soon as the name
    occurs more than once in the header, the first occurrence included
    (it becomes [<name>.0]); a name that occurs exactly once keeps its
    name. *)
Theorem C1_dedup_rule (header : list string) (p k : nat) (col : string) :
  nth_error header p = Some col ->
  Py.count (firstn p header) col = k ->
  (1 < Py.count header col ->
   nth_error (resolve_header header) p = Some (col ++ "." ++ Py.str k))
  /\ (Py.count header col = 1 ->
      nth_error (resolve_header header) p = Some col).
Proof.
  intros Hp Hk. rewrite (resolve_header_nth _ _ _ Hp). unfold dedup_name.
  split; intros Hc.
  - apply Nat.ltb_lt in Hc. rewrite Hc, Hk. reflexivity.
  - rewrite Hc. reflexivity.
Qed.

Lemma C1_dedup_rule_witness :
  nth_error (resolve_header ["HT"; "RAD"; "RAD"]) 1 = Some "RAD.0"
  /\ nth_error (resolve_header ["HT"; "RAD"; "RAD"]) 0 = Some "HT".
Proof.
  split.
  - apply (C1_dedup_rule ["HT"; "RAD"; "RAD"] 1 0 "RAD");
      [reflexivity | reflexivity | vm_compute; lia].
  - apply (C1_dedup_rule ["HT"; "RAD"; "RAD"] 0 0 "HT");
      [reflexivity | reflexivity | reflexivity].
Defined.

(** C1 as the specification states it fails: the first occurrence of a
    repeated name does not keep its name. *)
Lemma C1_first_occurrence_renamed :
  ~ (forall (header : list string) (p : nat) (col : string),
        nth_error header p = Some col ->
        Py.count (firstn p header) col = 0 ->
        nth_error (resolve_header header) p = Some col).
Proof.
  intros H. specialize (H ["RAD"; "RAD"] 0 "RAD" eq_refl eq_refl).
  vm_compute in H. discriminate H.
Qed.

(** *** Headers without a dot in their names *)

Lemma str_inj (n m : nat) : Py.str n = Py.str m -> n = m.
Proof.
  unfold Py.str. intros E. apply Unsigned.to_uint_inj.
  assert (H : NilEmpty.uint_of_string (NilEmpty.string_of_uint (Nat.to_uint n))
              = NilEmpty.uint_of_string (NilEmpty.string_of_uint (Nat.to_uint m)))
    by now rewrite E.
  rewrite !NilEmpty.usu in H. now inversion H.
Qed.

Lemma contains_suffixed (a s : string) :
  Py.contains "." (a ++ String "." s) = true.
Proof.
  induction a as [|c a IH]; simpl in *; [reflexivity|].
  rewrite IH. apply orb_true_r.
Qed.

Lemma suffixed_inj (a b s t : string) :
  Py.contains "." a = false -> Py.contains "." b = false ->
  a ++ String "." s = b ++ String "." t -> a = b /\ s = t.
Proof.
  revert b; induction a as [|c a IH]; intros [|d b] Ha Hb E; simpl in *.
  - inversion E. auto.
  - inversion E; subst d. now rewrite Ascii.eqb_refl in Hb.
  - inversion E; subst c. now rewrite Ascii.eqb_refl in Ha.
  - inversion E; subst d.
    apply orb_false_iff in Ha. apply orb_false_iff in Hb.
    destruct (IH b) as [E1 E2]; try tauto. now subst.
Qed.

(** An occurrence at [i] is counted in every longer prefix. *)
Lemma count_firstn_later (h : list string) (i j : nat) (c : string) :
  nth_error h i = Some c -> i < j ->
  S (Py.count (firstn i h) c) <= Py.count (firstn j h) c.
Proof.
  unfold Py.count.
  revert i j; induction h as [|x h IH]; intros i j Hi Hij.
  - destruct i; discriminate Hi.
  - destruct j as [|j]; [lia|]. destruct i as [|i]; simpl in *.
    + inversion Hi; subst x. destruct (string_dec c c); [lia | contradiction].
    + specialize (IH i j Hi ltac:(lia)).
      destruct (string_dec x c); lia.
Qed.

Lemma count_two_positions (h : list string) (i j : nat) (c : string) :
  nth_error h i = Some c -> nth_error h j = Some c -> i < j ->
  2 <= Py.count h c.
Proof.
  intros Hi Hj Hij.
  assert (Lj : j < length h) by (apply nth_error_Some; congruence).
  assert (A := count_firstn_later h i j c Hi Hij).
  assert (B := count_firstn_later h j (length h) c Hj Lj).
  rewrite firstn_all in B. lia.
Qed.

(** When no raw name has a dot, the resolved names are pairwise distinct. *)
Lemma resolve_header_NoDup (header : list string) :
  (forall col, In col header -> Py.contains "." col = false) ->
  NoDup (resolve_header header).
Proof.
  intros Hdot. apply NoDup_nth_error. intros i j Li E.
  rewrite resolve_header_length in Li.
  destruct (nth_error header i) as [ci|] eqn:Hi;
    [|apply nth_error_None in Hi; lia].
  rewrite (resolve_header_nth _ _ _ Hi) in E.
  destruct (nth_error header j) as [cj|] eqn:Hj.
  2:{ apply nth_error_None in Hj. rewrite <- resolve_header_length in Hj.
      apply nth_error_None in Hj. rewrite Hj in E. discriminate E. }
  rewrite (resolve_header_nth _ _ _ Hj) in E. inversion E as [E']. clear E.
  assert (Di := Hdot ci (nth_error_In _ _ Hi)).
  assert (Dj := Hdot cj (nth_error_In _ _ Hj)).
  unfold dedup_name in E'.
  destruct (1 <? Py.count header ci)%nat eqn:Ci;
    destruct (1 <? Py.count header cj)%nat eqn:Cj.
  - destruct (suffixed_inj _ _ _ _ Di Dj E') as [Ec Ek]. subst cj.
    apply str_inj in Ek.
    destruct (Nat.lt_trichotomy i j) as [L | [L | L]]; [|exact L|].
    + assert (A := count_firstn_later header i j ci Hi L). lia.
    + assert (A := count_firstn_later header j i ci Hj L). lia.
  - subst cj. now rewrite contains_suffixed in Dj.
  - subst ci. now rewrite contains_suffixed in Di.
  - subst cj. apply Nat.ltb_ge in Ci.
    destruct (Nat.lt_trichotomy i j) as [L | [L | L]]; [|exact L|].
    + assert (A := count_two_positions header i j ci Hi Hj L). lia.
    + assert (A := count_two_positions header j i ci Hj Hi L). lia.
Qed.

(** Names that are pairwise distinct are left as they are. *)
Lemma resolve_header_fixed (header : list string) :
  NoDup header -> resolve_header header = header.
Proof.
  intros N. apply nth_error_ext. intros p.
  destruct (nth_error header p) as [col|] eqn:Hp.
  - rewrite (resolve_header_nth _ _ _ Hp). unfold dedup_name.
    assert (C : Py.count header col = 1).
    { apply NoDup_count_occ'; [exact N | now apply nth_error_In with p]. }
    now rewrite C.
  - apply nth_error_None. rewrite resolve_header_length.
    now apply nth_error_None.
Qed.

(** So for such headers a second resolution changes nothing. *)
Lemma resolve_header_idempotent (header : list string) :
  (forall col, In col header -> Py.contains "." col = false) ->
  resolve_header (resolve_header header) = resolve_header header.
Proof.
  intros Hdot. apply resolve_header_fixed. now apply resolve_header_NoDup.
Qed.

(** C8 on the header [a a a.0]: the resolved names are not pairwise
    distinct, and resolving them again changes them. *)
Theorem C8_collision :
  resolve_header ["a"; "a"; "a.0"] = ["a.0"; "a.1"; "a.0"]
  /\ ~ NoDup (resolve_header ["a"; "a"; "a.0"])
  /\ resolve_header (resolve_header ["a"; "a"; "a.0"])
     = ["a.0.0"; "a.1"; "a.0.1"]
  /\ resolve_header (resolve_header ["a"; "a"; "a.0"])
     <> resolve_header ["a"; "a"; "a.0"].
Proof.
  repeat split; try reflexivity.
  - intros H. vm_compute in H. inversion H as [|x l Hin _]; subst.
    apply Hin. right. left. reflexivity.
  - vm_compute. discriminate.
Qed.

(** ** Sentinel masking *)

Lemma cell_eq_NaN (val : spec_float) : cell_eq NaN val = false.
Proof. destruct val; reflexivity. Qed.

Lemma mask_cells_map_row col val cols r :
  mask_cells col val cols r = map_row (mask1 col val) cols r.
Proof.
  revert r; induction cols as [|c cols IH]; intros [|x r]; simpl; try reflexivity.
  now rewrite IH.
Qed.

Lemma mask_column_map_frame col val df :
  mask_column col val df = map_frame (mask1 col val) df.
Proof.
  unfold mask_column, map_frame. f_equal.
  apply map_ext; intros r. apply mask_cells_map_row.
Qed.

Lemma map_row_compose g h cols r :
  map_row g cols (map_row h cols r) = map_row (fun c x => g c (h c x)) cols r.
Proof.
  revert r; induction cols as [|c cols IH]; intros [|x r]; simpl; try reflexivity.
  now rewrite IH.
Qed.

Lemma map_frame_compose g h df :
  map_frame g (map_frame h df) = map_frame (fun c x => g c (h c x)) df.
Proof.
  unfold map_frame; simpl. f_equal. rewrite map_map.
  apply map_ext; intros r. apply map_row_compose.
Qed.

Lemma map_row_id cols r : map_row (fun _ x => x) cols r = r.
Proof.
  revert r; induction cols as [|c cols IH]; intros [|x r]; simpl; try reflexivity.
  now rewrite IH.
Qed.

Lemma map_frame_id df : map_frame (fun _ x => x) df = df.
Proof.
  destruct df as [cols rs]; unfold map_frame; simpl. f_equal.
  rewrite <- (map_id rs) at 2. apply map_ext; intros r. apply map_row_id.
Qed.

Lemma map_row_ext g h cols r :
  (forall c x, g c x = h c x) -> map_row g cols r = map_row h cols r.
Proof.
  intros E. revert r; induction cols as [|c cols IH]; intros [|x r]; simpl;
    try reflexivity.
  now rewrite E, IH.
Qed.

Lemma map_row_In g cols r c y :
  In (c, y) (combine cols (map_row g cols r)) ->
  exists x, In (c, x) (combine cols r) /\ y = g c x.
Proof.
  revert r; induction cols as [|c' cols IH]; intros [|x r]; simpl; try tauto.
  intros [E | H].
  - inversion E; subst. exists x. split; [now left | reflexivity].
  - destruct (IH _ H) as [x' [Hin E]]. exists x'. split; [now right | exact E].
Qed.

Lemma masking_id : masking (fun _ x => x).
Proof. intros c x; auto. Qed.

Lemma masking_mask1 col val : masking (mask1 col val).
Proof.
  intros c x; unfold mask1; split.
  - destruct (String.eqb c col && cell_eq x val); auto.
  - rewrite cell_eq_NaN, andb_false_r. reflexivity.
Qed.

Lemma masking_compose g h :
  masking g -> masking h -> masking (fun c x => g c (h c x)).
Proof.
  intros Hg Hh c x. destruct (Hh c x) as [[E | E] En]; rewrite ?E, ?En.
  - split; [apply (Hg c x) | apply (Hg c NaN)].
  - destruct (Hg c NaN) as [_ E']. rewrite E'. auto.
Qed.

Lemma masking_idempotent g c x : masking g -> g c (g c x) = g c x.
Proof.
  intros Hg. destruct (Hg c x) as [[E | E] En]; rewrite E; auto.
Qed.

Lemma clears_mask1 col val : clears (mask1 col val) col val.
Proof.
  intros x; unfold mask1. rewrite String.eqb_refl; simpl.
  destruct (cell_eq x val) eqn:E; [apply cell_eq_NaN | exact E].
Qed.

Lemma clears_after g h col val :
  masking g -> clears h col val -> clears (fun c x => g c (h c x)) col val.
Proof.
  intros Hg Hh x. destruct (Hg col (h col x)) as [[E | E] _]; rewrite E.
  - apply Hh.
  - apply cell_eq_NaN.
Qed.

Lemma clears_before g h col val :
  clears g col val -> clears (fun c x => g c (h c x)) col val.
Proof. intros Hg x. apply Hg. Qed.

Lemma map_frame_ext g h df :
  (forall c x, g c x = h c x) -> map_frame g df = map_frame h df.
Proof.
  intros E. unfold map_frame. f_equal.
  apply map_ext; intros r. now apply map_row_ext.
Qed.

Lemma map_frame_idempotent g df :
  masking g -> map_frame g (map_frame g df) = map_frame g df.
Proof.
  intros Hg. rewrite map_frame_compose. apply map_frame_ext.
  intros c x. now apply masking_idempotent.
Qed.

Lemma map_frame_cell g df r c y :
  In r (rows (map_frame g df)) ->
  In (c, y) (combine (columns df) r) ->
  exists x, y = g c x.
Proof.
  unfold map_frame; simpl. intros Hr Hc.
  apply in_map_iff in Hr. destruct Hr as [r0 [E _]]. subst r.
  destruct (map_row_In _ _ _ _ _ Hc) as [x [_ E]]. now exists x.
Qed.

(** The masking step on a frame whose label [col] is that of one column;
    otherwise it raises. *)
Lemma loc_mask_map_frame col val df :
  loc_mask col val df
  = if single (columns df) col
    then inr (map_frame (mask1 col val) df) else inl KeyError.
Proof. unfold loc_mask. now rewrite mask_column_map_frame. Qed.

Lemma mask_columns_raised val cols e :
  mask_columns val cols (inl e) = inl e.
Proof.
  unfold mask_columns. induction cols as [|col cols IH]; simpl;
    [reflexivity | exact IH].
Qed.

Lemma masked_cell_none cols c x : masked_cell [] cols c x = x.
Proof. unfold masked_cell. simpl. now rewrite andb_false_r. Qed.

Lemma masked_cell_no_column vals c x : masked_cell vals [] c x = x.
Proof. reflexivity. Qed.

Lemma masked_cell_NaN vals cols c : masked_cell vals cols c NaN = NaN.
Proof. unfold masked_cell. now destruct (_ && _). Qed.

Lemma masked_cell_next_column val col cols c x :
  masked_cell [val] cols c (mask1 col val c x)
  = masked_cell [val] (col :: cols) c x.
Proof.
  unfold mask1. destruct (String.eqb c col && cell_eq x val) eqn:E.
  - rewrite masked_cell_NaN. apply andb_prop in E. destruct E as [E1 E2].
    unfold masked_cell, Py.mem. simpl. now rewrite E1, E2.
  - unfold masked_cell, Py.mem. simpl.
    destruct (String.eqb c col); simpl in *; [|reflexivity].
    rewrite E. simpl. now rewrite andb_false_r.
Qed.

Lemma masked_cell_next_value val vals cols c x :
  masked_cell vals cols c (masked_cell [val] cols c x)
  = masked_cell (val :: vals) cols c x.
Proof.
  unfold masked_cell at 2. simpl.
  destruct (Py.mem c cols) eqn:M; simpl.
  - destruct (cell_eq x val) eqn:E; simpl.
    + rewrite masked_cell_NaN. unfold masked_cell. simpl. now rewrite M, E.
    + unfold masked_cell. simpl. now rewrite M, E.
  - unfold masked_cell. now rewrite M.
Qed.

(** The loop over the columns is one pass of [masked_cell], unless one of
    the columns is no label or a repeated one. *)
Lemma mask_columns_spec val cols df :
  mask_columns val cols (inr df)
  = if forallb (single (columns df)) cols
    then inr (map_frame (masked_cell [val] cols) df) else inl KeyError.
Proof.
  revert df. induction cols as [|col cols IH]; intros df.
  - simpl. f_equal. rewrite <- (map_frame_id df) at 1. reflexivity.
  - change (mask_columns val (col :: cols) (inr df))
      with (mask_columns val cols (loc_mask col val df)).
    rewrite loc_mask_map_frame. cbn [forallb].
    destruct (single (columns df) col); cbn [andb].
    + rewrite IH. cbn [map_frame columns].
      destruct (forallb (single (columns df)) cols); [|reflexivity].
      f_equal. rewrite map_frame_compose. apply map_frame_ext.
      intros c x. apply masked_cell_next_column.
    + apply mask_columns_raised.
Qed.

(** So are the two nested loops. *)
Lemma mask_values_spec vals cols df :
  mask_values vals cols df
  = if maskable vals cols (columns df)
    then inr (map_frame (masked_cell vals cols) df) else inl KeyError.
Proof.
  unfold mask_values, ret. revert df.
  induction vals as [|val vals IH]; intros df.
  - simpl. f_equal. rewrite <- (map_frame_id df) at 1.
    apply map_frame_ext. intros c x. symmetry. apply masked_cell_none.
  - cbn [fold_left maskable]. rewrite mask_columns_spec.
    destruct (forallb (single (columns df)) cols) eqn:A.
    + rewrite IH. cbn [map_frame columns].
      replace (maskable vals cols (columns df)) with true
        by (destruct vals; simpl; congruence).
      f_equal. rewrite map_frame_compose. apply map_frame_ext.
      intros c x. apply masked_cell_next_value.
    + clear. induction vals as [|v vals IH]; simpl; [reflexivity|].
      now rewrite mask_columns_raised.
Qed.

Lemma mask_values_returns vals cols df masked :
  mask_values vals cols df = inr masked ->
  maskable vals cols (columns df) = true
  /\ masked = map_frame (masked_cell vals cols) df.
Proof.
  rewrite mask_values_spec.
  destruct (maskable vals cols (columns df)); [|discriminate].
  intros E. inversion E. auto.
Qed.

Lemma masking_masked_cell vals cols : masking (masked_cell vals cols).
Proof.
  intros c x. split.
  - unfold masked_cell. destruct (_ && _); auto.
  - apply masked_cell_NaN.
Qed.

Lemma existsb_cell_eq x vals val :
  existsb (cell_eq x) vals = false -> In val vals -> cell_eq x val = false.
Proof.
  intros E Hin. destruct (cell_eq x val) eqn:C; [|reflexivity].
  rewrite <- E. symmetry. apply existsb_exists. now exists val.
Qed.

Lemma clears_masked_cell vals cols col val :
  Py.mem col cols = true -> In val vals ->
  clears (masked_cell vals cols) col val.
Proof.
  intros M Hin x. unfold masked_cell. rewrite M. simpl.
  destruct (existsb (cell_eq x) vals) eqn:E; [apply cell_eq_NaN|].
  now apply existsb_cell_eq with vals.
Qed.

Lemma masked_cell_elsewhere vals cols c x :
  Py.mem c cols = false -> masked_cell vals cols c x = x.
Proof. intros M. unfold masked_cell. now rewrite M. Qed.

Lemma masked_cell_sentinel vals cols c x val :
  Py.mem c cols = true -> In val vals -> cell_eq x val = true ->
  masked_cell vals cols c x = NaN.
Proof.
  intros M Hin E. unfold masked_cell. rewrite M. simpl.
  replace (existsb (cell_eq x) vals) with true; [reflexivity|].
  symmetry. apply existsb_exists. now exists val.
Qed.

(** The loop of [scintec_profiler], with the columns and the sentinels of
    its dict. *)
Lemma scintec_mask_spec (na_values : list (string * spec_float)) :
  exists g, masking g
    /\ forall df,
         scintec_mask na_values df
         = if forallb (fun cv => single (columns df) (fst cv)) na_values
           then inr (map_frame g df) else inl KeyError.
Proof.
  unfold scintec_mask.
  induction na_values as [|[col val] nav [g [Hm Hf]]].
  - exists (fun _ x => x). split; [apply masking_id|].
    intros df; simpl. now rewrite map_frame_id.
  - exists (fun c x => g c (mask1 col val c x)). split.
    + apply masking_compose; [exact Hm | apply masking_mask1].
    + intros df; simpl. rewrite loc_mask_map_frame.
      destruct (single (columns df) col) eqn:Hmem; simpl.
      * rewrite Hf. simpl. now rewrite map_frame_compose.
      * clear. induction nav as [|cv nav IH]; simpl; [reflexivity | exact IH].
Qed.

Lemma resolve_check_na_app (cols a b : list string) :
  resolve_check_na cols (a ++ b)
  = ((fst (resolve_check_na cols a) ++ fst (resolve_check_na cols b))%list,
     (snd (resolve_check_na cols a) ++ snd (resolve_check_na cols b))%list).
Proof.
  induction a as [|col a IH]; simpl.
  - now destruct (resolve_check_na cols b).
  - rewrite IH. destruct (resolve_check_na cols a) as [oa na].
    destruct (resolve_check_na cols b) as [ob nb]. simpl.
    destruct (0 <? length (matches cols col))%nat; simpl; [|reflexivity].
    now rewrite app_assoc.
Qed.

Lemma matches_none (cols : list string) (col : string) :
  Py.mem col cols = false ->
  (forall c, In c cols -> Py.startswith c (col ++ ".") = false) ->
  matches cols col = [].
Proof.
  intros Hm Hp. unfold matches. rewrite Hm.
  induction cols as [|c cols IH]; simpl; [reflexivity|].
  rewrite (Hp c (or_introl eq_refl)). apply IH.
  - simpl in Hm. apply orb_false_iff in Hm. apply Hm.
  - intros c' Hin. apply Hp. now right.
Qed.

(** C6, as amended.  A requested name that is no label of the frame and
    that no label begins with, a dot added, gets its note printed, in its
    place among the notes.  It adds no column to those that are masked:
    what the masking loop then gives, the masked frame or the exception it
    raises, is what it gives without that name. *)
Theorem C6_unmatched_column_reported (df : DataFrame)
  (before after : list string) (col : string) (na_values : na_arg) :
  Py.mem col (columns df) = false ->
  (forall c, In c (columns df) -> Py.startswith c (col ++ ".") = false) ->
  fst (sentinel_mask (before ++ col :: after) na_values df)
  = (fst (sentinel_mask before na_values df)
       ++ note col :: fst (sentinel_mask after na_values df))%list
  /\ snd (sentinel_mask (before ++ col :: after) na_values df)
     = snd (sentinel_mask (before ++ after) na_values df)
  /\ mask_sentinels [col] (Some na_values) df = inr ([note col], df).
Proof.
  intros Hm Hp. unfold mask_sentinels, sentinel_mask.
  rewrite !resolve_check_na_app. simpl.
  rewrite (matches_none _ _ Hm Hp). simpl.
  destruct (resolve_check_na (columns df) before) as [ob nb].
  destruct (resolve_check_na (columns df) after) as [oa na]. simpl.
  split; [reflexivity|]. split; [reflexivity|].
  rewrite mask_values_spec.
  replace (maskable (na_list na_values) [] (columns df)) with true
    by (destruct (na_list na_values); reflexivity).
  simpl. unfold ret. do 2 f_equal.
  rewrite <- (map_frame_id df) at 2. reflexivity.
Qed.

Lemma C6_unmatched_column_reported_witness :
  let df := mkFrame ["HT"; "SPD.0"; "SPD.1"]
              [[CFloat (Py.float_of_Z 1); CFloat (Py.float_of_Z 999999);
                CFloat (Py.float_of_Z 2)]] in
  fst (sentinel_mask ["SPD"; "DIR"] (NaScalar (Py.float_of_Z 999999)) df)
  = ["Note: column DIR* not found"]
  /\ snd (sentinel_mask ["SPD"; "DIR"] (NaScalar (Py.float_of_Z 999999)) df)
     = inr (mkFrame ["HT"; "SPD.0"; "SPD.1"]
              [[CFloat (Py.float_of_Z 1); NaN; CFloat (Py.float_of_Z 2)]]).
Proof.
  intros df.
  destruct (C6_unmatched_column_reported df ["SPD"] [] "DIR"
              (NaScalar (Py.float_of_Z 999999))) as [H1 [H2 _]].
  - reflexivity.
  - intros c [E | [E | [E | []]]]; subst c; reflexivity.
  - split; [exact H1 | exact H2].
Defined.

Lemma str_is_a_numeral (n : nat) (s : string) :
  Py.str n = s -> NilEmpty.uint_of_string s = Some (Nat.to_uint n).
Proof. intros E. subst s. apply NilEmpty.usu. Qed.

(** C6 as stated fails on a file whose speed column is named [SPD.x]:
    no label is [SPD] and none is [SPD.<i>] for a number [i], yet the
    request for [SPD] prints no note and has the column [SPD.x] masked,
    which it is not when nothing is requested. *)
Lemma C6_any_suffix_matches :
  (forall c, In c ["HT"; "SPD.x"; "DIR"; "date_time"] ->
             c <> "SPD" /\ forall i, c <> "SPD" ++ "." ++ Py.str i)
  /\ radar_profiler any_datetime radar_file_suffix (Some 1) ["SPD"]
       (Some (NaScalar (Py.float_of_Z 999999)))
     = inr ([],
            mkFrame ["HT"; "SPD.x"; "DIR"; "date_time"]
              [[num "0.1"; NaN; num "180"; CTime 0];
               [num "0.2"; num "7"; num "999999"; CTime 0]])
  /\ radar_profiler any_datetime radar_file_suffix (Some 1) []
       (Some (NaScalar (Py.float_of_Z 999999)))
     = inr ([],
            mkFrame ["HT"; "SPD.x"; "DIR"; "date_time"]
              [[num "0.1"; num "999999"; num "180"; CTime 0];
               [num "0.2"; num "7"; num "999999"; CTime 0]]).
Proof.
  split; [|split; vm_compute; reflexivity].
  intros c [E | [E | [E | [E | []]]]]; subst c;
    (split; [discriminate|]); intros i E; simpl in E; try discriminate E.
  inversion E as [E']. symmetry in E'.
  apply str_is_a_numeral in E'. vm_compute in E'. discriminate E'.
Qed.

(** ** Stitching blocks *)

Lemma mem_In (x : string) (l : list string) : Py.mem x l = true <-> In x l.
Proof.
  unfold Py.mem. rewrite existsb_exists. split.
  - intros [y [Hin E]]. apply String.eqb_eq in E. now subst y.
  - intros Hin. exists x. split; [exact Hin | apply String.eqb_refl].
Qed.

Lemma mem_not_In (x : string) (l : list string) : Py.mem x l = false <-> ~ In x l.
Proof.
  rewrite <- mem_In. destruct (Py.mem x l); split; intros H; congruence.
Qed.

Lemma lookup_map (g : string -> cell) (c : string) (cols : list string) :
  In c cols -> lookup c cols (map g cols) = Some (g c).
Proof.
  induction cols as [|c' cols IH]; simpl; [tauto|].
  intros H. destruct (String.eqb c c') eqn:E.
  - apply String.eqb_eq in E. now subst c'.
  - apply IH. destruct H as [H | H]; [|exact H].
    subst c'. now rewrite String.eqb_refl in E.
Qed.

Lemma lookup_absent {A : Type} (c : string) (cols : list string) (r : list A) :
  ~ In c cols -> lookup c cols r = None.
Proof.
  revert r; induction cols as [|c' cols IH]; intros r H; [reflexivity|].
  destruct r as [|x r]; [reflexivity|]. simpl.
  destruct (String.eqb c c') eqn:E.
  - apply String.eqb_eq in E. subst c'. contradiction H. now left.
  - apply IH. intros Hin. apply H. now right.
Qed.

Lemma lookup_present {A : Type} (c : string) (cols : list string) (r : list A) :
  In c cols -> length r = length cols -> lookup c cols r <> None.
Proof.
  revert r; induction cols as [|c' cols IH]; intros r H L; [destruct H|].
  destruct r as [|x r]; [discriminate L|]. simpl.
  destruct (String.eqb c c') eqn:E; [discriminate|].
  apply IH; [|now inversion L].
  destruct H as [H | H]; [|exact H]. subst c'. now rewrite String.eqb_refl in E.
Qed.

Lemma reindex_self (cols : list string) (r : list cell) :
  NoDup cols -> length r = length cols -> reindex cols cols r = r.
Proof.
  unfold reindex. revert r; induction cols as [|c cols IH]; intros r N L.
  - destruct r; [reflexivity | discriminate L].
  - destruct r as [|x r]; [discriminate L|]. simpl.
    rewrite String.eqb_refl. f_equal.
    inversion N as [|? ? Hnot N']; subst.
    etransitivity; [|apply (IH r N'); now inversion L].
    apply map_ext_in. intros c' Hin.
    destruct (String.eqb c' c) eqn:E; [|reflexivity].
    apply String.eqb_eq in E. subst c'. contradiction.
Qed.

Lemma add_labels_incl_acc (acc cs : list string) (c : string) :
  In c acc -> In c (add_labels acc cs).
Proof.
  unfold add_labels. revert acc; induction cs as [|c' cs IH]; intros acc H;
    simpl; [exact H|].
  apply IH. destruct (Py.mem c' acc); [exact H|].
  apply in_or_app. now left.
Qed.

Lemma add_labels_incl_new (acc cs : list string) (c : string) :
  In c cs -> In c (add_labels acc cs).
Proof.
  unfold add_labels. revert acc; induction cs as [|c' cs IH]; intros acc H;
    simpl; [destruct H|].
  destruct H as [H | H].
  - subst c'. apply (add_labels_incl_acc _ cs).
    destruct (Py.mem c acc) eqn:E; [now apply mem_In|].
    apply in_or_app. right. now left.
  - now apply IH.
Qed.

Lemma union_columns_incl (fs : list DataFrame) (f : DataFrame) (c : string) :
  In f fs -> In c (columns f) -> In c (union_columns fs).
Proof.
  unfold union_columns. generalize (@nil string) as acc.
  induction fs as [|f' fs IH]; intros acc Hf Hc; [destruct Hf|]. simpl.
  destruct Hf as [E | Hf].
  - subst f'.
    assert (G : forall l a, In c a ->
                  In c (fold_left (fun a f => add_labels a (columns f)) l a)).
    { clear. induction l as [|g l IHl]; intros a H; simpl; [exact H|].
      apply IHl. now apply add_labels_incl_acc. }
    apply G. now apply add_labels_incl_new.
  - now apply IH.
Qed.

Lemma flat_map_ext_mem {A B : Type} (g h : A -> list B) (l : list A) :
  (forall a, In a l -> g a = h a) -> flat_map g l = flat_map h l.
Proof.
  induction l as [|a l IH]; intros E; simpl; [reflexivity|].
  rewrite (E a (or_introl eq_refl)), IH; [reflexivity|].
  intros b Hb. apply E. now right.
Qed.

Lemma has_dup_NoDup (l : list string) : NoDup l -> has_dup l = false.
Proof.
  induction 1 as [|x l Hnot _ IH]; simpl; [reflexivity|].
  rewrite IH, orb_false_r. now apply mem_not_In.
Qed.

(** C3, as amended.  For a non-empty list of frames, each with pairwise
    distinct labels and rows as long as its labels, [pd.concat] returns a
    frame whose labels contain the labels of every frame and whose rows
    are the rows of the frames in the order of the list, each frame's rows
    in their own order, laid out on the labels of the result: a cell under
    a label its frame has is kept, a cell under a label its frame lacks is
    the missing-value marker.  Nothing is sorted. *)
Theorem C3_stitch_in_arrival_order (fs : list DataFrame) :
  fs <> [] ->
  (forall f, In f fs -> NoDup (columns f)) ->
  (forall f r, In f fs -> In r (rows f) -> length r = length (columns f)) ->
  exists t,
    pd_concat fs = inr t
    /\ (forall f c, In f fs -> In c (columns f) -> In c (columns t))
    /\ rows t
       = flat_map (fun f => map (reindex (columns t) (columns f)) (rows f)) fs
    /\ (forall f r c, In f fs -> In r (rows f) -> In c (columns f) ->
          lookup c (columns t) (reindex (columns t) (columns f) r)
          = lookup c (columns f) r
          /\ lookup c (columns f) r <> None)
    /\ (forall f r c, In f fs -> In r (rows f) -> In c (columns t) ->
          ~ In c (columns f) ->
          lookup c (columns t) (reindex (columns t) (columns f) r) = Some NaN).
Proof.
  intros Hne Hnd Hwf.
  assert (Cells : forall cols,
    (forall f c, In f fs -> In c (columns f) -> In c cols) ->
    (forall f r c, In f fs -> In r (rows f) -> In c (columns f) ->
       lookup c cols (reindex cols (columns f) r) = lookup c (columns f) r
       /\ lookup c (columns f) r <> None)
    /\ (forall f r c, In f fs -> In r (rows f) -> In c cols ->
          ~ In c (columns f) ->
          lookup c cols (reindex cols (columns f) r) = Some NaN)).
  { intros cols Hincl. split.
    - intros f r c Hf Hr Hc.
      assert (P := lookup_present c (columns f) r Hc (Hwf f r Hf Hr)).
      split; [|exact P]. unfold reindex.
      rewrite lookup_map by now apply (Hincl f).
      destruct (lookup c (columns f) r); [reflexivity | contradiction].
    - intros f r c Hf Hr Hc Hnot. unfold reindex.
      rewrite lookup_map by exact Hc.
      now rewrite lookup_absent. }
  destruct fs as [|f0 fs']; [contradiction|]. unfold pd_concat.
  destruct (forallb _ (f0 :: fs')) eqn:Same.
  - exists (mkFrame (columns f0) (flat_map rows (f0 :: fs'))).
    assert (Eq : forall f, In f (f0 :: fs') -> columns f = columns f0).
    { intros f Hf. rewrite forallb_forall in Same. specialize (Same f Hf).
      unfold list_string_eqb in Same.
      now destruct (list_eq_dec string_dec (columns f) (columns f0)). }
    assert (Hincl : forall f c, In f (f0 :: fs') -> In c (columns f) ->
                                In c (columns f0)).
    { intros f c Hf Hc. now rewrite <- (Eq f Hf). }
    split; [reflexivity|]. split; [exact Hincl|]. split; [|apply (Cells _ Hincl)].
    cbn [rows columns]. apply flat_map_ext_mem. intros f Hf.
    rewrite <- (map_id (rows f)) at 1. apply map_ext_in. intros r Hr.
    rewrite <- (Eq f Hf). symmetry. apply reindex_self; auto.
  - assert (Dups : existsb (fun f => has_dup (columns f)) (f0 :: fs') = false).
    { apply not_true_is_false. intros H. apply existsb_exists in H.
      destruct H as [f [Hf Hd]]. now rewrite (has_dup_NoDup _ (Hnd f Hf)) in Hd. }
    rewrite Dups.
    eexists. split; [reflexivity|]. cbn [rows columns].
    assert (Hincl : forall f c, In f (f0 :: fs') -> In c (columns f) ->
                                In c (union_columns (f0 :: fs'))).
    { intros f c. apply union_columns_incl. }
    split; [exact Hincl|]. split; [reflexivity | apply (Cells _ Hincl)].
Qed.

Lemma C3_stitch_in_arrival_order_witness :
  exists t,
    pd_concat [block_ab; block_abc] = inr t
    /\ rows t
       = [[CFloat (Py.float_of_Z 1); CFloat (Py.float_of_Z 2); NaN];
          [CFloat (Py.float_of_Z 3); CFloat (Py.float_of_Z 4);
           CFloat (Py.float_of_Z 5)]].
Proof.
  destruct (C3_stitch_in_arrival_order [block_ab; block_abc])
    as [t [H _]].
  - discriminate.
  - intros f [E | [E | []]]; subst f; simpl;
      repeat constructor; simpl; intuition discriminate.
  - intros f r [E | [E | []]]; subst f; simpl; intros [E | []]; subst r;
      reflexivity.
  - exists t. split; [exact H|].
    vm_compute in H. inversion H. reflexivity.
Defined.

(** C3 as the specification states it fails on the empty sequence of
    blocks: [pd.concat] refuses it and no table is produced. *)
Lemma C3_empty_sequence_refused :
  ~ (forall fs : list DataFrame,
       exists t,
         pd_concat fs = inr t
         /\ rows t
            = flat_map (fun f => map (reindex (columns t) (columns f)) (rows f))
                       fs).
Proof.
  intros H. destruct (H []) as [t [E _]]. discriminate E.
Qed.

(** ** Blocks of a fixed number of rows *)







Lemma to_float_pad_row (w : nat) (r : list string) (x : cell) :
  In x (pad_row w r) -> to_float x = inl ValueError \/ exists y, to_float x = inr y.
Proof.
  unfold pad_row. intros H. apply in_app_or in H. destruct H as [H | H].
  - apply in_map_iff in H. destruct H as [s [E _]]. subst x. simpl.
    destruct (Py.float s); [right; eauto | now left].
  - apply repeat_spec in H. subst x. right. simpl. eauto.
Qed.

Lemma mapM_to_float_pad_row (w : nat) (r : list string) :
  mapM to_float (pad_row w r) = inl ValueError
  \/ exists ys, mapM to_float (pad_row w r) = inr ys.
Proof.
  generalize (to_float_pad_row w r). generalize (pad_row w r) as l.
  induction l as [|x l IH]; intros H; simpl; [right; eauto|].
  destruct (H x (or_introl eq_refl)) as [E | [y E]]; rewrite E; [now left|].
  destruct IH as [E' | [ys E']]; [intros; apply H; now right| |]; rewrite E';
    [now left | right; eauto].
Qed.






(** ** The WindCube header *)

Lemma read_params_eof (n : nat) (si : dict param) :
  read_params n [] si = inr (si, []).
Proof. induction n as [|n IH]; simpl; [reflexivity | exact IH]. Qed.

Lemma read_params_short (n : nat) (f : stream) (si : dict param) :
  length f <= n ->
  read_params n f si
  = match read_params (length f) f si with
    | inl e => inl e
    | inr (si', _) => inr (si', [])
    end.
Proof.
  revert n si; induction f as [|line f IH]; intros n si L.
  - simpl. apply read_params_eof.
  - destruct n as [|n]; [simpl in L; lia|]. simpl.
    destruct (read_param line si) as [e | si1]; [reflexivity|].
    apply IH. simpl in L; lia.
Qed.


(** ** Reading blocks until the stream ends *)

Section ReadUntilEnd.

Variable to_datetime : string -> option Z.

Lemma readline_length (f f' : stream) (l : string) :
  readline f = (l, f') -> length f' <= length f.
Proof.
  destruct f as [|l0 f0]; simpl; intros E; inversion E; subst; simpl; lia.
Qed.

Lemma read_block_rows_length (f : stream) :
  length (snd (read_block_rows f)) <= length f.
Proof.
  induction f as [|line f IH]; simpl; [lia|].
  destruct (String.eqb (Py.strip line) "$" || String.eqb line ""); simpl; [lia|].
  destruct (read_block_rows f) as [block f'']. simpl in *. lia.
Qed.

Lemma skip_lines_length (n : nat) (f : stream) :
  length (skip_lines n f) <= length f.
Proof. unfold skip_lines. rewrite length_skipn. lia. Qed.

(** A block that is read takes at least one line. *)
Lemma read_profiler_data_block_consumes (f f' : stream) (df : DataFrame) :
  read_profiler_data_block to_datetime f = inr (df, f') ->
  length f' < length f.
Proof.
  destruct f as [|l1 f]; [discriminate|].
  unfold read_profiler_data_block.
  change (readline (l1 :: f)) with (l1, f). cbv iota beta.
  set (fa := if String.eqb (Py.strip l1) "" then snd (readline f) else f).
  assert (La : length fa <= length f).
  { unfold fa. destruct (String.eqb (Py.strip l1) ""); [|lia].
    destruct (readline f) as [l f0] eqn:E. simpl.
    exact (readline_length _ _ _ E). }
  destruct (readline fa) as [l3 fb] eqn:Eb.
  assert (Lb := readline_length _ _ _ Eb).
  destruct (Py.split l3) as [|tag toks]; [discriminate|].
  destruct (negb (Py.mem tag default_datatypes)); [discriminate|].
  destruct (readline fb) as [l4 fc] eqn:Ec.
  assert (Lc := readline_length _ _ _ Ec). cbn [snd].
  destruct (readline fc) as [l5 fd] eqn:Ed.
  assert (Ld := readline_length _ _ _ Ed).
  destruct (Py.split l5) as [|yr [|mo [|dy [|hr [|mi [|sc [|z [|]]]]]]]];
    try discriminate.
  assert (Le := skip_lines_length 5 fd).
  destruct (readline (skip_lines 5 fd)) as [hl ff] eqn:Ef.
  assert (Lf := readline_length _ _ _ Ef).
  assert (Lg := read_block_rows_length ff).
  destruct (read_block_rows ff) as [block fg]. simpl in Lg.
  destruct (pd_to_datetime _ _) as [e | t]; [discriminate|].
  unfold bind at 1.
  destruct (float_frame_of_rows block (resolve_header (Py.split hl)))
    as [e | d]; [discriminate|].
  cbn [bind ret]. intros E. inversion E; subst. simpl. lia.
Qed.

(** Every stream is a sequence of blocks that are read followed by a read
    that raises. *)
Lemma reads_until_failure (f : stream) :
  exists dfs f' e,
    reads to_datetime f dfs f'
    /\ read_profiler_data_block to_datetime f' = inl e.
Proof.
  remember (length f) as n eqn:L. revert f L.
  induction n as [n IH] using lt_wf_ind. intros f L.
  destruct (read_profiler_data_block to_datetime f) as [e | [df f1]] eqn:E.
  - exists [], f, e. split; [constructor | exact E].
  - assert (C := read_profiler_data_block_consumes _ _ _ E).
    destruct (IH (length f1) ltac:(lia) f1 eq_refl) as [dfs [f' [e [R F]]]].
    exists (df :: dfs), f', e. split; [|exact F].
    now apply reads_cons with f1.
Qed.

(** The loop with enough rounds returns the blocks read before the first
    [IOError] or [IndexError], and lets any other exception through. *)
Lemma read_all_blocks_spec (f f' : stream) (dfs : list DataFrame) (e : exn) :
  reads to_datetime f dfs f' ->
  read_profiler_data_block to_datetime f' = inl e ->
  forall fuel, length f < fuel ->
    (e = IOError \/ e = IndexError ->
     read_all_blocks to_datetime fuel f = inr dfs)
    /\ (e <> IOError -> e <> IndexError ->
        read_all_blocks to_datetime fuel f = inl e).
Proof.
  intros R F. induction R as [f | f f1 f2 df dfs E R IH]; intros fuel L.
  - destruct fuel as [|fuel]; [lia|]. simpl. rewrite F. split.
    + intros [-> | ->]; reflexivity.
    + intros N1 N2. destruct e; try reflexivity; congruence.
  - destruct fuel as [|fuel]; [lia|]. simpl. rewrite E.
    assert (C := read_profiler_data_block_consumes _ _ _ E).
    destruct (IH F fuel ltac:(lia)) as [I1 I2]. split.
    + intros He. now rewrite (I1 He).
    + intros N1 N2. now rewrite (I2 N1 N2).
Qed.

(** With a number of blocks to read, the frames that are stitched are
    the blocks of the stream in their order. *)
Lemma read_blocks_reads (n : nat) (f : stream) (dfs : list DataFrame) :
  read_blocks to_datetime n f = inr dfs ->
  length dfs = n /\ exists f', reads to_datetime f dfs f'.
Proof.
  revert f dfs; induction n as [|n IH]; intros f dfs; simpl.
  - intros E. inversion E. split; [reflexivity|]. exists f. constructor.
  - destruct (read_profiler_data_block to_datetime f) as [e | [df f1]] eqn:E;
      [discriminate|].
    destruct (read_blocks to_datetime n f1) as [e | dfs1] eqn:E1;
      [discriminate|].
    simpl. intros H. inversion H; subst dfs.
    destruct (IH f1 dfs1 E1) as [L [f' R]]. split; [simpl; now rewrite L|].
    exists f'. now apply reads_cons with f1.
Qed.

End ReadUntilEnd.

(** *** Frames whose labels are pairwise distinct *)

Lemma add_labels_NoDup (acc cs : list string) :
  NoDup acc -> NoDup (add_labels acc cs).
Proof.
  unfold add_labels. revert acc.
  induction cs as [|c cs IH]; intros acc Hacc; simpl; [exact Hacc|].
  apply IH. destruct (Py.mem c acc) eqn:M; [exact Hacc|].
  apply NoDup_app; [exact Hacc | repeat constructor; intros [] |].
  intros x Hx [E | []]. subst x.
  apply Bool.not_true_iff_false in M. apply M. now apply mem_In.
Qed.

Lemma union_columns_NoDup (fs : list DataFrame) : NoDup (union_columns fs).
Proof.
  unfold union_columns.
  assert (G : forall acc, NoDup acc ->
            NoDup (fold_left (fun a f => add_labels a (columns f)) fs acc)).
  { induction fs as [|f fs IH]; intros acc Hacc; simpl; [exact Hacc|].
    apply IH. now apply add_labels_NoDup. }
  apply G. constructor.
Qed.

Lemma existsb_has_dup (fs : list DataFrame) :
  (forall d, In d fs -> NoDup (columns d)) ->
  existsb (fun f => has_dup (columns f)) fs = false.
Proof.
  intros H. induction fs as [|f fs IH]; simpl; [reflexivity|].
  rewrite (has_dup_NoDup _ (H f (or_introl eq_refl))). simpl.
  apply IH. intros d Hd. apply H. now right.
Qed.

Lemma length_flat_map_rows {A : Type} (g : DataFrame -> list cell -> A)
  (fs : list DataFrame) :
  length (flat_map (fun f => map (g f) (rows f)) fs)
  = length (flat_map rows fs).
Proof.
  induction fs as [|f fs IH]; simpl; [reflexivity|].
  now rewrite !length_app, length_map, IH.
Qed.

(** Blocks with distinct labels are stitched into a frame with distinct
    labels that has all their rows. *)
Lemma pd_concat_distinct_labels (dfs : list DataFrame) :
  dfs <> [] ->
  (forall d, In d dfs -> NoDup (columns d)) ->
  exists df,
    pd_concat dfs = inr df
    /\ NoDup (columns df)
    /\ length (rows df) = length (flat_map rows dfs).
Proof.
  intros Hne Hnd. destruct dfs as [|f0 fs]; [congruence|].
  unfold pd_concat.
  destruct (forallb _ (f0 :: fs)).
  - eexists. split; [reflexivity|]. split; [|reflexivity].
    cbn [columns]. apply Hnd. now left.
  - rewrite (existsb_has_dup _ Hnd).
    eexists. split; [reflexivity|]. split.
    + apply union_columns_NoDup.
    + cbn [rows]. apply length_flat_map_rows.
Qed.

Lemma matches_labels (cols : list string) (col c : string) :
  In c (matches cols col) -> In c cols.
Proof.
  unfold matches. destruct (Py.mem col cols) eqn:M.
  - intros [E | []]. subst c. now apply mem_In.
  - intros H. apply filter_In in H. apply H.
Qed.

Lemma resolve_check_na_labels (cols check_na : list string) (c : string) :
  In c (snd (resolve_check_na cols check_na)) -> In c cols.
Proof.
  induction check_na as [|col rest IH]; simpl; [intros []|].
  destruct (resolve_check_na cols rest) as [out nalist].
  destruct (0 <? length (matches cols col))%nat; simpl in *; [|exact IH].
  intros H. apply in_app_or in H. destruct H as [H | H].
  - now apply matches_labels with col.
  - now apply IH.
Qed.

Lemma single_NoDup (cols : list string) (c : string) :
  NoDup cols -> In c cols -> single cols c = true.
Proof.
  intros Hnd Hin. unfold single, Py.count.
  apply Nat.eqb_eq. now apply NoDup_count_occ'.
Qed.

(** On a frame with distinct labels the masking part returns, with the
    same labels and as many rows. *)
Lemma mask_sentinels_returns (check_na : list string)
  (na_values : option na_arg) (df : DataFrame) :
  NoDup (columns df) ->
  exists out masked,
    mask_sentinels check_na na_values df = inr (out, masked)
    /\ columns masked = columns df
    /\ length (rows masked) = length (rows df).
Proof.
  intros Hnd. unfold mask_sentinels.
  destruct na_values as [na|]; [|now exists [], df].
  unfold sentinel_mask.
  assert (L := resolve_check_na_labels (columns df) check_na).
  destruct (resolve_check_na (columns df) check_na) as [out nalist].
  simpl in L. rewrite mask_values_spec.
  replace (maskable (na_list na) nalist (columns df)) with true.
  - cbn [bind ret]. eexists _, _. split; [reflexivity|].
    unfold map_frame. cbn [columns rows]. split; [reflexivity|].
    apply length_map.
  - symmetry. unfold maskable. destruct (na_list na); [reflexivity|].
    apply forallb_forall. intros c Hc. apply single_NoDup; auto.
Qed.

(** C10, as amended.  With [modes=None] every file splits into the blocks
    that are read without an exception and a first read that raises.  The
    end of the file is such a read: it raises [IndexError].  When the
    exception is [IOError] or [IndexError] the reading stops there without
    it, and the blocks read so far go to [pd.concat] and from there to the
    masking of the sentinels: the call gives what these two give.
    [pd.concat] raises [ValueError] when no block was read; when there is
    a block and the labels of each block are pairwise distinct, a table
    is returned, with the rows of all the blocks.  Any other exception of
    a read is raised to the caller. *)
Theorem C10_read_until_first_failure (to_datetime : string -> option Z)
  (f : stream) (check_na : list string) (na_values : option na_arg) :
  read_profiler_data_block to_datetime [] = inl IndexError
  /\ exists dfs f' e,
       reads to_datetime f dfs f'
       /\ read_profiler_data_block to_datetime f' = inl e
       /\ (e = IOError \/ e = IndexError ->
           radar_profiler to_datetime f None check_na na_values
           = bind (pd_concat dfs) (mask_sentinels check_na na_values))
       /\ (e = IOError \/ e = IndexError -> dfs = [] ->
           radar_profiler to_datetime f None check_na na_values
           = inl ValueError)
       /\ (e = IOError \/ e = IndexError -> dfs <> [] ->
           (forall d, In d dfs -> NoDup (columns d)) ->
           exists out df,
             radar_profiler to_datetime f None check_na na_values
             = inr (out, df)
             /\ length (rows df) = length (flat_map rows dfs))
       /\ (e <> IOError -> e <> IndexError ->
           radar_profiler to_datetime f None check_na na_values = inl e).
Proof.
  split; [reflexivity|].
  destruct (reads_until_failure to_datetime f) as [dfs [f' [e [R F]]]].
  exists dfs, f', e. split; [exact R|]. split; [exact F|].
  destruct (read_all_blocks_spec to_datetime f f' dfs e R F (S (length f)))
    as [I1 I2]; [lia|].
  unfold radar_profiler. split; [|split; [|split]].
  - intros He. now rewrite (I1 He).
  - intros He Hd. rewrite (I1 He). subst dfs. reflexivity.
  - intros He Hne Hnd. rewrite (I1 He). cbn [bind].
    destruct (pd_concat_distinct_labels dfs Hne Hnd) as [df [E [N L]]].
    destruct (mask_sentinels_returns check_na na_values df N)
      as [out [masked [M [_ Lm]]]].
    exists out, masked. rewrite E. cbn [bind]. split; [exact M|].
    now rewrite Lm.
  - intros N1 N2. now rewrite (I2 N1 N2).
Qed.

(** The file of one block, read to its end with the default sentinel. *)
Example radar_file_read :
  radar_profiler any_datetime radar_file None ["SPD"; "DIR"]
    (Some (NaScalar (Py.float_of_Z 999999)))
  = inr ([],
         mkFrame ["HT"; "SPD"; "DIR"; "date_time"]
           [[num "0.1"; NaN; num "180"; CTime 0];
            [num "0.2"; num "7"; NaN; CTime 0]]).
Proof. vm_compute. reflexivity. Qed.

(** A file whose header repeats a label after resolution: the block is
    read and stitched, and masking the repeated label raises. *)
Example radar_file_repeated_read :
  radar_profiler any_datetime radar_file_repeated None ["a"]
    (Some (NaScalar (Py.float_of_Z 999999)))
  = inl KeyError.
Proof. vm_compute. reflexivity. Qed.

Lemma C10_read_until_first_failure_witness :
  exists out df,
    radar_profiler any_datetime radar_file None ["SPD"; "DIR"]
      (Some (NaScalar (Py.float_of_Z 999999)))
    = inr (out, df)
    /\ length (rows df) = 2.
Proof.
  destruct (C10_read_until_first_failure any_datetime radar_file
              ["SPD"; "DIR"] (Some (NaScalar (Py.float_of_Z 999999))))
    as [_ [dfs [f' [e [R [F [_ [_ [H _]]]]]]]]].
  inversion R as [f0 E0 | f0 f1 f2 d ds E1 R1]; subst.
  - vm_compute in F. discriminate F.
  - vm_compute in E1. inversion E1; subst d f1. clear E1.
    inversion R1 as [f0 E0 | f0 f1 f2 d' ds' E2 R2]; subst.
    + destruct H as [out [df [E L]]].
      * vm_compute in F. inversion F. now right.
      * discriminate.
      * intros d [Ed | []]. subst d. cbn [columns].
        repeat constructor; simpl; intuition discriminate.
      * exists out, df. split; [exact E | exact L].
    + vm_compute in E2. discriminate E2.
Defined.

(** C10 as stated fails on the empty file: the first read raises
    [IndexError], the loop stops with no block, and [pd.concat] raises
    [ValueError] where the claim has a table returned. *)
Lemma C10_empty_file_raises :
  ~ (forall to_datetime f dfs f' e check_na na_values,
       reads to_datetime f dfs f' ->
       read_profiler_data_block to_datetime f' = inl e ->
       e = IOError \/ e = IndexError ->
       exists out,
         radar_profiler to_datetime f None check_na na_values = inr out).
Proof.
  intros H.
  destruct (H any_datetime [] [] [] IndexError ["SPD"; "DIR"]
              (Some (NaScalar (Py.float_of_Z 999999)))) as [out E].
  - constructor.
  - reflexivity.
  - now right.
  - vm_compute in E. discriminate E.
Qed.

(** * Further properties of the readers *)

(** ** The resolved header *)

Lemma prefix_append (a b : string) : String.prefix a (a ++ b) = true.
Proof.
  induction a as [|c a IH]; simpl; [now destruct b|].
  destruct (ascii_dec c c); [exact IH | contradiction].
Qed.

(** X1.  The resolved header has one name for each raw token, in the
    same place, and the raw token is the beginning of its resolved name. *)
Theorem X1_resolved_names_extend_tokens (header : list string) :
  length (resolve_header header) = length header
  /\ forall p col,
       nth_error header p = Some col ->
       exists name,
         nth_error (resolve_header header) p = Some name
         /\ Py.startswith name col = true.
Proof.
  split; [apply resolve_header_length|].
  intros p col Hp. rewrite (resolve_header_nth _ _ _ Hp).
  eexists. split; [reflexivity|]. unfold dedup_name, Py.startswith.
  destruct (1 <? Py.count header col)%nat.
  - apply prefix_append.
  - clear. induction col as [|c col IH]; simpl; [reflexivity|].
    destruct (ascii_dec c c); [exact IH | contradiction].
Qed.

Lemma X1_resolved_names_extend_tokens_witness :
  exists name,
    nth_error (resolve_header ["HT"; "RAD"; "RAD"]) 2 = Some name
    /\ Py.startswith name "RAD" = true.
Proof.
  destruct (X1_resolved_names_extend_tokens ["HT"; "RAD"; "RAD"]) as [_ H].
  apply (H 2 "RAD"). reflexivity.
Defined.

(** X2.  When no raw token has a dot, the resolved names are pairwise
    distinct and resolving them again changes nothing. *)
Theorem X2_dotless_header_resolves_uniquely (header : list string) :
  (forall col, In col header -> Py.contains "." col = false) ->
  NoDup (resolve_header header)
  /\ resolve_header (resolve_header header) = resolve_header header.
Proof.
  intros H. split.
  - now apply resolve_header_NoDup.
  - now apply resolve_header_idempotent.
Qed.

Lemma X2_dotless_header_resolves_uniquely_witness :
  NoDup (resolve_header ["HT"; "RAD"; "RAD"; "RAD"])
  /\ resolve_header (resolve_header ["HT"; "RAD"; "RAD"; "RAD"])
     = resolve_header ["HT"; "RAD"; "RAD"; "RAD"].
Proof.
  apply X2_dotless_header_resolves_uniquely.
  intros col [E | [E | [E | [E | []]]]]; subst col; reflexivity.
Defined.

(** X3.  A header whose tokens are pairwise distinct is left as it is:
    no name gets a suffix. *)
Theorem X3_distinct_header_unchanged (header : list string) :
  NoDup header -> resolve_header header = header.
Proof. apply resolve_header_fixed. Qed.

Lemma X3_distinct_header_unchanged_witness :
  resolve_header ["HT"; "SPD"; "DIR"] = ["HT"; "SPD"; "DIR"].
Proof.
  apply X3_distinct_header_unchanged.
  repeat constructor; simpl; intuition discriminate.
Defined.

(** ** The rows of a profiler block *)

Lemma read_block_rows_app (rows : list string) (f : stream) :
  (forall l, In l rows -> Py.strip l <> "$" /\ l <> EmptyString) ->
  read_block_rows (rows ++ f)%list
  = (map Py.split rows ++ fst (read_block_rows f), snd (read_block_rows f))%list.
Proof.
  induction rows as [|l rows IH]; intros H; simpl.
  - now destruct (read_block_rows f).
  - destruct (H l (or_introl eq_refl)) as [H1 H2].
    apply String.eqb_neq in H1. apply String.eqb_neq in H2.
    rewrite H1, H2. simpl. rewrite IH; [reflexivity|].
    intros l' Hl. apply H. now right.
Qed.

(** X4.  The rows of a block are the lines up to the first line that is
    [$] once stripped, each split at white space; that line is taken from
    the stream and the lines after it are left.  Without such a line the
    block runs to the end of the file. *)
Theorem X4_block_rows_end_at_dollar (rows : list string) :
  (forall l, In l rows -> Py.strip l <> "$" /\ l <> EmptyString) ->
  (forall terminator rest,
      Py.strip terminator = "$" ->
      read_block_rows (rows ++ terminator :: rest)%list
      = (map Py.split rows, rest))
  /\ read_block_rows rows = (map Py.split rows, []).
Proof.
  intros H. split.
  - intros terminator rest Ht. rewrite (read_block_rows_app _ _ H). simpl.
    rewrite Ht. simpl. now rewrite app_nil_r.
  - rewrite <- (app_nil_r rows) at 1. rewrite (read_block_rows_app _ _ H).
    simpl. now rewrite app_nil_r.
Qed.

Lemma X4_block_rows_end_at_dollar_witness :
  read_block_rows (lines_of ["0.1 5 180"; "0.2 7 190"; "$"; "next"])
  = ([["0.1"; "5"; "180"]; ["0.2"; "7"; "190"]], lines_of ["next"]).
Proof.
  destruct (X4_block_rows_end_at_dollar (lines_of ["0.1 5 180"; "0.2 7 190"]))
    as [H _].
  - intros l [E | [E | []]]; subst l; split; discriminate.
  - apply (H ("$" ++ nl) (lines_of ["next"])). reflexivity.
Defined.

(** ** One block of the radar profiler *)

Lemma readline_cases (f f' : stream) (l : string) :
  readline f = (l, f') ->
  (l = EmptyString /\ f' = [] /\ f = []) \/ length f = S (length f').
Proof.
  destruct f as [|l0 f0]; simpl; intros E; inversion E; subst; auto.
Qed.

Lemma split_nonempty (l : string) : Py.split l <> [] -> l <> EmptyString.
Proof. intros H E. subst l. now apply H. Qed.

Lemma mapM_inr_length {A B : Type} (g : A -> result B) (l : list A)
  (l' : list B) :
  mapM g l = inr l' -> length l' = length l.
Proof.
  revert l'; induction l as [|a l IH]; intros l'; simpl.
  - intros E; inversion E. reflexivity.
  - destruct (g a) as [e | b]; [discriminate|].
    destruct (mapM g l) as [e | bs]; [discriminate|].
    intros E; inversion E. simpl. f_equal. now apply IH.
Qed.

Lemma mapM_inr_In {A B : Type} (g : A -> result B) (l : list A)
  (l' : list B) (b : B) :
  mapM g l = inr l' -> In b l' -> exists a, In a l /\ g a = inr b.
Proof.
  revert l'; induction l as [|a l IH]; intros l'; simpl.
  - intros E; inversion E. intros [].
  - destruct (g a) as [e | b0] eqn:Ea; [discriminate|].
    destruct (mapM g l) as [e | bs]; [discriminate|].
    intros E; inversion E; subst l'. intros [Hb | Hb].
    + subst b0. exists a. split; [now left | exact Ea].
    + destruct (IH bs eq_refl Hb) as [a' [Ha' Ea']].
      exists a'. split; [now right | exact Ea'].
Qed.

Lemma width_ge {A : Type} (data : list (list A)) (r : list A) :
  In r data -> length r <= width data.
Proof.
  induction data as [|r' data IH]; intros H; [destruct H|]. simpl.
  destruct H as [E | H]; [subst r'; lia|]. specialize (IH H). lia.
Qed.

Lemma pad_row_length (w : nat) (r : list string) :
  length r <= w -> length (pad_row w r) = w.
Proof.
  intros H. unfold pad_row. rewrite length_app, length_map, repeat_length. lia.
Qed.

(** The frame built from token lists is on the given labels and has a
    cell under every label in each row. *)
Lemma float_frame_of_rows_shape (data : list (list string))
  (cols : list string) (df : DataFrame) :
  float_frame_of_rows data cols = inr df ->
  columns df = cols
  /\ length (rows df) = length data
  /\ forall r, In r (rows df) -> length r = length cols.
Proof.
  unfold float_frame_of_rows, frame_of_rows.
  destruct data as [|d0 data'] eqn:D.
  - simpl. intros E; inversion E; subst df. simpl. repeat split. intros r [].
  - rewrite <- D. destruct (width data =? length cols)%nat eqn:W;
      [|discriminate].
    apply Nat.eqb_eq in W. cbn [bind ret rows columns].
    destruct (mapM (mapM to_float) (map (pad_row (width data)) data))
      as [e | rs] eqn:M; [discriminate|].
    intros E; inversion E; subst df. cbn [rows columns].
    split; [reflexivity|]. split.
    + rewrite (mapM_inr_length _ _ _ M). apply length_map.
    + intros r Hr. destruct (mapM_inr_In _ _ _ _ M Hr) as [p [Hp Ep]].
      rewrite (mapM_inr_length _ _ _ Ep).
      apply in_map_iff in Hp. destruct Hp as [d [Ed Hd]]. subst p.
      rewrite pad_row_length; [exact W | now apply width_ge].
Qed.

Lemma mapM_pad_rows_error (w : nat) (data : list (list string)) (e : exn) :
  mapM (mapM to_float) (map (pad_row w) data) = inl e -> e = ValueError.
Proof.
  induction data as [|d data IH]; simpl; [discriminate|].
  destruct (mapM_to_float_pad_row w d) as [E1 | [ys E1]]; rewrite E1.
  - intros E; now inversion E.
  - destruct (mapM (mapM to_float) (map (pad_row w) data)) as [e2 | bs];
      [|discriminate].
    intros E; inversion E; subst e. now apply IH.
Qed.

Lemma float_frame_of_rows_error (data : list (list string))
  (cols : list string) (e : exn) :
  float_frame_of_rows data cols = inl e -> e = ValueError.
Proof.
  unfold float_frame_of_rows, frame_of_rows.
  destruct data as [|d0 data'] eqn:D; [discriminate|]. rewrite <- D.
  destruct (width data =? length cols)%nat;
    [|intros E; now inversion E].
  cbn [bind ret rows columns].
  destruct (mapM (mapM to_float) (map (pad_row (width data)) data))
    as [e2 | rs] eqn:M; [|discriminate].
  intros E; inversion E; subst e. now apply (mapM_pad_rows_error _ _ _ M).
Qed.

Lemma set_cells_length (label : string) (v : cell) (cols : list string)
  (r : list cell) :
  length (set_cells label v cols r) = length r.
Proof.
  revert r; induction cols as [|c cols IH]; intros [|x r]; simpl; auto.
Qed.

Lemma lookup_set_cells (label : string) (v : cell) (cols : list string)
  (r : list cell) :
  In label cols -> length r = length cols ->
  lookup label cols (set_cells label v cols r) = Some v.
Proof.
  revert r; induction cols as [|c cols IH]; intros r H L; [destruct H|].
  destruct r as [|x r]; [discriminate L|]. simpl.
  destruct (String.eqb label c) eqn:E.
  - apply String.eqb_eq in E. subst c. now rewrite String.eqb_refl.
  - apply IH; [|now inversion L].
    destruct H as [H | H]; [|exact H]. subst c. now rewrite String.eqb_refl in E.
Qed.

Lemma lookup_appended (label : string) (v : cell) (cols : list string)
  (r : list cell) :
  ~ In label cols -> length r = length cols ->
  lookup label (cols ++ [label]) (r ++ [v]) = Some v.
Proof.
  revert r; induction cols as [|c cols IH]; intros r H L.
  - destruct r; [|discriminate L]. simpl. now rewrite String.eqb_refl.
  - destruct r as [|x r]; [discriminate L|]. simpl.
    destruct (String.eqb label c) eqn:E.
    + apply String.eqb_eq in E. subst c. contradiction H. now left.
    + apply IH; [|now inversion L]. intros Hin. apply H. now right.
Qed.

(** [df[label] = v] keeps the frame rectangular and puts [v] under
    [label] in every row. *)
Lemma assign_shape (label : string) (v : cell) (df : DataFrame) :
  (forall r, In r (rows df) -> length r = length (columns df)) ->
  (forall r, In r (rows (assign label v df)) ->
     length r = length (columns (assign label v df))
     /\ lookup label (columns (assign label v df)) r = Some v)
  /\ length (rows (assign label v df)) = length (rows df).
Proof.
  intros W. unfold assign. destruct (Py.mem label (columns df)) eqn:M;
    cbn [rows columns]; (split; [|apply length_map]); intros r Hr;
    apply in_map_iff in Hr; destruct Hr as [r0 [E Hr0]]; subst r.
  - apply mem_In in M. rewrite set_cells_length. split; [now apply W|].
    apply lookup_set_cells; [exact M | now apply W].
  - apply mem_not_In in M. rewrite !length_app, (W r0 Hr0). split; [reflexivity|].
    apply lookup_appended; [exact M | now apply W].
Qed.

Section OneBlock.

Variable to_datetime : string -> option Z.

(** X5.  A block that is read takes at least four lines from the
    stream: the station line, the line of the data type, the line of the
    position and the line of the date. *)
Theorem X5_block_takes_four_lines (f f' : stream) (df : DataFrame) :
  read_profiler_data_block to_datetime f = inr (df, f') ->
  length f' + 4 <= length f.
Proof.
  destruct f as [|l1 f]; [discriminate|].
  unfold read_profiler_data_block.
  change (readline (l1 :: f)) with (l1, f). cbv iota beta.
  set (fa := if String.eqb (Py.strip l1) "" then snd (readline f) else f).
  assert (La : length fa <= length f).
  { unfold fa. destruct (String.eqb (Py.strip l1) ""); [|lia].
    destruct (readline f) as [l f0] eqn:E. simpl.
    exact (readline_length _ _ _ E). }
  destruct (readline fa) as [l3 fb] eqn:Eb.
  destruct (Py.split l3) as [|tag toks] eqn:S3; [discriminate|].
  assert (N3 : l3 <> EmptyString) by (apply split_nonempty; congruence).
  destruct (readline_cases _ _ _ Eb) as [[E3 _] | Lb]; [contradiction|].
  destruct (negb (Py.mem tag default_datatypes)); [discriminate|].
  destruct (readline fb) as [l4 fc] eqn:Ec. cbn [snd].
  destruct (readline fc) as [l5 fd] eqn:Ed.
  destruct (Py.split l5) as [|yr [|mo [|dy [|hr [|mi [|sc [|z [|]]]]]]]] eqn:S5;
    try discriminate.
  assert (N5 : l5 <> EmptyString) by (apply split_nonempty; congruence).
  destruct (readline_cases _ _ _ Ed) as [[E5 _] | Ld]; [contradiction|].
  destruct (readline_cases _ _ _ Ec) as [[_ [E4 _]] | Lc];
    [subst fc; simpl in Ld; lia|].
  assert (Le := skip_lines_length 5 fd).
  destruct (readline (skip_lines 5 fd)) as [hl ff] eqn:Ef.
  assert (Lf := readline_length _ _ _ Ef).
  assert (Lg := read_block_rows_length ff).
  destruct (read_block_rows ff) as [block fg]. simpl in Lg.
  destruct (pd_to_datetime _ _) as [e | t]; [discriminate|].
  unfold bind at 1.
  destruct (float_frame_of_rows block (resolve_header (Py.split hl)))
    as [e | d]; [discriminate|].
  cbn [bind ret]. intros E. inversion E; subst. simpl. lia.
Qed.

Lemma block_stamped (f f' : stream) (df : DataFrame) :
  read_profiler_data_block to_datetime f = inr (df, f') ->
  (forall r, In r (rows df) -> length r = length (columns df))
  /\ exists t,
       forall r, In r (rows df) ->
         lookup "date_time" (columns df) r = Some (CTime t).
Proof.
  unfold read_profiler_data_block.
  destruct (readline f) as [l1 f1].
  destruct (readline (if String.eqb (Py.strip l1) "" then snd (readline f1)
                      else f1)) as [l3 fb].
  destruct (Py.split l3) as [|tag toks]; [discriminate|].
  destruct (negb (Py.mem tag default_datatypes)); [discriminate|].
  destruct (readline (snd (readline fb))) as [l5 fd].
  destruct (Py.split l5) as [|yr [|mo [|dy [|hr [|mi [|sc [|z [|]]]]]]]];
    try discriminate.
  destruct (readline (skip_lines 5 fd)) as [hl ff].
  destruct (read_block_rows ff) as [block fg].
  destruct (pd_to_datetime _ _) as [e | t]; [discriminate|].
  unfold bind at 1.
  destruct (float_frame_of_rows block (resolve_header (Py.split hl)))
    as [e | d] eqn:F; [discriminate|].
  cbn [bind ret]. intros E. inversion E; subst df f'. clear E.
  destruct (float_frame_of_rows_shape _ _ _ F) as [Hc [_ Hr]].
  assert (W : forall r, In r (rows d) -> length r = length (columns d)).
  { intros r H. rewrite Hc. now apply Hr. }
  destruct (assign_shape "date_time" (CTime t) d W) as [A _].
  split.
  - intros r H. now apply A.
  - exists t. intros r H. now apply A.
Qed.


(** X7.  A block that cannot be read raises [IndexError] (no token on
    the line of the data type, as at the end of the file),
    [AssertionError] (a data type other than WINDS and RASS) or
    [ValueError] (a date line that has not seven tokens, a date that is
    none, a row wider than the header or a token that is no number), and
    nothing else. *)
Theorem X7_block_errors (f : stream) (e : exn) :
  read_profiler_data_block to_datetime f = inl e ->
  e = IndexError \/ e = AssertionError \/ e = ValueError.
Proof.
  unfold read_profiler_data_block.
  destruct (readline f) as [l1 f1].
  destruct (readline (if String.eqb (Py.strip l1) "" then snd (readline f1)
                      else f1)) as [l3 fb].
  destruct (Py.split l3) as [|tag toks]; [intros E; inversion E; auto|].
  destruct (negb (Py.mem tag default_datatypes));
    [intros E; inversion E; auto|].
  destruct (readline (snd (readline fb))) as [l5 fd].
  destruct (Py.split l5) as [|yr [|mo [|dy [|hr [|mi [|sc [|z [|]]]]]]]];
    try (intros E; inversion E; now auto).
  destruct (readline (skip_lines 5 fd)) as [hl ff].
  destruct (read_block_rows ff) as [block fg].
  unfold pd_to_datetime.
  destruct (to_datetime _); [|intros E; inversion E; now auto].
  unfold bind at 1.
  destruct (float_frame_of_rows block (resolve_header (Py.split hl)))
    as [e2 | d] eqn:F; [|discriminate].
  cbn [bind]. intros E. inversion E; subst e.
  right. right. now apply (float_frame_of_rows_error _ _ _ F).
Qed.

End OneBlock.

Lemma X5_block_takes_four_lines_witness :
  length (@nil string) + 4 <= length radar_file.
Proof.
  eapply (X5_block_takes_four_lines any_datetime radar_file []).
  vm_compute. reflexivity.
Defined.


Lemma X7_block_errors_witness :
  IndexError = IndexError \/ IndexError = AssertionError
  \/ IndexError = ValueError.
Proof.
  apply (X7_block_errors any_datetime [] IndexError). reflexivity.
Defined.

(** ** A given number of blocks *)

Section FixedModes.

Variable to_datetime : string -> option Z.

Lemma read_blocks_of_reads (f f' : stream) (dfs : list DataFrame) :
  reads to_datetime f dfs f' ->
  read_blocks to_datetime (length dfs) f = inr dfs.
Proof.
  induction 1 as [f | f f1 f2 df dfs E R IH]; simpl; [reflexivity|].
  now rewrite E, IH.
Qed.

Lemma read_blocks_failure (f f' : stream) (dfs : list DataFrame) (e : exn) :
  reads to_datetime f dfs f' ->
  read_profiler_data_block to_datetime f' = inl e ->
  forall n, length dfs < n -> read_blocks to_datetime n f = inl e.
Proof.
  intros R F. induction R as [f | f f1 f2 df dfs E R IH]; intros n L.
  - destruct n as [|n]; [simpl in L; lia|]. simpl. now rewrite F.
  - destruct n as [|n]; [simpl in L; lia|]. simpl. rewrite E.
    rewrite (IH F n); [reflexivity | simpl in L; lia].
Qed.

(** X8.  With [modes] a number [n], exactly the first [n] blocks of the
    file are read, whatever follows them, and go to [pd.concat] and to the
    masking of the sentinels; when the labels of each block are pairwise
    distinct a table with the rows of these blocks is returned.  When a
    block among the [n] cannot be read, its exception is raised to the
    caller, the [IndexError] of the end of a file that has fewer than [n]
    blocks included. *)
Theorem X8_fixed_number_of_blocks (f f' : stream) (dfs : list DataFrame)
  (n : nat) (check_na : list string) (na_values : option na_arg) :
  reads to_datetime f dfs f' ->
  (length dfs = n ->
   radar_profiler to_datetime f (Some n) check_na na_values
   = bind (pd_concat dfs) (mask_sentinels check_na na_values))
  /\ (length dfs = n -> dfs <> [] ->
      (forall d, In d dfs -> NoDup (columns d)) ->
      exists out df,
        radar_profiler to_datetime f (Some n) check_na na_values
        = inr (out, df)
        /\ length (rows df) = length (flat_map rows dfs))
  /\ (forall e,
        length dfs < n ->
        read_profiler_data_block to_datetime f' = inl e ->
        radar_profiler to_datetime f (Some n) check_na na_values = inl e).
Proof.
  intros R. unfold radar_profiler. split; [|split].
  - intros L. subst n. now rewrite (read_blocks_of_reads _ _ _ R).
  - intros L Hne Hnd. subst n. rewrite (read_blocks_of_reads _ _ _ R).
    cbn [bind].
    destruct (pd_concat_distinct_labels dfs Hne Hnd) as [df [E [N Ld]]].
    destruct (mask_sentinels_returns check_na na_values df N)
      as [out [masked [M [_ Lm]]]].
    exists out, masked. rewrite E. cbn [bind]. split; [exact M|].
    now rewrite Lm.
  - intros e L F. now rewrite (read_blocks_failure _ _ _ _ R F n L).
Qed.

End FixedModes.

Lemma X8_fixed_number_of_blocks_witness :
  radar_profiler any_datetime radar_file (Some 2) ["SPD"; "DIR"]
    (Some (NaScalar (Py.float_of_Z 999999)))
  = inl IndexError
  /\ exists out df,
       radar_profiler any_datetime radar_file (Some 1) ["SPD"; "DIR"]
         (Some (NaScalar (Py.float_of_Z 999999)))
       = inr (out, df)
       /\ length (rows df) = 2.
Proof.
  destruct (read_profiler_data_block any_datetime radar_file)
    as [e | [df f']] eqn:E; [vm_compute in E; discriminate E|].
  assert (F : f' = []) by (vm_compute in E; now inversion E).
  subst f'.
  assert (R : reads any_datetime radar_file [df] []).
  { apply reads_cons with []; [exact E | constructor]. }
  split.
  - destruct (X8_fixed_number_of_blocks any_datetime radar_file [] [df] 2
                ["SPD"; "DIR"] (Some (NaScalar (Py.float_of_Z 999999))) R)
      as [_ [_ H]].
    apply H; [simpl; lia | reflexivity].
  - destruct (X8_fixed_number_of_blocks any_datetime radar_file [] [df] 1
                ["SPD"; "DIR"] (Some (NaScalar (Py.float_of_Z 999999))) R)
      as [_ [H _]].
    destruct H as [out [d [H1 H2]]].
    + reflexivity.
    + discriminate.
    + intros d [Ed | []]. subst d.
      vm_compute in E. inversion E. cbn [columns].
      repeat constructor; simpl; intuition discriminate.
    + exists out, d. split; [exact H1|].
      rewrite H2. vm_compute in E. inversion E. reflexivity.
Defined.

(** ** What masking leaves alone *)

Lemma nth_error_map_row (g : string -> cell -> cell) (cols : list string)
  (r : list cell) (j : nat) :
  nth_error (map_row g cols r) j
  = match nth_error cols j with
    | Some c => option_map (g c) (nth_error r j)
    | None => nth_error r j
    end.
Proof.
  revert r j; induction cols as [|c cols IH]; intros r j.
  - simpl. destruct r; now destruct j.
  - destruct r as [|x r]; simpl.
    + destruct j; simpl; [reflexivity|]. now destruct (nth_error cols j).
    + destruct j; simpl; [reflexivity | apply IH].
Qed.

Lemma map_row_length (g : string -> cell -> cell) (cols : list string)
  (r : list cell) :
  length (map_row g cols r) = length r.
Proof.
  revert r; induction cols as [|c cols IH]; intros [|x r]; simpl; auto.
Qed.

Lemma mem_false_not_In (x : string) (l : list string) :
  ~ In x l -> Py.mem x l = false.
Proof.
  intros H. destruct (Py.mem x l) eqn:M; [|reflexivity].
  contradiction H. unfold Py.mem in M. apply existsb_exists in M.
  destruct M as [y [Hy E]]. apply String.eqb_eq in E. now subst y.
Qed.

Lemma mem_true_In (x : string) (l : list string) :
  In x l -> Py.mem x l = true.
Proof.
  intros H. unfold Py.mem. apply existsb_exists. exists x.
  split; [exact H | apply String.eqb_refl].
Qed.

(** X9.  When the masking of [radar_profiler] returns, it has kept the
    labels, the number of rows and the length of each row; a cell is
    either left as it is or replaced by the marker, and a cell of a column
    that is not among the columns to check is always left as it is. *)
Theorem X9_masking_is_local (check_na : list string) (na_values : na_arg)
  (df masked : DataFrame) :
  snd (sentinel_mask check_na na_values df) = inr masked ->
  columns masked = columns df
  /\ length (rows masked) = length (rows df)
  /\ forall i r,
       nth_error (rows df) i = Some r ->
       exists r',
         nth_error (rows masked) i = Some r'
         /\ length r' = length r
         /\ forall j x,
              nth_error r j = Some x ->
              exists y,
                nth_error r' j = Some y
                /\ (y = x \/ y = NaN)
                /\ (forall c,
                      nth_error (columns df) j = Some c ->
                      ~ In c (snd (resolve_check_na (columns df) check_na)) ->
                      y = x).
Proof.
  unfold sentinel_mask.
  destruct (resolve_check_na (columns df) check_na) as [out nalist].
  cbn [snd]. intros E. apply mask_values_returns in E.
  destruct E as [_ E]. subst masked.
  unfold map_frame. cbn [rows columns].
  split; [reflexivity|]. split; [apply length_map|].
  intros i r Hr.
  exists (map_row (masked_cell (na_list na_values) nalist) (columns df) r).
  split; [|split].
  - rewrite nth_error_map, Hr. reflexivity.
  - apply map_row_length.
  - intros j x Hx. rewrite nth_error_map_row, Hx.
    destruct (nth_error (columns df) j) as [c|] eqn:Hc; simpl.
    + eexists. split; [reflexivity|]. split.
      * apply (masking_masked_cell (na_list na_values) nalist c x).
      * intros c' E Hn. inversion E; subst c'.
        apply masked_cell_elsewhere. now apply mem_false_not_In.
    + exists x. split; [reflexivity|]. split; [now left|]. discriminate.
Qed.

Lemma X9_masking_is_local_witness :
  let df := mkFrame ["HT"; "SPD"]
              [[CFloat (Py.float_of_Z 999999); CFloat (Py.float_of_Z 999999)]] in
  exists masked r',
    snd (sentinel_mask ["SPD"] (NaScalar (Py.float_of_Z 999999)) df)
    = inr masked
    /\ nth_error (rows masked) 0 = Some r'
    /\ nth_error r' 0 = Some (CFloat (Py.float_of_Z 999999)).
Proof.
  intros df.
  destruct (snd (sentinel_mask ["SPD"] (NaScalar (Py.float_of_Z 999999)) df))
    as [e | masked] eqn:E; [vm_compute in E; discriminate E|].
  destruct (X9_masking_is_local ["SPD"] (NaScalar (Py.float_of_Z 999999)) df
              masked E) as [_ [_ H]].
  destruct (H 0 _ eq_refl) as [r' [H1 [_ H2]]].
  exists masked, r'. split; [reflexivity|]. split; [exact H1|].
  destruct (H2 0 _ eq_refl) as [y [Hy [_ H3]]].
  rewrite Hy. f_equal. apply (H3 "HT"); [reflexivity|].
  simpl. intros [D | []]. discriminate D.
Defined.

(** X25.  When the masking of [radar_profiler] returns, masking its
    result again with the same columns and sentinels returns the same
    frame and prints the same notes.  After the first pass no cell of a
    checked column equals a sentinel: each cell that did has been replaced
    by the marker, which equals no number. *)
Theorem X25_masking_twice_is_masking_once (check_na : list string)
  (na_values : na_arg) (df masked : DataFrame) :
  snd (sentinel_mask check_na na_values df) = inr masked ->
  sentinel_mask check_na na_values masked
  = (fst (sentinel_mask check_na na_values df), inr masked)
  /\ (forall r c x val,
        In r (rows masked) ->
        In (c, x) (combine (columns masked) r) ->
        In c (snd (resolve_check_na (columns df) check_na)) ->
        In val (na_list na_values) ->
        cell_eq x val = false)
  /\ (forall i j r c x val,
        nth_error (rows df) i = Some r ->
        nth_error (columns df) j = Some c ->
        nth_error r j = Some x ->
        In c (snd (resolve_check_na (columns df) check_na)) ->
        In val (na_list na_values) ->
        cell_eq x val = true ->
        exists r',
          nth_error (rows masked) i = Some r' /\ nth_error r' j = Some NaN).
Proof.
  unfold sentinel_mask.
  destruct (resolve_check_na (columns df) check_na) as [out nalist] eqn:R.
  cbn [fst snd]. intros E. apply mask_values_returns in E.
  destruct E as [M E]. subst masked. split; [|split].
  - cbn [map_frame columns]. rewrite R. f_equal.
    rewrite mask_values_spec. cbn [map_frame columns]. rewrite M.
    f_equal. apply map_frame_idempotent. apply masking_masked_cell.
  - intros r c x val Hr Hx Hcol Hval.
    destruct (map_frame_cell _ _ _ _ _ Hr Hx) as [x0 E]. subst x.
    apply clears_masked_cell; [now apply mem_true_In | exact Hval].
  - intros i j r c x val Hr Hc Hx Hcol Hval Heq.
    exists (map_row (masked_cell (na_list na_values) nalist) (columns df) r).
    unfold map_frame. cbn [rows]. split.
    + rewrite nth_error_map, Hr. reflexivity.
    + rewrite nth_error_map_row, Hc, Hx. cbn [option_map]. f_equal.
      apply masked_cell_sentinel with val; auto. now apply mem_true_In.
Qed.

Lemma X25_masking_twice_is_masking_once_witness :
  let na := NaScalar (Py.float_of_Z 999999) in
  let df := mkFrame ["HT"; "SPD"]
              [[CFloat (Py.float_of_Z 1); CFloat (Py.float_of_Z 999999)]] in
  let masked := mkFrame ["HT"; "SPD"] [[CFloat (Py.float_of_Z 1); NaN]] in
  snd (sentinel_mask ["SPD"] na df) = inr masked
  /\ sentinel_mask ["SPD"] na masked = ([], inr masked)
  /\ exists r',
       nth_error (rows masked) 0 = Some r' /\ nth_error r' 1 = Some NaN.
Proof.
  intros na df masked.
  assert (E : snd (sentinel_mask ["SPD"] na df) = inr masked) by reflexivity.
  destruct (X25_masking_twice_is_masking_once ["SPD"] na df masked E)
    as [H1 [_ H3]].
  split; [exact E|]. split; [exact H1|].
  apply (H3 0 1 _ "SPD" _ (Py.float_of_Z 999999) eq_refl eq_refl eq_refl);
    [now left | now left | reflexivity].
Defined.

(** ** The metadata lines of a WindCube file *)

Lemma contains_lstrip (c : ascii) (s : string) :
  Py.isspace c = false -> Py.contains c (Py.lstrip s) = Py.contains c s.
Proof.
  intros Hc. induction s as [|d s IH]; simpl; [reflexivity|].
  destruct (Py.isspace d) eqn:Hd; [|reflexivity].
  rewrite IH. destruct (Ascii.eqb d c) eqn:E; [|reflexivity].
  apply Ascii.eqb_eq in E. subst d. congruence.
Qed.

Lemma contains_rstrip (c : ascii) (s : string) :
  Py.isspace c = false -> Py.contains c (Py.rstrip s) = Py.contains c s.
Proof.
  intros Hc. induction s as [|d s IH]; simpl; [reflexivity|].
  destruct (Py.rstrip s) as [|d' r] eqn:R.
  - simpl in IH. rewrite <- IH. destruct (Py.isspace d) eqn:Hd; simpl.
    + destruct (Ascii.eqb d c) eqn:E; [|reflexivity].
      apply Ascii.eqb_eq in E. subst d. congruence.
    + reflexivity.
  - simpl. simpl in IH. now rewrite IH.
Qed.

Lemma contains_strip (c : ascii) (s : string) :
  Py.isspace c = false -> Py.contains c (Py.strip s) = Py.contains c s.
Proof.
  intros Hc. unfold Py.strip. now rewrite contains_rstrip, contains_lstrip.
Qed.

Lemma split_on_aux_nonempty (sep : ascii) (cur s : string) :
  exists k rest, Py.split_on_aux sep cur s = k :: rest.
Proof.
  revert cur; induction s as [|c s IH]; intros cur; simpl; [eauto|].
  destruct (Ascii.eqb c sep); [eauto | apply IH].
Qed.

(** A text that contains the separator splits into two fields at least. *)
Lemma split_on_two_fields (sep : ascii) (s : string) :
  Py.contains sep s = true ->
  exists k v rest, Py.split_on sep s = k :: v :: rest.
Proof.
  unfold Py.split_on. generalize EmptyString as cur.
  induction s as [|c s IH]; intros cur H; simpl in *; [discriminate|].
  destruct (Ascii.eqb c sep) eqn:E.
  - destruct (split_on_aux_nonempty sep EmptyString s) as [v [rest Ev]].
    rewrite Ev. eauto.
  - apply IH. exact H.
Qed.

Lemma read_param_returns (line : string) (si : dict param) :
  exists si', read_param line si = inr si'
              /\ (Py.contains "=" line = false -> si' = si).
Proof.
  unfold read_param. destruct (Py.contains "=" line) eqn:C.
  - assert (C' : Py.contains "=" (Py.strip line) = true)
      by (rewrite contains_strip; [exact C | reflexivity]).
    destruct (split_on_two_fields _ _ C') as [k [v [rest E]]]. rewrite E.
    eexists. split; [reflexivity | discriminate].
  - exists si. split; [reflexivity | reflexivity].
Qed.

Lemma read_params_returns (n : nat) (f : stream) (si : dict param) :
  exists si',
    read_params n f si = inr (si', skipn n f)
    /\ ((forall l, In l (firstn n f) -> Py.contains "=" l = false) ->
        si' = si).
Proof.
  revert f si; induction n as [|n IH]; intros f si.
  - exists si. simpl. split; reflexivity.
  - simpl. destruct f as [|line f]; simpl.
    + destruct (IH [] si) as [si' [E H]]. exists si'.
      rewrite E. simpl. rewrite skipn_nil. split; [reflexivity|].
      intros _. apply H. rewrite firstn_nil. intros l [].
    + destruct (read_param_returns line si) as [si1 [E1 K1]]. rewrite E1.
      destruct (IH f si1) as [si' [E H]]. exists si'. split; [exact E|].
      intros Hall. rewrite H.
      * apply K1. apply Hall. now left.
      * intros l Hl. apply Hall. now right.
Qed.

(** X10.  The loop over the metadata lines never raises: it takes the
    declared number of lines, or what is left of the file, and returns;
    when none of these lines has an equals sign, [scan_info] is returned
    as it was. *)
Theorem X10_metadata_loop_returns (n : nat) (f : stream) (si : dict param) :
  exists si',
    read_params n f si = inr (si', skipn n f)
    /\ ((forall l, In l (firstn n f) -> Py.contains "=" l = false) ->
        si' = si).
Proof. apply read_params_returns. Qed.

Lemma X10_metadata_loop_returns_witness :
  exists si',
    read_params 3 (lines_of ["um1 vm1"; "1 2"]) [("Gain", PInt 2)]
    = inr (si', [])
    /\ si' = [("Gain", PInt 2)].
Proof.
  destruct (X10_metadata_loop_returns 3 (lines_of ["um1 vm1"; "1 2"])
              [("Gain", PInt 2)]) as [si' [E H]].
  exists si'. split; [exact E|]. apply H.
  intros l [El | [El | []]]; subst l; reflexivity.
Defined.

Lemma mapM_float_or_raise_error (l : list string) (e : exn) :
  mapM float_or_raise l = inl e -> e = ValueError.
Proof.
  induction l as [|s l IH]; simpl; [discriminate|].
  unfold float_or_raise at 1. destruct (Py.float s); simpl.
  - destruct (mapM float_or_raise l) as [e' | xs]; [|discriminate].
    intros E; inversion E; subst e. now apply IH.
  - intros E; now inversion E.
Qed.

(** X11.  A file whose first line has no equals sign is taken to have no
    header: the default columns and altitudes are used and the file is
    read again from its first line.  Otherwise the header can only fail
    with [ValueError] (the count of the first line is no integer, or an
    altitude is no number), [KeyError] (no line gave [Altitudes(m)]) or
    [AttributeError] (the altitudes were read as one number). *)
Theorem X11_header_outcomes (f : stream) (default_columns : list string)
  (default_altitudes : list spec_float) :
  (Py.contains "=" (fst (readline f)) = false ->
   windcube_header f default_columns default_altitudes
   = inr (mkHead [] default_columns default_altitudes f))
  /\ (forall e,
        windcube_header f default_columns default_altitudes = inl e ->
        e = ValueError \/ e = KeyError \/ e = AttributeError).
Proof.
  unfold windcube_header. destruct (readline f) as [firstline f1]. cbn [fst].
  split.
  - intros C. now rewrite C.
  - intros e. destruct (Py.contains "=" firstline); [|discriminate].
    destruct (Py.int _) as [Nheader|]; [|intros E; inversion E; now auto].
    destruct (read_params_returns (Z.to_nat Nheader) f1 [])
      as [si [E _]].
    rewrite E. destruct (readline (skipn (Z.to_nat Nheader) f1)) as [cl f3].
    destruct (dict_get "Altitudes(m)" si) as [[z | x | s]|];
      try (intros H; inversion H; now auto).
    destruct (mapM float_or_raise (Py.split_on tab (Py.strip s)))
      as [e2 | alts] eqn:M; [|discriminate].
    cbn [bind]. intros H; inversion H; subst e. left.
    now apply (mapM_float_or_raise_error _ _ M).
Qed.

Lemma X11_header_outcomes_witness :
  windcube_header (lines_of ["01/02/2016 00:00:01 1.5 2.5"])
    ["date"; "time"; "um1"; "vm1"] [Py.float_of_Z 40]
  = inr (mkHead [] ["date"; "time"; "um1"; "vm1"] [Py.float_of_Z 40]
           (lines_of ["01/02/2016 00:00:01 1.5 2.5"])).
Proof.
  destruct (X11_header_outcomes (lines_of ["01/02/2016 00:00:01 1.5 2.5"])
              ["date"; "time"; "um1"; "vm1"] [Py.float_of_Z 40]) as [H _].
  apply H. reflexivity.
Defined.

(** ** The WindCube table *)

Module ReshapeFacts.
Import Reshape LongTable.

Lemma dict_get_set_same {V : Type} (k : string) (v : V) (d : dict V) :
  dict_get k (dict_set k v d) = Some v.
Proof.
  induction d as [|[k' v'] d IH]; simpl.
  - now rewrite String.eqb_refl.
  - destruct (String.eqb k k') eqn:E; simpl; rewrite ?String.eqb_refl, ?E;
      [reflexivity | exact IH].
Qed.

Lemma dict_get_set_other {V : Type} (k k' : string) (v : V) (d : dict V) :
  k <> k' -> dict_get k (dict_set k' v d) = dict_get k d.
Proof.
  intros N. apply String.eqb_neq in N.
  induction d as [|[k0 v0] d IH]; simpl.
  - now rewrite N.
  - destruct (String.eqb k' k0) eqn:E; simpl.
    + apply String.eqb_eq in E. subst k0. now rewrite N.
    + destruct (String.eqb k k0); [reflexivity | exact IH].
Qed.

(** The dict made from pairs with distinct keys gives each key its
    value. *)
Lemma dict_of_pairs {V : Type} (l : list (string * V)) (d0 : dict V)
  (k : string) (v : V) :
  NoDup (map fst l) -> In (k, v) l ->
  dict_get k (fold_left (fun d kv => dict_set (fst kv) (snd kv) d) l d0)
  = Some v.
Proof.
  revert d0; induction l as [|[k1 v1] l IH]; intros d0 N H; [destruct H|].
  simpl in *. inversion N as [|? ? Hnot N']; subst.
  destruct H as [E | H].
  - inversion E; subst k1 v1. clear IH N E.
    revert d0. induction l as [|[k2 v2] l IHl]; intros d0; simpl.
    + apply dict_get_set_same.
    + simpl in Hnot, N'. inversion N'; subst.
      assert (Hk : k <> k2) by (intros ->; apply Hnot; now left).
      assert (Hr : ~ In k (map fst l)) by (intros Hin; apply Hnot; now right).
      specialize (IHl Hr H2).
      assert (G : forall d, dict_get k d = Some v ->
                  dict_get k (fold_left
                                (fun d kv => dict_set (fst kv) (snd kv) d) l d)
                  = Some v).
      { clear - Hr. induction l as [|[k3 v3] l IHl]; intros d Hd; simpl;
          [exact Hd|].
        apply IHl; [intros Hin; apply Hr; now right|].
        rewrite dict_get_set_other; [exact Hd|].
        intros ->. apply Hr. now left. }
      apply G. rewrite dict_get_set_other by exact Hk.
      apply dict_get_set_same.
  - now apply IH.
Qed.

Lemma append_inj_r (p a b : string) : (p ++ a = p ++ b)%string -> a = b.
Proof.
  induction p as [|c p IH]; simpl; intros E; [exact E|].
  inversion E. now apply IH.
Qed.

Lemma vars_as_map (prefix : string) (n : nat) (alts : list spec_float) :
  combine (vars prefix n) alts
  = map (fun ih => ((prefix ++ Py.str (fst ih))%string, snd ih))
        (combine (seq 1 n) alts).
Proof.
  unfold vars. generalize (seq 1 n) as l. intros l. revert alts.
  induction l as [|i l IH]; intros [|h alts]; simpl; try reflexivity.
  now rewrite IH.
Qed.

Lemma vars_NoDup (prefix : string) (n : nat) : NoDup (vars prefix n).
Proof.
  unfold vars. apply Finite.Injective_map_NoDup; [|apply seq_NoDup].
  intros i j E. apply append_inj_r in E. now apply str_inj.
Qed.

Lemma vars_length (prefix : string) (n : nat) : length (vars prefix n) = n.
Proof. unfold vars. now rewrite length_map, length_seq. Qed.

Lemma map_fst_combine {A B : Type} (a : list A) (b : list B) :
  length a = length b -> map fst (combine a b) = a.
Proof.
  revert b; induction a as [|x a IH]; intros [|y b] L; simpl; try reflexivity;
    try discriminate L.
  f_equal. apply IH. now inversion L.
Qed.

Lemma map_snd_combine {A B : Type} (a : list A) (b : list B) :
  length a = length b -> map snd (combine a b) = b.
Proof.
  revert b; induction a as [|x a IH]; intros [|y b] L; simpl; try reflexivity;
    try discriminate L.
  f_equal. apply IH. now inversion L.
Qed.

Lemma flat_map_of_map {A B C : Type} (g : B -> list C) (h : A -> B)
  (l : list A) :
  flat_map g (map h l) = flat_map (fun a => g (h a)) l.
Proof. induction l as [|a l IH]; simpl; [reflexivity | now rewrite IH]. Qed.

Lemma map_of_flat_map {A B C : Type} (f : B -> C) (g : A -> list B)
  (l : list A) :
  map f (flat_map g l) = flat_map (fun a => map f (g a)) l.
Proof.
  induction l as [|a l IH]; simpl; [reflexivity|].
  now rewrite map_app, IH.
Qed.

Lemma flat_map_of_flat_map {A B C : Type} (f : B -> list C) (g : A -> list B)
  (l : list A) :
  flat_map f (flat_map g l) = flat_map (fun a => flat_map f (g a)) l.
Proof.
  induction l as [|a l IH]; simpl; [reflexivity|].
  now rewrite flat_map_app, IH.
Qed.

Lemma filter_of_flat_map {A B : Type} (p : B -> bool) (g : A -> list B)
  (l : list A) :
  filter p (flat_map g l) = flat_map (fun a => filter p (g a)) l.
Proof.
  induction l as [|a l IH]; simpl; [reflexivity|].
  now rewrite filter_app, IH.
Qed.

Lemma filter_of_map {A B : Type} (p : B -> bool) (h : A -> B) (l : list A) :
  filter p (map h l) = map h (filter (fun a => p (h a)) l).
Proof.
  induction l as [|a l IH]; simpl; [reflexivity|].
  destruct (p (h a)); simpl; now rewrite IH.
Qed.

Lemma flat_map_singletons {A B : Type} (h : A -> B) (l : list A) :
  flat_map (fun a => [h a]) l = map h l.
Proof. induction l as [|a l IH]; simpl; [reflexivity | now rewrite IH]. Qed.

Lemma filter_all_false {A : Type} (p : A -> bool) (l : list A) :
  (forall a, In a l -> p a = false) -> filter p l = [].
Proof.
  induction l as [|a l IH]; intros Z; [reflexivity|]. simpl.
  rewrite (Z a (or_introl eq_refl)). apply IH.
  intros c Hc. apply Z. now right.
Qed.

Lemma flat_map_all_nil {A B : Type} (g : A -> list B) (l : list A) :
  (forall b, In b l -> g b = []) -> flat_map g l = [].
Proof.
  induction l as [|b l IH]; intros Z; [reflexivity|]. simpl.
  rewrite (Z b (or_introl eq_refl)). apply IH.
  intros c Hc. apply Z. now right.
Qed.

(** Among distinct elements of which only one gives anything. *)
Lemma flat_map_only_one {A B : Type} (g : A -> list B) (l : list A) (a : A) :
  NoDup l -> In a l ->
  (forall b, In b l -> b <> a -> g b = []) ->
  flat_map g l = g a.
Proof.
  induction l as [|b l IH]; intros N H Z; [destruct H|].
  inversion N as [|? ? Hnot N']; subst. simpl. destruct H as [H | H].
  - subst b. rewrite flat_map_all_nil; [apply app_nil_r|].
    intros c Hc. apply Z; [now right|]. intros ->. contradiction.
  - rewrite (Z b); [|now left | intros ->; contradiction]. simpl.
    apply IH; auto. intros c Hc. apply Z. now right.
Qed.

Lemma NoDup_of_map {A B : Type} (h : A -> B) (l : list A) :
  NoDup (map h l) -> NoDup l.
Proof.
  induction l as [|a l IH]; intros N; [constructor|].
  simpl in N. inversion N; subst. constructor; [|now apply IH].
  intros Hin. apply H1. now apply in_map.
Qed.

(** A function that returns on every element of a list. *)
Lemma mapM_total {A B : Type} (f : A -> result B) (g : A -> B) (l : list A) :
  (forall a, In a l -> f a = inr (g a)) -> mapM f l = inr (map g l).
Proof.
  induction l as [|a l IH]; intros H; simpl; [reflexivity|].
  rewrite (H a (or_introl eq_refl)).
  rewrite IH by (intros b Hb; apply H; now right). reflexivity.
Qed.

(** A function whose only exception is [e], on a list with an element on
    which it raises. *)
Lemma mapM_raises {A B : Type} (f : A -> result B) (e : exn) (l : list A)
  (a : A) :
  (forall b e', f b = inl e' -> e' = e) ->
  In a l -> f a = inl e ->
  mapM f l = inl e.
Proof.
  intros Only. induction l as [|b l IH]; intros Hin Ha; [destruct Hin|].
  simpl. destruct (f b) as [e' | y] eqn:Fb.
  - now rewrite (Only b e' Fb).
  - destruct Hin as [E | Hin]; [subst b; congruence|].
    now rewrite (IH Hin Ha).
Qed.

Lemma map_over_combine {A B C D : Type} (F : A * D -> C) (G : B * B -> D)
  (a b : A -> B) (l : list A) :
  map F (combine l (map G (combine (map a l) (map b l))))
  = map (fun p => F (p, G (a p, b p))) l.
Proof. induction l as [|p l IH]; simpl; [reflexivity | now rewrite IH]. Qed.

Lemma combine_of_maps {A B : Type} (g h : A -> B) (l l' : list A) :
  combine (map g l) (map h l')
  = map (fun ab => (g (fst ab), h (snd ab))) (combine l l').
Proof.
  revert l'; induction l as [|a l IH]; intros [|b l']; simpl;
    try reflexivity.
  now rewrite IH.
Qed.

(** *** Numbers *)

Lemma numeric_items (s : series) (x : scalar) :
  is_number (dtype_of s) = true -> In x (items s) -> numeric x.
Proof.
  destruct s as [xs | xs | xs | xs]; simpl; try discriminate; intros _ H;
    apply in_map_iff in H; destruct H as [y [E _]]; subst x; exact I.
Qed.

Lemma numeric_cast (d : dtype) (x : scalar) :
  is_number d = true -> numeric x -> numeric (cast d x).
Proof. destruct d, x; simpl; auto; discriminate. Qed.

Lemma common_dtype_number (ds : list dtype) :
  forallb is_number ds = true -> is_number (common_dtype ds) = true.
Proof.
  intros H. unfold common_dtype. rewrite H.
  now destruct (forallb is_int64 ds).
Qed.

Lemma square1_numeric (x : scalar) : numeric x -> square1 x = inr (sq x).
Proof. destruct x; simpl; tauto. Qed.

Lemma square_numeric (d : dtype) (xs : list scalar) :
  is_number d = true -> (forall x, In x xs -> numeric x) ->
  square d xs = inr (map sq xs).
Proof.
  intros Hd H. unfold square.
  destruct d; try discriminate Hd; apply mapM_total;
    intros x Hx; apply square1_numeric; auto.
Qed.

(** On columns of numbers the speed is taken pair by pair. *)
Lemma speeds_numeric (du dv : dtype) (um vm : list scalar) :
  is_number du = true -> is_number dv = true ->
  (forall x, In x um -> numeric x) -> (forall x, In x vm -> numeric x) ->
  speeds du dv um vm
  = inr (map (fun ab => speed (fst ab) (snd ab)) (combine um vm)).
Proof.
  intros Hu Hv Nu Nv. unfold speeds.
  rewrite (square_numeric du um Hu Nu), (square_numeric dv vm Hv Nv).
  cbn [bind]. rewrite combine_of_maps, map_map.
  destruct du; try discriminate Hu; destruct dv; try discriminate Hv;
    reflexivity.
Qed.

(** *** Join keys *)

Lemma SFeqb_refl (x : spec_float) : is_nan x = false -> SFeqb x x = true.
Proof.
  unfold SFeqb, SFcompare.
  destruct x as [[] | [] | | [] m e]; simpl; try discriminate;
    intros _; rewrite ?Z.compare_refl, ?Pos.compare_cont_refl; reflexivity.
Qed.

Lemma float_key_eqb_refl (x : spec_float) : float_key_eqb x x = true.
Proof.
  unfold float_key_eqb. destruct (is_nan x) eqn:N.
  - now rewrite orb_true_r.
  - now rewrite SFeqb_refl.
Qed.

Lemma integer_of_number (x : spec_float) (z : Z) :
  integer_of x = Some z -> is_nan x = false.
Proof. destruct x; simpl; intros; try discriminate; reflexivity. Qed.

Lemma scalar_eqb_refl (x : scalar) : scalar_eqb x x = true.
Proof.
  destruct x as [z | v | t | [z | v | s | | t]]; simpl;
    rewrite ?Z.eqb_refl, ?String.eqb_refl, ?float_key_eqb_refl; reflexivity.
Qed.

Lemma pd_merge_In um vm l r :
  In (l, r) (pd_merge um vm) <-> In l um /\ In r vm /\ key_eqb l r = true.
Proof.
  unfold pd_merge. rewrite in_flat_map. split.
  - intros [l' [Hl H]]. apply in_map_iff in H.
    destruct H as [r' [E Hr]]. inversion E; subst l' r'.
    apply filter_In in Hr. tauto.
  - intros [Hl [Hr K]]. exists l. split; [exact Hl|].
    apply in_map. apply filter_In. tauto.
Qed.

Lemma In_combine_nth {A B : Type} (l : list A) (l' : list B) (a : A) (b : B) :
  In (a, b) (combine l l')
  <-> exists j, nth_error l j = Some a /\ nth_error l' j = Some b.
Proof.
  revert l'; induction l as [|x l IH]; intros [|y l']; simpl.
  - split; [intros [] | intros [[|j] [H _]]; discriminate H].
  - split; [intros [] | intros [[|j] [H _]]; discriminate H].
  - split; [intros [] | intros [[|j] [_ H]]; discriminate H].
  - split.
    + intros [E | H].
      * inversion E; subst. now exists 0.
      * apply IH in H. destruct H as [j Hj]. now exists (S j).
    + intros [[|j] [H1 H2]]; simpl in *.
      * left. congruence.
      * right. apply IH. now exists j.
Qed.

Lemma nth_error_seq_from (start n i : nat) :
  i < n -> nth_error (seq start n) i = Some (start + i).
Proof.
  revert start i; induction n as [|n IH]; intros start i L; [lia|].
  destruct i as [|i]; simpl; [f_equal; lia|].
  rewrite IH by lia. f_equal. lia.
Qed.

Lemma nth_error_seq_inv (start n i k : nat) :
  nth_error (seq start n) i = Some k -> k = start + i /\ i < n.
Proof.
  intros H. assert (L : i < n).
  { rewrite <- (length_seq n start). apply nth_error_Some. congruence. }
  rewrite nth_error_seq_from in H by exact L. split; [congruence | exact L].
Qed.

(** The levels are the altitudes with their positions, from 1. *)
Lemma In_levels (alts : list spec_float) (k : nat) (h : spec_float) :
  In (k, h) (levels alts) <-> exists i, k = S i /\ nth_error alts i = Some h.
Proof.
  unfold levels. rewrite In_combine_nth. split.
  - intros [i [H1 H2]]. apply nth_error_seq_inv in H1. exists i. tauto.
  - intros [i [E H]]. exists i. split; [|exact H]. subst k.
    apply nth_error_seq_from. apply nth_error_Some. congruence.
Qed.

Lemma levels_snd (alts : list spec_float) : map snd (levels alts) = alts.
Proof. apply map_snd_combine. now rewrite length_seq. Qed.

Lemma levels_fst (alts : list spec_float) :
  map fst (levels alts) = seq 1 (length alts).
Proof. apply map_fst_combine. now rewrite length_seq. Qed.

Lemma levels_NoDup (alts : list spec_float) : NoDup (levels alts).
Proof. apply NoDup_of_map with fst. rewrite levels_fst. apply seq_NoDup. Qed.

Lemma level_label (prefix : string) (alts : list spec_float)
  (ih : nat * spec_float) :
  In ih (levels alts) ->
  In (prefix ++ Py.str (fst ih))%string (vars prefix (length alts)).
Proof.
  intros H. unfold vars.
  apply (in_map (fun i => (prefix ++ Py.str i)%string)).
  rewrite <- levels_fst. now apply in_map.
Qed.

(** *** Melting *)

Lemma value_column_present (df : frame) (v : string) :
  dict_get v df <> None -> value_column df v = inr (v, the_column df v).
Proof.
  unfold value_column, the_column.
  destruct (dict_get v df); [reflexivity | congruence].
Qed.

Lemma value_column_error (df : frame) (v : string) (e : exn) :
  value_column df v = inl e -> e = KeyError /\ dict_get v df = None.
Proof.
  unfold value_column. destruct (dict_get v df); [discriminate|].
  intros E. inversion E. auto.
Qed.

Lemma melt_present (df : frame) (vs : list string) :
  present df vs ->
  melt df vs
  = inr (mkMolten (common_dtype (map (dtype_at df) vs))
           (melted_family df (common_dtype (map (dtype_at df) vs)) vs)).
Proof.
  intros [Ht Hv]. unfold melt, melted_family, times, values.
  unfold the_column at 1.
  destruct (dict_get "date_time" df) as [ts|]; [|congruence].
  rewrite (mapM_total _ (fun v => (v, the_column df v)))
    by (intros v Hin; apply value_column_present; auto).
  cbn [bind ret]. rewrite map_map, flat_map_of_map. reflexivity.
Qed.

Lemma melt_error (df : frame) (vs : list string) (e : exn) :
  melt df vs = inl e -> e = KeyError.
Proof.
  unfold melt. destruct (dict_get "date_time" df) as [ts|];
    [|intros E; now inversion E].
  destruct (mapM (value_column df) vs) as [e' | cols] eqn:M; [|discriminate].
  cbn [bind]. intros E. inversion E; subst e'. clear E.
  revert M. induction vs as [|v vs IH]; simpl; [discriminate|].
  destruct (value_column df v) as [e' | c] eqn:V.
  - intros E. inversion E; subst e'. now apply value_column_error in V.
  - destruct (mapM (value_column df) vs) as [e' | cs]; [|discriminate].
    intros E. inversion E; subst e'. now apply IH.
Qed.

Lemma melt_absent (df : frame) (vs : list string) :
  (dict_get "date_time" df = None
   \/ exists v, In v vs /\ dict_get v df = None) ->
  melt df vs = inl KeyError.
Proof.
  intros H. unfold melt.
  destruct (dict_get "date_time" df) as [ts|]; [|reflexivity].
  destruct H as [H | [v [Hin Hv]]]; [discriminate|].
  rewrite (mapM_raises (value_column df) KeyError vs v); [reflexivity | | |].
  - intros b e' E. now apply value_column_error in E.
  - exact Hin.
  - unfold value_column. now rewrite Hv.
Qed.

Section Table.

Variable arctan2 : spec_float -> spec_float -> spec_float.
Variable df : frame.
Variable alts : list spec_float.

Local Abbreviation n := (length alts).
Local Abbreviation um_rows :=
  (flat_map (component df "um" (length alts)) (levels alts)).
Local Abbreviation vm_rows :=
  (flat_map (component df "vm" (length alts)) (levels alts)).

(** The melted rows of a family with their heights are its levels one
    after the other. *)
Lemma with_heights (prefix : string) :
  map (with_height (vars prefix n) alts)
      (melted_family df (family_dtype df prefix n) (vars prefix n))
  = flat_map (component df prefix n) (levels alts).
Proof.
  assert (V : vars prefix n
              = map (fun ih => (prefix ++ Py.str (fst ih))%string)
                    (levels alts)).
  { unfold vars. rewrite <- levels_fst at 1. now rewrite map_map. }
  unfold melted_family. rewrite V at 2.
  rewrite flat_map_of_map, map_of_flat_map.
  apply flat_map_ext_mem. intros ih Hih. unfold component.
  rewrite map_map. apply map_ext. intros tx.
  unfold with_height. cbn [m_var]. f_equal.
  rewrite (dict_of_pairs _ _ _ (snd ih)); [reflexivity | |].
  - rewrite map_fst_combine; [apply vars_NoDup|].
    now rewrite vars_length.
  - rewrite vars_as_map.
    apply (in_map (fun ih => ((prefix ++ Py.str (fst ih))%string, snd ih))
                  (levels alts) ih Hih).
Qed.

Lemma family_dtype_number (prefix : string) :
  numbers df (vars prefix n) ->
  is_number (family_dtype df prefix n) = true.
Proof.
  intros H. apply common_dtype_number. apply forallb_forall.
  intros d Hd. apply in_map_iff in Hd. destruct Hd as [v [E Hv]].
  subst d. now apply H.
Qed.

Lemma component_numeric (prefix : string) (l : melted * spec_float) :
  numbers df (vars prefix n) ->
  In l (flat_map (component df prefix n) (levels alts)) ->
  numeric (m_value (fst l)).
Proof.
  intros H Hl. apply in_flat_map in Hl. destruct Hl as [ih [Hih Hl]].
  unfold component in Hl. apply in_map_iff in Hl.
  destruct Hl as [[t x] [E Htx]]. subst l. cbn [fst m_value snd].
  apply numeric_cast; [now apply family_dtype_number|].
  apply in_combine_r in Htx. unfold values in Htx.
  apply numeric_items with (the_column df (prefix ++ Py.str (fst ih))); auto.
  apply H. now apply level_label.
Qed.

(** A melted row of a family: the value of a row of the frame at a level,
    with the time stamp of the row and the height of the level. *)
Lemma In_component (prefix : string) (l : melted * spec_float) :
  In l (flat_map (component df prefix n) (levels alts))
  <-> exists i h j t x,
        nth_error alts i = Some h
        /\ nth_error (times df) j = Some t
        /\ nth_error (values df (prefix ++ Py.str (S i))) j = Some x
        /\ l = (mkMelted t (prefix ++ Py.str (S i))
                         (cast (family_dtype df prefix n) x), h).
Proof.
  rewrite in_flat_map. split.
  - intros [[k h] [Hk Hl]]. apply In_levels in Hk.
    destruct Hk as [i [E Hi]]. subst k.
    unfold component in Hl. apply in_map_iff in Hl.
    destruct Hl as [[t x] [E Htx]]. cbn [fst snd] in E.
    apply In_combine_nth in Htx. destruct Htx as [j [Ht Hx]].
    exists i, h, j, t, x. auto.
  - intros [i [h [j [t [x [Hi [Ht [Hx E]]]]]]]].
    exists (S i, h). split; [apply In_levels; now exists i|].
    unfold component. apply in_map_iff. exists (t, x). split; [now subst l|].
    apply In_combine_nth. now exists j.
Qed.

(** On a frame that has [date_time] and the columns of all the levels,
    with numbers in them, the result has one row for each pair of the
    merged frame. *)
Lemma reshape_numeric :
  present df (components n) ->
  numbers df (components n) ->
  reshape arctan2 df alts
  = inr (map (fun p => observed arctan2 (m_time (fst (fst p))) (snd (fst p))
                                (um_of p) (vm_of p))
             (pd_merge um_rows vm_rows)).
Proof.
  intros [Ht Hp] Hn. unfold reshape.
  assert (Pu : present df (vars "um" n)).
  { split; [exact Ht|]. intros v Hv. apply Hp. apply in_or_app. now left. }
  assert (Pv : present df (vars "vm" n)).
  { split; [exact Ht|]. intros v Hv. apply Hp. apply in_or_app. now right. }
  assert (Nu : numbers df (vars "um" n)).
  { intros v Hv. apply Hn. apply in_or_app. now left. }
  assert (Nv : numbers df (vars "vm" n)).
  { intros v Hv. apply Hn. apply in_or_app. now right. }
  rewrite (melt_present df _ Pu), (melt_present df _ Pv).
  cbn [bind value_dtype m_rows].
  fold (family_dtype df "um" n). fold (family_dtype df "vm" n).
  rewrite !with_heights.
  rewrite speeds_numeric.
  - cbn [bind]. unfold ret. f_equal.
    apply (map_over_combine (observe arctan2)
             (fun ab => speed (fst ab) (snd ab)) um_of vm_of).
  - now apply family_dtype_number.
  - now apply family_dtype_number.
  - intros x Hx. apply in_map_iff in Hx. destruct Hx as [[l r] [E Hin]].
    subst x. apply pd_merge_In in Hin. unfold um_of. cbn [fst].
    now apply (component_numeric "um").
  - intros x Hx. apply in_map_iff in Hx. destruct Hx as [[l r] [E Hin]].
    subst x. apply pd_merge_In in Hin. unfold vm_of. cbn [fst snd].
    apply (component_numeric "vm"); tauto.
Qed.


End Table.


Lemma in_components_um (n : nat) (v : string) :
  In v (vars "um" n) -> In v (components n).
Proof. intros H. apply in_or_app. now left. Qed.

Lemma in_components_vm (n : nat) (v : string) :
  In v (vars "vm" n) -> In v (components n).
Proof. intros H. apply in_or_app. now right. Qed.







(** X16.  The reshaping raises [KeyError] for a frame that lacks
    [date_time] or one of the columns [um<i>] and [vm<i>], [i] from 1 to
    the number of altitudes; for a frame that has them all, with numbers
    in the columns of the components, it returns a table. *)
Theorem X16_reshape_needs_all_columns
  (arctan2 : spec_float -> spec_float -> spec_float)
  (df : frame) (alts : list spec_float) :
  (present df (components (length alts)) ->
   numbers df (components (length alts)) ->
   exists out, reshape arctan2 df alts = inr out)
  /\ (dict_get "date_time" df = None
      \/ (exists v, In v (components (length alts)) /\ dict_get v df = None) ->
      reshape arctan2 df alts = inl KeyError).
Proof.
  split.
  - intros Hp Hn. rewrite (reshape_numeric arctan2 df alts Hp Hn). eauto.
  - intros H. unfold reshape.
    destruct (melt df (vars "um" (length alts))) as [e | um] eqn:U.
    + now rewrite (melt_error _ _ _ U).
    + cbn [bind].
      rewrite (melt_absent df (vars "vm" (length alts))); [reflexivity|].
      destruct H as [H | [v [Hv Hd]]]; [now left|].
      apply in_app_or in Hv. destruct Hv as [Hv | Hv].
      * rewrite melt_absent in U; [discriminate U|]. right. now exists v.
      * right. now exists v.
Qed.

Lemma X16_reshape_needs_all_columns_witness :
  reshape axes_arctan2
    [("date_time", Datetime64 [1]%Z); ("um1", Float64 [f64 1])] [f64 40]
  = inl KeyError
  /\ exists out, reshape axes_arctan2 frame_one_level [f64 40] = inr out.
Proof.
  split.
  - apply (X16_reshape_needs_all_columns axes_arctan2
             [("date_time", Datetime64 [1]%Z); ("um1", Float64 [f64 1])]
             [f64 40]).
    right. exists "vm1". split; [simpl; tauto | reflexivity].
  - apply (X16_reshape_needs_all_columns axes_arctan2 frame_one_level
             [f64 40]).
    + split; [discriminate|].
      intros v [V | [V | []]]; subst v; discriminate.
    + intros v [V | [V | []]]; subst v; reflexivity.
Defined.

(** *** The long table *)

Lemma combine_triple_left {A B C : Type} (a : list A) (b : list B)
  (c : list C) :
  length b = length a -> length c = length a ->
  combine a b
  = map (fun t => (fst t, fst (snd t))) (combine a (combine b c)).
Proof.
  revert b c; induction a as [|x a IH]; intros [|y b] [|z c] Lb Lc; simpl;
    try reflexivity; try discriminate.
  f_equal. apply IH; [now inversion Lb | now inversion Lc].
Qed.

Lemma combine_triple_right {A B C : Type} (a : list A) (b : list B)
  (c : list C) :
  length b = length a -> length c = length a ->
  combine a c
  = map (fun t => (fst t, snd (snd t))) (combine a (combine b c)).
Proof.
  revert b c; induction a as [|x a IH]; intros [|y b] [|z c] Lb Lc; simpl;
    try reflexivity; try discriminate.
  f_equal. apply IH; [now inversion Lb | now inversion Lc].
Qed.

Lemma nth_error_combine {A B : Type} (a : list A) (b : list B) (k : nat)
  (x : A) (y : B) :
  nth_error (combine a b) k = Some (x, y) ->
  nth_error a k = Some x /\ nth_error b k = Some y.
Proof.
  revert b k; induction a as [|x0 a IH]; intros [|y0 b] [|k]; simpl;
    try discriminate.
  - intros E. inversion E. auto.
  - apply IH.
Qed.

(** The one element of a list that passes a test which fails at every
    other position. *)
Lemma filter_at_index {A : Type} (p : A -> bool) (l : list A) (k : nat)
  (a : A) :
  nth_error l k = Some a -> p a = true ->
  (forall k' b, k' <> k -> nth_error l k' = Some b -> p b = false) ->
  filter p l = [a].
Proof.
  revert k; induction l as [|x l IH]; intros [|k] Ha Hp Ho;
    try discriminate Ha; simpl in *.
  - inversion Ha; subst x. rewrite Hp. f_equal.
    apply filter_all_false. intros b Hb.
    apply In_nth_error in Hb. destruct Hb as [k' Hk'].
    apply (Ho (S k')); [discriminate | exact Hk'].
  - rewrite (Ho 0 x); [|discriminate | reflexivity].
    apply (IH k Ha Hp). intros k' b Hne Hb.
    apply (Ho (S k')); [congruence | exact Hb].
Qed.

Section Levels.

Variable arctan2 : spec_float -> spec_float -> spec_float.
Variable df : frame.
Variable alts : list spec_float.

Local Abbreviation n := (length alts).

Hypothesis all_present : present df (components n).
Hypothesis all_numbers : numbers df (components n).
Hypothesis all_rows : rectangular df (components n).
Hypothesis times_distinct :
  forall j j' t t',
    j <> j' ->
    nth_error (times df) j = Some t -> nth_error (times df) j' = Some t' ->
    scalar_eqb t t' = false.
Hypothesis heights_distinct :
  forall i i' h h',
    i <> i' ->
    nth_error alts i = Some h -> nth_error alts i' = Some h' ->
    float_key_eqb h h' = false.

(** The rows of the frame at a level: time stamp and the two values. *)
Local Abbreviation triples ih :=
  (combine (times df)
           (combine (values df ("um" ++ Py.str (fst ih)))
                    (values df ("vm" ++ Py.str (fst ih))))).

Local Abbreviation um_row ih :=
  (fun txy : scalar * (scalar * scalar) =>
     (mkMelted (fst txy) ("um" ++ Py.str (fst ih))
               (cast (family_dtype df "um" n) (fst (snd txy))),
      snd ih)).

Local Abbreviation vm_row ih :=
  (fun txy : scalar * (scalar * scalar) =>
     (mkMelted (fst txy) ("vm" ++ Py.str (fst ih))
               (cast (family_dtype df "vm" n) (snd (snd txy))),
      snd ih)).

Lemma level_lengths (ih : nat * spec_float) :
  In ih (levels alts) ->
  length (values df ("um" ++ Py.str (fst ih))) = length (times df)
  /\ length (values df ("vm" ++ Py.str (fst ih))) = length (times df).
Proof.
  intros H. split; apply all_rows.
  - apply in_components_um. now apply level_label.
  - apply in_components_vm. now apply level_label.
Qed.

Lemma component_um (ih : nat * spec_float) :
  In ih (levels alts) ->
  component df "um" n ih = map (um_row ih) (triples ih).
Proof.
  intros H. destruct (level_lengths ih H) as [Lu Lv].
  unfold component.
  rewrite (combine_triple_left (times df) _ _ Lu Lv), map_map.
  reflexivity.
Qed.

Lemma component_vm (ih : nat * spec_float) :
  In ih (levels alts) ->
  component df "vm" n ih = map (vm_row ih) (triples ih).
Proof.
  intros H. destruct (level_lengths ih H) as [Lu Lv].
  unfold component.
  rewrite (combine_triple_right (times df) _ _ Lu Lv), map_map.
  reflexivity.
Qed.

Lemma other_level (ih jh : nat * spec_float) :
  In ih (levels alts) -> In jh (levels alts) -> jh <> ih ->
  float_key_eqb (snd ih) (snd jh) = false.
Proof.
  destruct ih as [k h], jh as [k' h']. intros Hi Hj Hne.
  apply In_levels in Hi. apply In_levels in Hj.
  destruct Hi as [i [Ek Hi]], Hj as [i' [Ek' Hj]]. subst k k'. cbn [snd].
  apply (heights_distinct i i'); [|exact Hi | exact Hj].
  intros E. subst i'. apply Hne. congruence.
Qed.

(** The one partner of a value of [um<i>]: the value of [vm<i>] in the
    same row. *)
Lemma partner (ih : nat * spec_float) (k : nat)
  (txy : scalar * (scalar * scalar)) :
  In ih (levels alts) ->
  nth_error (triples ih) k = Some txy ->
  filter (key_eqb (um_row ih txy))
         (flat_map (component df "vm" n) (levels alts))
  = [vm_row ih txy].
Proof.
  intros Hih Hk. rewrite filter_of_flat_map.
  rewrite (flat_map_only_one _ (levels alts) ih (levels_NoDup alts) Hih).
  - rewrite (component_vm ih Hih), filter_of_map.
    rewrite (filter_at_index _ (triples ih) k txy Hk); [reflexivity | |].
    + unfold key_eqb. cbn.
      now rewrite scalar_eqb_refl, float_key_eqb_refl.
    + intros k' [t' xy'] Hne Hk'. unfold key_eqb. cbn.
      destruct txy as [t xy].
      apply nth_error_combine in Hk. apply nth_error_combine in Hk'.
      cbn [fst].
      rewrite (times_distinct k k' t t'); [reflexivity | congruence | |];
        tauto.
  - intros jh Hjh Hne. apply filter_all_false.
    intros r Hr. unfold component in Hr. apply in_map_iff in Hr.
    destruct Hr as [tx [E _]]. subst r. unfold key_eqb. cbn.
    rewrite (other_level ih jh Hih Hjh Hne). apply andb_false_r.
Qed.

Lemma long_table_length :
  length (long_table arctan2 df alts) = length alts * length (times df).
Proof.
  unfold long_table.
  assert (L : length (levels alts) = length alts).
  { unfold levels. rewrite length_combine, length_seq. apply Nat.min_id. }
  assert (G : forall l, (forall ih, In ih l -> In ih (levels alts)) ->
            length (flat_map (level_rows arctan2 df n) l)
            = length l * length (times df)).
  { induction l as [|ih l IH]; intros Hl; [reflexivity|].
    simpl. rewrite length_app, IH by (intros jh Hj; apply Hl; now right).
    f_equal. unfold level_rows. rewrite length_map, !length_combine.
    destruct (level_lengths ih (Hl ih (or_introl eq_refl))) as [Lu Lv].
    rewrite Lu, Lv. now rewrite !Nat.min_id. }
  rewrite (G (levels alts)) by auto. now rewrite L.
Qed.

(** X17.  For a frame that has [date_time] and the columns [um1], [vm1],
    ... of all the levels, with numbers in them and a value in every
    row, pairwise distinct time stamps and pairwise distinct altitudes,
    the result is the long table: level after level in the order of the
    altitudes, and within a level one row for each row of the frame, in
    order, with the height of the level and the speed and direction of
    its two components.  It has as many rows as there are levels times
    rows. *)
Theorem X17_long_table :
  reshape arctan2 df alts = inr (long_table arctan2 df alts)
  /\ length (long_table arctan2 df alts) = length alts * length (times df).
Proof.
  split; [|apply long_table_length].
  rewrite (reshape_numeric arctan2 df alts all_present all_numbers).
  f_equal. unfold pd_merge, long_table.
  rewrite flat_map_of_flat_map, map_of_flat_map.
  apply flat_map_ext_mem. intros ih Hih.
  rewrite (component_um ih Hih), flat_map_of_map, map_of_flat_map.
  unfold level_rows. rewrite <- flat_map_singletons.
  apply flat_map_ext_mem. intros txy Htxy.
  apply In_nth_error in Htxy. destruct Htxy as [k Hk].
  rewrite (partner ih k txy Hih Hk). reflexivity.
Qed.

End Levels.

(** The frame of five time stamps and two levels. *)
Lemma X17_long_table_witness :
  reshape axes_arctan2 frame_five_rows [f64 40; f64 80]
  = inr (long_table axes_arctan2 frame_five_rows [f64 40; f64 80])
  /\ length (long_table axes_arctan2 frame_five_rows [f64 40; f64 80])
     = 2 * 5.
Proof.
  apply (X17_long_table axes_arctan2 frame_five_rows [f64 40; f64 80]).
  - split; [discriminate|].
    intros v [V | [V | [V | [V | []]]]]; subst v; discriminate.
  - intros v [V | [V | [V | [V | []]]]]; subst v; reflexivity.
  - intros v [V | [V | [V | [V | []]]]]; subst v; reflexivity.
  - intros [|[|[|[|[|j]]]]] [|[|[|[|[|j']]]]] t t' Hne Ht Ht';
      try congruence;
      unfold times, values, the_column, frame_five_rows in Ht, Ht';
      simpl in Ht, Ht'; try rewrite nth_error_nil in Ht;
      try rewrite nth_error_nil in Ht';
      try discriminate Ht; try discriminate Ht';
      inversion Ht; inversion Ht'; reflexivity.
  - intros [|[|i]] [|[|i']] h h' Hne Hh Hh';
      try congruence; simpl in Hh, Hh'; try rewrite nth_error_nil in Hh;
      try rewrite nth_error_nil in Hh';
      try discriminate Hh; try discriminate Hh';
      inversion Hh; inversion Hh'; reflexivity.
Defined.

(** *** Columns that hold no numbers *)

Lemma common_dtype_object (ds : list dtype) :
  In object ds -> common_dtype ds = object.
Proof.
  intros H. unfold common_dtype.
  assert (A : forall p, p object = false -> forallb p ds = false).
  { intros p Hp. destruct (forallb p ds) eqn:F; [|reflexivity].
    rewrite forallb_forall in F. rewrite (F object H) in Hp. discriminate. }
  now rewrite !A.
Qed.

Lemma square_length (d : dtype) (xs ys : list scalar) :
  square d xs = inr ys -> length ys = length xs.
Proof.
  unfold square. destruct d; try discriminate; apply mapM_inr_length.
Qed.

(** With an object column among the two and a row in the merged frame,
    the speed is never computed. *)
Lemma speeds_object (du dv : dtype) (um vm : list scalar) :
  du = object \/ dv = object -> um <> [] ->
  exists e, speeds du dv um vm = inl e.
Proof.
  intros Hd Hne. unfold speeds.
  destruct (square du um) as [e | a] eqn:A; [now exists e|].
  cbn [bind].
  destruct (square dv vm) as [e | b] eqn:B; [now exists e|].
  cbn [bind]. apply square_length in A.
  destruct a as [|x a]; [destruct um; [congruence | discriminate A]|].
  exists TypeError.
  destruct Hd as [-> | ->]; [reflexivity | now destruct du].
Qed.

(** X26.  When a column of one of the components holds no numbers but
    text (its dtype is [object]) and the frame has a level and a row, the
    reshaping raises: the arithmetic on the merged frame never yields a
    speed from text. *)
Theorem X26_text_component_refused
  (arctan2 : spec_float -> spec_float -> spec_float)
  (df : frame) (alts : list spec_float) :
  present df (components (length alts)) ->
  rectangular df (components (length alts)) ->
  (exists v, In v (components (length alts)) /\ dtype_at df v = object) ->
  times df <> [] -> alts <> [] ->
  exists e, reshape arctan2 df alts = inl e.
Proof.
  intros [Ht Hp] Hr [v [Hv Ho]] Hrows Hlev. unfold reshape.
  assert (Pu : present df (vars "um" (length alts))).
  { split; [exact Ht|]. intros w Hw. apply Hp. now apply in_components_um. }
  assert (Pv : present df (vars "vm" (length alts))).
  { split; [exact Ht|]. intros w Hw. apply Hp. now apply in_components_vm. }
  rewrite (melt_present df _ Pu), (melt_present df _ Pv).
  cbn [bind value_dtype m_rows].
  fold (family_dtype df "um" (length alts)).
  fold (family_dtype df "vm" (length alts)).
  rewrite !with_heights.
  destruct (speeds_object
              (family_dtype df "um" (length alts))
              (family_dtype df "vm" (length alts))
              (map um_of
                 (pd_merge
                    (flat_map (component df "um" (length alts)) (levels alts))
                    (flat_map (component df "vm" (length alts)) (levels alts))))
              (map vm_of
                 (pd_merge
                    (flat_map (component df "um" (length alts)) (levels alts))
                    (flat_map (component df "vm" (length alts)) (levels alts)))))
    as [e E].
  - apply in_app_or in Hv. destruct Hv as [Hv | Hv]; [left | right];
      apply common_dtype_object; rewrite <- Ho; now apply in_map.
  - (* the first row of the first level has its partner *)
    destruct alts as [|h alts']; [congruence|].
    destruct (times df) as [|t ts] eqn:T; [congruence|].
    assert (Lu : length (values df ("um" ++ Py.str 1)) = length (times df)).
    { apply Hr. apply in_components_um.
      apply (level_label "um" (h :: alts') (1, h)). apply In_levels.
      now exists 0. }
    assert (Lv : length (values df ("vm" ++ Py.str 1)) = length (times df)).
    { apply Hr. apply in_components_vm.
      apply (level_label "vm" (h :: alts') (1, h)). apply In_levels.
      now exists 0. }
    rewrite T in Lu, Lv.
    destruct (values df ("um" ++ Py.str 1)) as [|x xs] eqn:Vu;
      [discriminate Lu|].
    destruct (values df ("vm" ++ Py.str 1)) as [|y ys] eqn:Vv;
      [discriminate Lv|].
    intros Hnil. apply map_eq_nil in Hnil.
    assert (Hin :
      In ((mkMelted t ("um" ++ Py.str 1)
             (cast (family_dtype df "um" (length (h :: alts'))) x), h),
          (mkMelted t ("vm" ++ Py.str 1)
             (cast (family_dtype df "vm" (length (h :: alts'))) y), h))
         (pd_merge
            (flat_map (component df "um" (length (h :: alts')))
                      (levels (h :: alts')))
            (flat_map (component df "vm" (length (h :: alts')))
                      (levels (h :: alts'))))).
    { apply pd_merge_In. split; [|split].
      - apply In_component. exists 0, h, 0, t, x.
        rewrite T, Vu. auto.
      - apply In_component. exists 0, h, 0, t, y.
        rewrite T, Vv. auto.
      - unfold key_eqb. cbn.
        now rewrite scalar_eqb_refl, float_key_eqb_refl. }
    rewrite Hnil in Hin. destruct Hin.
  - exists e. now rewrite E.
Qed.

Lemma X26_text_component_refused_witness :
  exists e,
    reshape axes_arctan2
      [("date_time", Datetime64 [1]%Z);
       ("um1", Object [PyStr "n/a"]);
       ("vm1", Float64 [f64 0])]
      [f64 40]
    = inl e.
Proof.
  apply (X26_text_component_refused axes_arctan2).
  - split; [discriminate|].
    intros v [V | [V | []]]; subst v; discriminate.
  - intros v [V | [V | []]]; subst v; reflexivity.
  - exists "um1". split; [simpl; tauto | reflexivity].
  - discriminate.
  - discriminate.
Defined.

(** *** A header that is cut short *)

Lemma short_header (firstline : string) (rest : stream) (Nheader : Z)
  (default_columns : list string) (default_altitudes : list spec_float) :
  Py.contains "=" firstline = true ->
  Py.int (last (Py.split_on "=" firstline) EmptyString) = Some Nheader ->
  length rest < Z.to_nat Nheader ->
  windcube_header (firstline :: rest) default_columns default_altitudes
  = match read_params (length rest) rest [] with
    | inl e => inl e
    | inr (si, _) =>
        match dict_get "Altitudes(m)" si with
        | None => inl KeyError
        | Some (PStr s) =>
            bind (mapM float_or_raise (Py.split_on tab (Py.strip s)))
                 (fun alts => ret (mkHead si ["date"; "time"] alts []))
        | Some _ => inl AttributeError
        end
    end.
Proof.
  intros Heq Hint Hlt. unfold windcube_header. simpl readline. cbv iota beta.
  rewrite Heq, Hint. rewrite read_params_short by lia.
  destruct (read_params (length rest) rest []) as [e | [si f2]]; reflexivity.
Qed.

(** C7, as amended.  When the first line declares more metadata lines
    than the stream holds, the loop still runs the declared number of
    times; the reads past the end give the empty line, which adds nothing
    to [scan_info], and so does the read of the line of column names: the
    header is not checked and is resolved from the metadata lines that
    are there, with the columns [date] and [time] only.  The call fails
    all the same, later: with [KeyError] when no line gave
    [Altitudes(m)], with [AttributeError] or [ValueError] when its value
    is no list of numbers, with the exception of [pd.read_table] if it
    raises on the file that is read to its end, and otherwise with the
    [KeyError] of [pd.melt], the frame of a file with no line left having
    no [date_time]. *)
Theorem C7_short_header
  (read_table : stream -> list string -> result frame)
  (arctan2 : spec_float -> spec_float -> spec_float)
  (firstline : string) (rest : stream) (Nheader : Z)
  (default_columns : list string) (default_altitudes : list spec_float) :
  Py.contains "=" firstline = true ->
  Py.int (last (Py.split_on "=" firstline) EmptyString) = Some Nheader ->
  length rest < Z.to_nat Nheader ->
  (forall df, read_table [] ["date"; "time"] = inr df ->
              dict_get "date_time" df = None) ->
  windcube_header (firstline :: rest) default_columns default_altitudes
  = match read_params (length rest) rest [] with
    | inl e => inl e
    | inr (si, _) =>
        match dict_get "Altitudes(m)" si with
        | None => inl KeyError
        | Some (PStr s) =>
            bind (mapM float_or_raise (Py.split_on tab (Py.strip s)))
                 (fun alts => ret (mkHead si ["date"; "time"] alts []))
        | Some _ => inl AttributeError
        end
    end
  /\ exists e,
       windcube_v1 read_table arctan2 (firstline :: rest)
         default_columns default_altitudes = inl e
       /\ (e = KeyError \/ e = ValueError \/ e = AttributeError
           \/ read_table [] ["date"; "time"] = inl e).
Proof.
  intros Heq Hint Hlt Heof.
  assert (S := short_header firstline rest Nheader default_columns
                 default_altitudes Heq Hint Hlt).
  split; [exact S|].
  unfold windcube_v1. rewrite S. clear S.
  destruct (read_params_returns (length rest) rest []) as [si [E _]].
  rewrite E.
  destruct (dict_get "Altitudes(m)" si) as [[z | x | s]|].
  - exists AttributeError. split; [reflexivity | tauto].
  - exists AttributeError. split; [reflexivity | tauto].
  - destruct (mapM float_or_raise (Py.split_on tab (Py.strip s)))
      as [e | alts] eqn:M.
    + exists e. split; [reflexivity|].
      rewrite (mapM_float_or_raise_error _ _ M). tauto.
    + cbn [bind ret wc_data wc_columns altitudes scan_info].
      destruct (read_table [] ["date"; "time"]) as [e | df] eqn:T.
      * exists e. split; [reflexivity | tauto].
      * exists KeyError. split; [|tauto]. cbn [bind].
        unfold reshape. rewrite melt_absent; [reflexivity|].
        left. now apply Heof.
  - exists KeyError. split; [reflexivity | tauto].
Qed.

(** Three metadata lines declared, two there. *)
Lemma C7_short_header_witness :
  windcube_header (lines_of ["HeaderSize=3"; altitudes_line; "Gain=2"]) [] []
  = inr (mkHead [("Altitudes(m)", PStr ("40" ++ String tab "80"));
                 ("Gain", PInt 2)]
           ["date"; "time"]
           [Py.float_of_Z 40; Py.float_of_Z 80] [])
  /\ windcube_v1 read_nothing axes_arctan2
       (lines_of ["HeaderSize=3"; altitudes_line; "Gain=2"]) [] []
     = inl KeyError.
Proof.
  unfold lines_of. simpl map.
  destruct (C7_short_header read_nothing axes_arctan2
              ("HeaderSize=3" ++ nl)
              [altitudes_line ++ nl; "Gain=2" ++ nl] 3 [] [])
    as [H [e [E _]]].
  - reflexivity.
  - reflexivity.
  - simpl; lia.
  - intros df T. vm_compute in T. inversion T. reflexivity.
  - split; [exact H|].
    assert (K : e = KeyError).
    { pose proof E as E'. vm_compute in E'. now inversion E'. }
    subst e. exact E.
Defined.

(** C7 as stated fails on a file that declares three metadata lines and
    has one: the header is resolved from the one line, nothing is raised
    by the resolution, and the exception of the call is the [KeyError] of
    [pd.melt] on the empty frame. *)
Lemma C7_partial_header_accepted :
  windcube_header (lines_of ["HeaderSize=3"; altitudes_line]) [] []
  = inr (mkHead [("Altitudes(m)", PStr ("40" ++ String tab "80"))]
           ["date"; "time"]
           [Py.float_of_Z 40; Py.float_of_Z 80] [])
  /\ read_nothing [] ["date"; "time"]
     = inr [("date", Object []); ("time", Object [])]
  /\ melt [("date", Object []); ("time", Object [])] ["um1"; "um2"]
     = inl KeyError
  /\ windcube_v1 read_nothing axes_arctan2
       (lines_of ["HeaderSize=3"; altitudes_line]) [] []
     = inl KeyError.
Proof. repeat split; vm_compute; reflexivity. Qed.


End ReshapeFacts.

(** ** The ARL sodar *)

Lemma lookup_map_row (g : string -> cell -> cell) (c : string)
  (cols : list string) (r : list cell) :
  lookup c cols (map_row g cols r) = option_map (g c) (lookup c cols r).
Proof.
  revert r; induction cols as [|c' cols IH]; intros [|x r]; simpl;
    try reflexivity.
  destruct (String.eqb c c') eqn:E; [|apply IH].
  apply String.eqb_eq in E. now subst c'.
Qed.

Lemma lookup_set_cells_other (c label : string) (v : cell)
  (cols : list string) (r : list cell) :
  c <> label -> lookup c cols (set_cells label v cols r) = lookup c cols r.
Proof.
  intros N. revert r; induction cols as [|c' cols IH]; intros [|x r]; simpl;
    try reflexivity.
  destruct (String.eqb c c') eqn:E; [|apply IH].
  apply String.eqb_eq in E. subst c'.
  apply String.eqb_neq in N. now rewrite N.
Qed.

Lemma lookup_appended_other (c label : string) (v : cell)
  (cols : list string) (r : list cell) :
  c <> label -> length r = length cols ->
  lookup c (cols ++ [label]) (r ++ [v]) = lookup c cols r.
Proof.
  intros N. apply String.eqb_neq in N.
  revert r; induction cols as [|c' cols IH]; intros [|x r] L; simpl;
    try discriminate L.
  - now rewrite N.
  - destruct (String.eqb c c'); [reflexivity|]. apply IH. now inversion L.
Qed.

(** [df[label] = v] leaves the cells under the other labels alone. *)
Lemma assign_other (c label : string) (v : cell) (df : DataFrame) :
  c <> label ->
  (forall r, In r (rows df) -> length r = length (columns df)) ->
  map (fun r => lookup c (columns (assign label v df)) r)
      (rows (assign label v df))
  = map (fun r => lookup c (columns df) r) (rows df).
Proof.
  intros N W. unfold assign. destruct (Py.mem label (columns df));
    cbn [rows columns]; rewrite map_map; apply map_ext_in; intros r Hr.
  - now apply lookup_set_cells_other.
  - apply lookup_appended_other; [exact N | now apply W].
Qed.

Lemma mask_column_lookup (col : string) (val : spec_float) (c : string)
  (df : DataFrame) :
  map (fun r => lookup c (columns (mask_column col val df)) r)
      (rows (mask_column col val df))
  = map (fun r => option_map (mask1 col val c) (lookup c (columns df) r))
        (rows df).
Proof.
  unfold mask_column. cbn [rows columns]. rewrite map_map.
  apply map_ext. intros r. rewrite mask_cells_map_row. apply lookup_map_row.
Qed.

Lemma mask_column_rectangular (col : string) (val : spec_float)
  (df : DataFrame) :
  (forall r, In r (rows df) -> length r = length (columns df)) ->
  forall r, In r (rows (mask_column col val df)) ->
            length r = length (columns (mask_column col val df)).
Proof.
  intros W r Hr. unfold mask_column in *. cbn [rows columns] in *.
  apply in_map_iff in Hr. destruct Hr as [r0 [E H0]]. subst r.
  rewrite mask_cells_map_row, map_row_length. now apply W.
Qed.

Lemma all_equal_length (values : list cell) (gates : list spec_float) :
  all_equal values gates = true -> length values = length gates.
Proof.
  revert gates; induction values as [|x values IH]; intros [|g gates] H;
    simpl in *; try discriminate; [reflexivity|].
  apply andb_true_iff in H. f_equal. now apply IH.
Qed.

(** The cell of a row under a label, [None] when there is none. *)
Lemma column_values (label : string) (df : DataFrame) (vs : list cell) :
  column label df = inr vs ->
  vs = map (fun r => match lookup label (columns df) r with
                     | Some x => x
                     | None => CNone
                     end) (rows df).
Proof.
  unfold column. destruct (Py.mem label (columns df)); [|discriminate].
  intros E. now inversion E.
Qed.

Lemma read_fixed_rows_rest tokenize n f :
  length (snd (read_fixed_rows tokenize n f)) <= length f.
Proof.
  revert f; induction n as [|n IH]; intros f; simpl; [lia|].
  destruct f as [|line f]; simpl.
  - specialize (IH []). destruct (read_fixed_rows tokenize n []). simpl in *. lia.
  - specialize (IH f). destruct (read_fixed_rows tokenize n f). simpl in *. lia.
Qed.

Lemma value_under_cells (label : string) (d : DataFrame) :
  map (value_under label (columns d)) (rows d)
  = map or_none (cells_under label d).
Proof. unfold cells_under. rewrite map_map. reflexivity. Qed.

Lemma cells_under_mask_same (col : string) (val : spec_float) (d : DataFrame) :
  cells_under col (mask_column col val d)
  = map (option_map (mask1 col val col)) (cells_under col d).
Proof.
  unfold cells_under. rewrite mask_column_lookup. now rewrite map_map.
Qed.

Lemma cells_under_mask_other (c col : string) (val : spec_float)
  (d : DataFrame) :
  String.eqb c col = false ->
  cells_under c (mask_column col val d) = cells_under c d.
Proof.
  intros E. unfold cells_under. rewrite mask_column_lookup.
  apply map_ext. intros r. destruct (lookup c (columns d) r); [|reflexivity].
  simpl. unfold mask1. now rewrite E.
Qed.

Lemma cells_under_assign_other (c label : string) (v : cell) (d : DataFrame) :
  c <> label ->
  (forall r, In r (rows d) -> length r = length (columns d)) ->
  cells_under c (assign label v d) = cells_under c d.
Proof. intros N W. unfold cells_under. now apply assign_other. Qed.

Lemma cleared_cells (col : string) (val : spec_float) (d : DataFrame)
  (x : cell) :
  In (Some x) (cells_under col (mask_column col val d)) ->
  cell_eq x val = false.
Proof.
  rewrite cells_under_mask_same. intros H. apply in_map_iff in H.
  destruct H as [o [E _]]. destruct o as [y|]; [|discriminate E].
  simpl in E. inversion E. apply clears_mask1.
Qed.

Section ARLFacts.

Variable to_datetime : string -> option Z.
Variable header : list string.
Variable range_gates : list spec_float.
Variable bad_speed_value bad_direction_value : spec_float.

Local Abbreviation block :=
  (ARL_block to_datetime header range_gates
     bad_speed_value bad_direction_value).
Local Abbreviation blocks :=
  (ARL_blocks to_datetime header range_gates
     bad_speed_value bad_direction_value).
Local Abbreviation labels := (ARL_labels header).
Local Abbreviation sound :=
  (ARL_sound header range_gates bad_speed_value bad_direction_value).

Lemma ARL_block_sound (firstline : string) (f f' : stream) (d : DataFrame) :
  block firstline f = inr (d, f') -> sound d /\ length f' <= length f.
Proof.
  unfold ARL_block.
  destruct (ARL_date_time to_datetime firstline) as [e | t]; [discriminate|].
  cbn [bind].
  destruct (ARL_read_block header (length range_gates) (snd (readline f)))
    as [e | [df f0]] eqn:B; [discriminate|].
  cbn [bind fst snd].
  destruct (column "height_m" df) as [e | hs] eqn:H; [discriminate|].
  cbn [bind].
  destruct (all_equal hs range_gates) eqn:A; [|discriminate]. cbn [negb].
  set (df1 := assign "date_time" (CTime t) df).
  unfold loc_mask at 1.
  destruct (single (columns df1) "windspeed_ms"); [|discriminate].
  cbn [bind ret].
  set (df2 := mask_column "windspeed_ms" bad_speed_value df1).
  unfold loc_mask.
  destruct (single (columns df2) "winddirection_deg"); [|discriminate].
  cbn [bind ret]. intros E. inversion E; subst d f'. clear E.
  set (df3 := mask_column "winddirection_deg" bad_direction_value df2).
  (* the frame as read *)
  unfold ARL_read_block in B.
  pose proof (read_fixed_rows_rest
                (fun l => Py.split_on "," (Py.strip l)) (length range_gates)
                (snd (readline f))) as Lrest.
  destruct (read_fixed_rows _ (length range_gates) (snd (readline f)))
    as [rows0 frest].
  destruct (float_frame_of_rows rows0 header) as [e | df0] eqn:F;
    [discriminate|].
  cbn [bind ret] in B. inversion B; subst df0 f0. clear B.
  destruct (float_frame_of_rows_shape _ _ _ F) as [Hc [_ Hr]].
  assert (W0 : forall r, In r (rows df) -> length r = length (columns df)).
  { intros r Hin. rewrite Hc. now apply Hr. }
  destruct (assign_shape "date_time" (CTime t) df W0) as [W1 _].
  assert (R1 : forall r, In r (rows df1) -> length r = length (columns df1)).
  { intros r Hin. now apply W1. }
  assert (R2 := mask_column_rectangular "windspeed_ms" bad_speed_value df1 R1).
  fold df2 in R2.
  assert (R3 := mask_column_rectangular "winddirection_deg"
                  bad_direction_value df2 R2).
  fold df3 in R3.
  split.
  2:{ simpl in Lrest. destruct f as [|l f]; simpl in *; lia. }
  unfold ARL_sound. split; [|split; [exact R3 | split; [|split]]].
  - unfold ARL_labels, df3, df2, df1, assign. cbn [columns mask_column].
    rewrite Hc. destruct (Py.mem "date_time" header); reflexivity.
  - rewrite (column_values _ _ _ H) in A.
    change (all_equal (map (value_under "height_m" (columns df)) (rows df))
                      range_gates = true) in A.
    rewrite value_under_cells in A. rewrite value_under_cells.
    unfold df3, df2.
    rewrite !cells_under_mask_other by reflexivity.
    unfold df1. rewrite cells_under_assign_other; [exact A | discriminate | exact W0].
  - intros x Hx. unfold df3 in Hx.
    rewrite cells_under_mask_other in Hx by reflexivity.
    exact (cleared_cells "windspeed_ms" bad_speed_value df1 x Hx).
  - intros x Hx.
    exact (cleared_cells "winddirection_deg" bad_direction_value df2 x Hx).
Qed.

Lemma ARL_blocks_sound (fuel : nat) (firstline : string) (f : stream)
  (dfs : list DataFrame) :
  blocks fuel firstline f = inr dfs -> forall d, In d dfs -> sound d.
Proof.
  revert firstline f dfs; induction fuel as [|fuel IH];
    intros firstline f dfs; simpl.
  - intros E; inversion E. intros d [].
  - destruct (String.eqb firstline ""); [intros E; inversion E; intros d []|].
    destruct (block firstline f) as [e | [d0 f']] eqn:B;
      [discriminate|].
    destruct (readline f') as [next f''].
    destruct (blocks fuel next f'') as [e | dfs'] eqn:R;
      [discriminate|].
    cbn [bind ret]. intros E; inversion E; subst dfs. intros d [Hd | Hd].
    + subst d0. now apply (ARL_block_sound _ _ _ _ B).
    + now apply (IH _ _ _ R).
Qed.

(** The loop uses no more rounds than there are lines. *)
Lemma ARL_blocks_rounds (fuel extra : nat) (firstline : string) (f : stream) :
  length f < fuel ->
  blocks (fuel + extra) firstline f = blocks fuel firstline f.
Proof.
  revert firstline f; induction fuel as [|fuel IH]; intros firstline f L;
    [lia|].
  simpl. destruct (String.eqb firstline ""); [reflexivity|].
  destruct (block firstline f) as [e | [d0 f']] eqn:B;
    [reflexivity|].
  destruct (ARL_block_sound _ _ _ _ B) as [_ L'].
  destruct f' as [|next f'']; simpl.
  - destruct fuel, extra; reflexivity.
  - rewrite IH; [reflexivity | simpl in L'; lia].
Qed.

(** Frames on the same labels are stacked. *)
Lemma pd_concat_same_labels (dfs : list DataFrame) (cols : list string)
  (df : DataFrame) :
  (forall d, In d dfs -> columns d = cols) ->
  pd_concat dfs = inr df ->
  dfs <> [] /\ columns df = cols /\ rows df = flat_map rows dfs.
Proof.
  intros Hc. destruct dfs as [|d0 dfs]; [discriminate|]. unfold pd_concat.
  replace (forallb _ (d0 :: dfs)) with true.
  - intros E; inversion E; subst df. cbn [rows columns].
    split; [discriminate|]. split; [apply Hc; now left | reflexivity].
  - symmetry. apply forallb_forall. intros d Hd. unfold list_string_eqb.
    rewrite (Hc d Hd), (Hc d0 (or_introl eq_refl)).
    now destruct (list_eq_dec string_dec cols cols).
Qed.

(** X18.  A table returned for a sodar file is made of whole blocks, one
    at least: each has as many rows as there are range gates, with the
    heights of the range gates in their order, and every row has a cell
    under each label. *)
Theorem X18_sodar_table_of_whole_blocks (f : stream) (df : DataFrame) :
  ARL_wind_profiler to_datetime header range_gates
    bad_speed_value bad_direction_value f = inr df ->
  (forall r, In r (rows df) -> length r = length (columns df))
  /\ exists bs : list (list (list cell)),
       bs <> []
       /\ rows df = concat bs
       /\ forall b, In b bs ->
            length b = length range_gates
            /\ all_equal (map (value_under "height_m" (columns df)) b)
                 range_gates = true.
Proof.
  unfold ARL_wind_profiler. destruct (readline f) as [firstline f1].
  destruct (blocks (S (length f)) firstline f1)
    as [e | dfs] eqn:R; [discriminate|].
  cbn [bind]. intros C.
  assert (S := ARL_blocks_sound _ _ _ _ R).
  destruct (pd_concat_same_labels dfs labels df) as [Hne [Hc Hr]];
    [intros d Hd; apply (S d Hd) | exact C |].
  split.
  - intros r Hin. rewrite Hr in Hin. apply in_flat_map in Hin.
    destruct Hin as [d [Hd Hin]]. destruct (S d Hd) as [Ec [W _]].
    rewrite Hc, <- Ec. now apply W.
  - exists (map rows dfs). split; [|split].
    + destruct dfs; [contradiction | discriminate].
    + rewrite Hr. apply flat_map_concat_map.
    + intros b Hb. apply in_map_iff in Hb. destruct Hb as [d [E Hd]]. subst b.
      destruct (S d Hd) as [Ec [_ [A _]]]. rewrite Hc, <- Ec.
      split; [|exact A].
      apply all_equal_length in A. now rewrite length_map in A.
Qed.

(** X19.  In a table returned for a sodar file no wind speed equals the
    bad speed value and no wind direction equals the bad direction
    value. *)
Theorem X19_sodar_bad_values_flagged (f : stream) (df : DataFrame) :
  ARL_wind_profiler to_datetime header range_gates
    bad_speed_value bad_direction_value f = inr df ->
  forall r, In r (rows df) ->
    (forall x, lookup "windspeed_ms" (columns df) r = Some x ->
               cell_eq x bad_speed_value = false)
    /\ (forall x, lookup "winddirection_deg" (columns df) r = Some x ->
                  cell_eq x bad_direction_value = false).
Proof.
  unfold ARL_wind_profiler. destruct (readline f) as [firstline f1].
  destruct (blocks (S (length f)) firstline f1)
    as [e | dfs] eqn:R; [discriminate|].
  cbn [bind]. intros C r Hin.
  assert (S := ARL_blocks_sound _ _ _ _ R).
  destruct (pd_concat_same_labels dfs labels df) as [_ [Hc Hr]];
    [intros d Hd; apply (S d Hd) | exact C |].
  rewrite Hr in Hin. apply in_flat_map in Hin. destruct Hin as [d [Hd Hin]].
  destruct (S d Hd) as [Ec [_ [_ [Hs Hdir]]]]. rewrite Hc, <- Ec.
  split; intros x L; [apply Hs | apply Hdir]; unfold cells_under;
    rewrite <- L; now apply in_map.
Qed.

End ARLFacts.

Lemma X18_sodar_table_of_whole_blocks_witness :
  exists df,
    ARL_wind_profiler any_datetime sodar_header sodar_gates
      (float_of "-99.9") (float_of "999") sodar_file = inr df
    /\ exists bs : list (list (list cell)),
         bs <> []
         /\ rows df = concat bs
         /\ forall b, In b bs ->
              length b = length sodar_gates
              /\ all_equal (map (value_under "height_m" (columns df)) b)
                   sodar_gates = true.
Proof.
  destruct (ARL_wind_profiler any_datetime sodar_header sodar_gates
              (float_of "-99.9") (float_of "999") sodar_file)
    as [e | df] eqn:E; [vm_compute in E; discriminate E|].
  exists df. split; [reflexivity|].
  exact (proj2 (X18_sodar_table_of_whole_blocks any_datetime sodar_header
                  sodar_gates (float_of "-99.9") (float_of "999")
                  sodar_file df E)).
Defined.

Lemma X19_sodar_bad_values_flagged_witness :
  exists df,
    ARL_wind_profiler any_datetime sodar_header sodar_gates
      (float_of "-99.9") (float_of "999") sodar_file = inr df
    /\ forall r, In r (rows df) ->
         (forall x, lookup "windspeed_ms" (columns df) r = Some x ->
                    cell_eq x (float_of "-99.9") = false)
         /\ (forall x, lookup "winddirection_deg" (columns df) r = Some x ->
                       cell_eq x (float_of "999") = false).
Proof.
  destruct (ARL_wind_profiler any_datetime sodar_header sodar_gates
              (float_of "-99.9") (float_of "999") sodar_file)
    as [e | df] eqn:E; [vm_compute in E; discriminate E|].
  exists df. split; [reflexivity|].
  exact (X19_sodar_bad_values_flagged any_datetime sodar_header
           sodar_gates (float_of "-99.9") (float_of "999") sodar_file df E).
Defined.


(** ** The Scintec sodar *)

Lemma pad_row_textual (w : nat) (r : list string) (x : cell) :
  In x (pad_row w r) -> textual x.
Proof.
  unfold pad_row. intros H. apply in_app_or in H. destruct H as [H | H].
  - apply in_map_iff in H. destruct H as [s [E _]]. now subst x.
  - apply repeat_spec in H. now subst x.
Qed.

Lemma frame_of_rows_textual (data : list (list string)) (cols : list string)
  (d : DataFrame) :
  frame_of_rows data cols = inr d ->
  columns d = cols
  /\ length (rows d) = length data
  /\ forall r, In r (rows d) -> forall x, In x r -> textual x.
Proof.
  unfold frame_of_rows. destruct data as [|d0 data'] eqn:D.
  - intros E; inversion E. simpl. repeat split. intros r [].
  - rewrite <- D. destruct (width data =? length cols)%nat; [|discriminate].
    intros E; inversion E. cbn [rows columns]. split; [reflexivity|].
    split; [apply length_map|].
    intros r Hr x Hx. apply in_map_iff in Hr. destruct Hr as [r0 [E' _]].
    subst r. now apply (pad_row_textual _ _ _ Hx).
Qed.

Lemma set_cells_In (label : string) (v : cell) (cols : list string)
  (r : list cell) (x : cell) :
  In x (set_cells label v cols r) -> x = v \/ In x r.
Proof.
  revert r; induction cols as [|c cols IH]; intros [|y r]; simpl; auto.
  intros [H | H].
  - destruct (String.eqb c label); auto.
  - destruct (IH _ H); auto.
Qed.

Lemma assign_textual (label : string) (v : cell) (d : DataFrame) :
  textual v ->
  (forall r, In r (rows d) -> forall x, In x r -> textual x) ->
  forall r, In r (rows (assign label v d)) -> forall x, In x r -> textual x.
Proof.
  intros Tv Q r Hr x Hx. unfold assign in Hr.
  destruct (Py.mem label (columns d)); cbn [rows] in Hr;
    apply in_map_iff in Hr; destruct Hr as [r0 [E H0]]; subst r.
  - destruct (set_cells_In _ _ _ _ _ Hx) as [-> | H]; [exact Tv|].
    now apply (Q r0).
  - apply in_app_or in Hx. destruct Hx as [H | [<- | []]]; [|exact Tv].
    now apply (Q r0).
Qed.

Lemma assign_columns (label : string) (v w : cell) (d : DataFrame)
  (rs : list (list cell)) :
  columns (assign label v d) = columns (assign label w (mkFrame (columns d) rs)).
Proof.
  unfold assign. cbn [columns]. now destruct (Py.mem label (columns d)).
Qed.

Lemma to_number_number (x y : cell) :
  to_number x = inr y -> exists v, y = CFloat v.
Proof.
  destruct x as [v | s | | t]; simpl.
  - intros E; inversion E. eauto.
  - destruct (Py.contains "_" s); [discriminate|].
    destruct (Py.float s) as [v|]; [|discriminate].
    destruct (is_nan v || _); [discriminate|].
    destruct (Py.int s) as [z|].
    + destruct (_ || _); [discriminate|]. intros E; inversion E. eauto.
    + intros E; inversion E. eauto.
  - intros E; inversion E. unfold NaN. eauto.
  - discriminate.
Qed.

Lemma row_to_numeric_In (label : string) (cols : list string)
  (r r' : list cell) :
  row_to_numeric label cols r = inr r' ->
  forall c y,
    In (c, y) (combine cols r') ->
    exists x,
      In (c, x) (combine cols r)
      /\ ((c = label /\ to_number x = inr y) \/ (c <> label /\ y = x)).
Proof.
  revert r r'; induction cols as [|c0 cols IH]; intros r r' E c y H.
  - destruct H.
  - destruct r as [|x0 r].
    + simpl in E. inversion E; subst r'. destruct H.
    + simpl in E.
      destruct (String.eqb c0 label) eqn:L.
      * destruct (to_number x0) as [e | y0] eqn:T; [discriminate|].
        destruct (row_to_numeric label cols r) as [e | ys] eqn:R;
          [discriminate|].
        inversion E; subst r'. simpl in H. destruct H as [H | H].
        -- inversion H; subst c y. exists x0. split; [now left|].
           left. apply String.eqb_eq in L. now split.
        -- destruct (IH _ _ R c y H) as [x [Hx P]]. exists x.
           split; [now right | exact P].
      * simpl in E.
        destruct (row_to_numeric label cols r) as [e | ys] eqn:R;
          [discriminate|].
        inversion E; subst r'. simpl in H. destruct H as [H | H].
        -- inversion H; subst c y. exists x0. split; [now left|].
           right. apply String.eqb_neq in L. now split.
        -- destruct (IH _ _ R c y H) as [x [Hx P]]. exists x.
           split; [now right | exact P].
Qed.

Lemma scintec_mask_inert (na_values : list (string * spec_float)) :
  exists g, masking g /\ inert g
    /\ forall df,
         scintec_mask na_values df
         = if forallb (fun cv => single (columns df) (fst cv)) na_values
           then inr (map_frame g df) else inl KeyError.
Proof.
  unfold scintec_mask.
  induction na_values as [|[col val] nav [g [Hm [Hi Hf]]]].
  - exists (fun _ x => x). split; [apply masking_id|]. split; [now intros c x|].
    intros df; simpl. now rewrite map_frame_id.
  - exists (fun c x => g c (mask1 col val c x)). split; [|split].
    + apply masking_compose; [exact Hm | apply masking_mask1].
    + intros c x T. unfold mask1.
      replace (cell_eq x val) with false by (now destruct x).
      rewrite andb_false_r. now apply Hi.
    + intros df; simpl. rewrite loc_mask_map_frame.
      destruct (single (columns df) col) eqn:Hmem; simpl.
      * rewrite Hf. simpl. now rewrite map_frame_compose.
      * clear. induction nav as [|cv nav IH]; simpl; [reflexivity | exact IH].
Qed.

Section ScintecFacts.

Variable to_datetime : string -> option Z.
Variable to_timedelta : string -> option Z.

Lemma read_profiles_textual (fuel : nat) (datetime0 : Z) (cols : list string)
  (Nz : nat) (firstread : bool) (f : stream) (dfs : list DataFrame) :
  read_profiles to_datetime to_timedelta fuel datetime0 cols Nz firstread f
  = inr dfs ->
  forall d, In d dfs ->
    columns d = columns (assign "datetime" CNone (mkFrame cols []))
    /\ forall r, In r (rows d) -> forall x, In x r -> textual x.
Proof.
  revert firstread f dfs; induction fuel as [|fuel IH];
    intros firstread f dfs; simpl.
  - intros E; inversion E. intros d [].
  - destruct (readline f) as [line f1].
    destruct (Py.split line) as [|day [|time [|duration rest]]];
      try (intros E; inversion E; intros d []).
    destruct (pd_to_datetime to_datetime _) as [e | t1]; [discriminate|].
    destruct (pd_to_timedelta to_timedelta duration) as [e | dt];
      [discriminate|].
    destruct (firstread && negb (Z.eqb t1 datetime0)); [discriminate|].
    destruct (scintec_read_block cols Nz f1) as [e | [d0 f2]] eqn:B;
      [discriminate|].
    destruct (read_profiles _ _ fuel datetime0 cols Nz false
                (snd (readline f2))) as [e | dfs'] eqn:R; [discriminate|].
    cbn [bind ret]. intros E; inversion E; subst dfs. intros d [Hd | Hd].
    + subst d. unfold scintec_read_block in B.
      destruct (read_fixed_rows Py.split Nz (snd (readline f1)))
        as [data frest].
      destruct (frame_of_rows data cols) as [e | d1] eqn:F; [discriminate|].
      cbn [bind ret] in B. inversion B; subst d0 f2.
      destruct (frame_of_rows_textual _ _ _ F) as [Hc [_ Q]]. split.
      * rewrite <- Hc. apply assign_columns.
      * now apply assign_textual.
    + now apply (IH _ _ _ R).
Qed.

(** X20.  In a table returned for a Scintec file the cells under [height]
    are numbers and every other cell is what was read as text (or the time
    stamp): not a number.  The sentinels of the file are compared with
    numbers only, so in no column but [height] a value is ever replaced
    by the missing-value marker. *)
Theorem X20_scintec_only_height_is_numeric (f : stream) (df : DataFrame) :
  scintec_profiler to_datetime to_timedelta f = inr df ->
  forall r, In r (rows df) ->
    forall c x, In (c, x) (combine (columns df) r) ->
      (c = "height" -> exists v, x = CFloat v)
      /\ (c <> "height" -> textual x).
Proof.
  unfold scintec_profiler.
  destruct (readline (skip_lines 1 f)) as [dateline f1].
  destruct (pd_to_datetime to_datetime _) as [e | datetime0]; [discriminate|].
  destruct (readline (skip_lines 1 f1)) as [number_of f2].
  destruct (three_counts (Py.split number_of)) as [e | [[Nc Nv] Nz]];
    [discriminate|].
  destruct (readline _) as [main f3].
  destruct (negb (String.eqb (Py.strip main) "Main Data")); [discriminate|].
  destruct (read_variables (Z.to_nat (Nv + 1)) (skip_lines 3 f3) [] [])
    as [[cols na_values] f4].
  destruct (read_profiles _ _ _ datetime0 cols (Z.to_nat Nz) true _)
    as [e | dfs] eqn:R; [discriminate|].
  cbn [bind].
  destruct (pd_concat dfs) as [e | d1] eqn:C; [discriminate|]. cbn [bind].
  destruct (to_numeric_column "height" d1) as [e | d2] eqn:N; [discriminate|].
  cbn [bind]. intros M r Hr c x Hx.
  assert (P := read_profiles_textual _ _ _ _ _ _ _ R).
  destruct (pd_concat_same_labels dfs _ d1 (fun d Hd => proj1 (P d Hd)) C)
    as [_ [_ Hrows]].
  assert (Q1 : forall r1, In r1 (rows d1) -> forall x1, In x1 r1 -> textual x1).
  { intros r1 H1. rewrite Hrows in H1. apply in_flat_map in H1.
    destruct H1 as [d [Hd H1]]. now apply (P d Hd). }
  (* the masking loop *)
  destruct (scintec_mask_inert na_values) as [g [Hm [Hi Hf]]].
  rewrite Hf in M. destruct (forallb _ na_values); [|discriminate].
  inversion M; subst df. clear M. unfold map_frame in Hr, Hx.
  cbn [rows columns] in Hr, Hx.
  apply in_map_iff in Hr. destruct Hr as [r2 [E Hr2]]. subst r.
  destruct (map_row_In _ _ _ _ _ Hx) as [x2 [Hx2 Ex]].
  (* the conversion of [height] *)
  unfold to_numeric_column in N.
  destruct (Py.mem "height" (columns d1)); [|discriminate].
  destruct (single (columns d1) "height"); [|discriminate].
  destruct (mapM (row_to_numeric "height" (columns d1)) (rows d1))
    as [e | rs] eqn:MM; [discriminate|].
  cbn [bind ret] in N. inversion N; subst d2. clear N.
  cbn [rows columns] in Hr2, Hx2.
  destruct (mapM_inr_In _ _ _ _ MM Hr2) as [r1 [Hr1 Er]].
  destruct (row_to_numeric_In _ _ _ _ Er c x2 Hx2)
    as [x1 [Hx1 [[Ec T] | [Nc' Ey]]]].
  - split; [|intros Hn; contradiction].
    intros _. destruct (to_number_number _ _ T) as [v Ev]. subst x2.
    destruct (Hm c (CFloat v)) as [[E | E] _]; rewrite Ex, E; unfold NaN; eauto.
  - split; [intros Hc; contradiction|]. intros _. subst x2.
    assert (T : textual x1).
    { apply (Q1 r1 Hr1). now apply in_combine_r in Hx1. }
    rewrite Ex, (Hi c x1 T). exact T.
Qed.

End ScintecFacts.

Lemma X20_scintec_only_height_is_numeric_witness :
  exists df,
    scintec_profiler any_datetime any_datetime scintec_file = inr df
    /\ forall r, In r (rows df) ->
         forall c x, In (c, x) (combine (columns df) r) ->
           (c = "height" -> exists v, x = CFloat v)
           /\ (c <> "height" -> textual x).
Proof.
  destruct (scintec_profiler any_datetime any_datetime scintec_file)
    as [e | df] eqn:E; [vm_compute in E; discriminate E|].
  exists df. split; [reflexivity|].
  exact (X20_scintec_only_height_is_numeric any_datetime any_datetime
           scintec_file df E).
Defined.

(** C5.  [scintec_profiler] on a file that declares the sentinels 99.99
    for the wind speed and 999.9 for the wind direction and has both
    values at its second level: the two cells are text, the masking loop
    compares them with numbers, and they are still there in the table
    that is returned.  Only [height] has been made a column of numbers. *)
Theorem C5_text_sentinel_kept :
  snd (fst (read_variables 3 (skipn 15 scintec_file) [] []))
  = [("height", float_of "99999"); ("wind speed", float_of "99.99");
     ("wind direction", float_of "999.9")]
  /\ scintec_profiler any_datetime any_datetime scintec_file
     = inr (mkFrame ["height"; "wind speed"; "wind direction"; "datetime"]
              [[num "30"; CStr "5.5"; CStr "180"; CTime 0];
               [num "40"; CStr "99.99"; CStr "999.9"; CTime 0];
               [num "30"; CStr "6.5"; CStr "190"; CTime 0];
               [num "40"; CStr "7.5"; CStr "200"; CTime 0]]).
Proof. split; vm_compute; reflexivity. Qed.

(** ** The records of the microwave radiometer *)

Lemma zdict_get_set_same {V : Type} (k : Z) (v : V) (d : list (Z * V)) :
  zdict_get k (zdict_set k v d) = Some v.
Proof.
  induction d as [|[k' v'] d IH]; simpl.
  - now rewrite Z.eqb_refl.
  - destruct (Z.eqb k k') eqn:E; simpl; rewrite ?Z.eqb_refl, ?E;
      [reflexivity | exact IH].
Qed.

Lemma zdict_get_set_other {V : Type} (k k' : Z) (v : V) (d : list (Z * V)) :
  k <> k' -> zdict_get k (zdict_set k' v d) = zdict_get k d.
Proof.
  intros N. apply Z.eqb_neq in N.
  induction d as [|[k0 v0] d IH]; simpl.
  - now rewrite N.
  - destruct (Z.eqb k' k0) eqn:E; simpl.
    + apply Z.eqb_eq in E. subst k0. now rewrite N.
    + destruct (Z.eqb k k0); [reflexivity | exact IH].
Qed.

Lemma entries_append_same (rec : Z) (ls : list string)
  (data : list (Z * list (list string))) :
  entries rec (data_append rec ls data) = (entries rec data ++ [ls])%list.
Proof.
  unfold entries, data_append.
  destruct (zdict_get rec data); now rewrite zdict_get_set_same.
Qed.

Lemma entries_append_other (q rec : Z) (ls : list string)
  (data : list (Z * list (list string))) :
  q <> rec -> entries q (data_append rec ls data) = entries q data.
Proof.
  intros N. unfold entries, data_append.
  destruct (zdict_get rec data); now rewrite zdict_get_set_other.
Qed.

(** What one round does to the lines kept under a key. *)
Lemma sort_line_entries (verbose : bool) (ls : list string) (s s' : sorted)
  (q : Z) :
  sort_line verbose ls s = inr s' ->
  exists rec,
    record_of ls = Some rec
    /\ entries q (s_data s')
       = (entries q (s_data s)
            ++ (if Z.eqb rec q && negb (Z.eqb rec 99) && negb (Z.eqb rec 101)
                then [ls] else []))%list.
Proof.
  unfold sort_line, record_of.
  destruct (nth_error ls 1) as [t|]; [|discriminate].
  destruct (Py.int t) as [rec|]; [|discriminate].
  intros E. exists rec. split; [reflexivity|].
  destruct (Z.eqb rec 99) eqn:E99.
  - rewrite andb_false_r. simpl. rewrite app_nil_r.
    destruct verbose; inversion E; reflexivity.
  - destruct (Z.eqb rec 101) eqn:E101.
    + rewrite andb_false_r, app_nil_r.
      destruct (nth_error ls 3); [|discriminate].
      destruct (nth_error ls 2); [|discriminate].
      destruct (Py.int s1); [|discriminate].
      inversion E; reflexivity.
    + inversion E; subst s'. cbn [s_data]. rewrite !andb_true_r.
      destruct (Z.eqb rec q) eqn:Eq.
      * apply Z.eqb_eq in Eq. subst q. apply entries_append_same.
      * rewrite app_nil_r. apply entries_append_other.
        apply Z.eqb_neq in Eq. congruence.
Qed.

Lemma sort_lines_entries (verbose : bool) (rawdata : list (list string))
  (s s' : sorted) (q : Z) :
  sort_lines verbose rawdata s = inr s' ->
  entries q (s_data s')
  = (entries q (s_data s)
       ++ (if negb (Z.eqb q 99) && negb (Z.eqb q 101)
           then lines_of_record q rawdata else []))%list.
Proof.
  revert s; induction rawdata as [|ls rawdata IH]; intros s; simpl.
  - intros E; inversion E. destruct (_ && _); now rewrite app_nil_r.
  - destruct (sort_line verbose ls s) as [e | s1] eqn:L; [discriminate|].
    intros E. rewrite (IH s1 E).
    destruct (sort_line_entries _ _ _ _ q L) as [rec [R H]].
    rewrite H, R, <- app_assoc. f_equal.
    destruct (Z.eqb rec q) eqn:Eq.
    + apply Z.eqb_eq in Eq. subst rec. simpl.
      destruct (negb (Z.eqb q 99) && negb (Z.eqb q 101)); reflexivity.
    + simpl. reflexivity.
Qed.

(** X21.  When the sorting loop returns, the lines kept under a record
    number other than 99 and 101 are exactly the data lines with that
    number, in the order of the file; nothing is kept under 99 and
    101. *)
Theorem X21_lines_sorted_by_record (verbose : bool)
  (rawdata : list (list string)) (s : sorted) :
  sort_lines verbose rawdata (mkSorted [] [] []) = inr s ->
  (forall rec, rec <> 99%Z -> rec <> 101%Z ->
     entries rec (s_data s) = lines_of_record rec rawdata)
  /\ entries 99 (s_data s) = []
  /\ entries 101 (s_data s) = [].
Proof.
  intros E. split; [|split].
  - intros rec N1 N2. rewrite (sort_lines_entries _ _ _ _ rec E).
    apply Z.eqb_neq in N1. apply Z.eqb_neq in N2. now rewrite N1, N2.
  - now rewrite (sort_lines_entries _ _ _ _ 99%Z E).
  - now rewrite (sort_lines_entries _ _ _ _ 101%Z E).
Qed.

Lemma X21_lines_sorted_by_record_witness :
  exists s,
    sort_lines true (read_rawdata 2 radiometer_file) (mkSorted [] [] [])
    = inr s
    /\ entries 51 (s_data s)
       = [["03/01/16 00:00:01"; "51"; "280.5"; "40.1"];
          ["03/01/16 00:01:01"; "51"; "281.5"; "41.1"]].
Proof.
  destruct (sort_lines true (read_rawdata 2 radiometer_file)
              (mkSorted [] [] [])) as [e | s] eqn:E;
    [vm_compute in E; discriminate E|].
  exists s. split; [reflexivity|].
  destruct (X21_lines_sorted_by_record true _ s E) as [H _].
  rewrite H by discriminate. reflexivity.
Defined.

(** X22.  The header of a record is looked up under the record number
    with its last digit set to zero: that number is a multiple of ten,
    at most nine below the record number, and all the records of one
    decade share their header.  Without a header under that number,
    [AssertionError] is raised. *)
Theorem X22_record_header_of_decade (records : list (Z * list string))
  (record_id : Z) :
  let header_id := (record_id - record_id mod 10)%Z in
  (header_id mod 10 = 0 /\ header_id <= record_id < header_id + 10)%Z
  /\ (forall other,
        (other / 10 = record_id / 10)%Z ->
        record_header records other = record_header records record_id)
  /\ (zdict_get header_id records = None ->
      record_header records record_id = inl AssertionError)
  /\ (forall names,
        zdict_get header_id records = Some names ->
        record_header records record_id
        = inr ("datetime" :: "id" :: names)).
Proof.
  intros header_id.
  assert (D : forall z, (z - z mod 10 = 10 * (z / 10))%Z).
  { intros z. assert (H := Z.div_mod z 10 ltac:(lia)). lia. }
  split; [|split; [|split]].
  - assert (B := Z.mod_pos_bound record_id 10 ltac:(lia)).
    unfold header_id. split; [|lia].
    rewrite D. rewrite Z.mul_comm. apply Z.mod_mul. lia.
  - intros other H. unfold record_header. now rewrite !D, H.
  - intros H. unfold record_header. fold header_id. now rewrite H.
  - intros names H. unfold record_header. fold header_id. now rewrite H.
Qed.

Lemma X22_record_header_of_decade_witness :
  record_header [(400%Z, ["Ch1"; "Ch2"])] 407
  = record_header [(400%Z, ["Ch1"; "Ch2"])] 401.
Proof.
  destruct (X22_record_header_of_decade [(400%Z, ["Ch1"; "Ch2"])] 401)
    as [_ [H _]].
  apply H. reflexivity.
Defined.

(** X23.  The first pass stops at the first line that does not begin
    with the field [Record]: that line and the lines after it add nothing
    to [records]. *)
Theorem X23_records_end_at_first_data_line (leading : list string)
  (line : string) (rest : stream) (records : list (Z * list string)) :
  hd EmptyString (Py.split_on "," (Py.strip line)) <> "Record" ->
  read_records (leading ++ line :: rest)%list records
  = read_records leading records.
Proof.
  intros H. apply String.eqb_neq in H.
  revert records; induction leading as [|l leading IH]; intros records;
    cbn [app read_records].
  - now rewrite H.
  - destruct (negb (String.eqb (hd EmptyString (Py.split_on "," (Py.strip l)))
                               "Record")); [reflexivity|].
    destruct (nth_error (Py.split_on "," (Py.strip l)) 2) as [t|];
      [|reflexivity].
    destruct (Py.int t); [apply IH | reflexivity].
Qed.

Lemma X23_records_end_at_first_data_line_witness :
  read_records radiometer_file []
  = inr [(50%Z, ["Tamb(K)"; "Rh(%)"]); (400%Z, ["Ch1"; "Ch2"])].
Proof.
  refine (eq_trans
            (X23_records_end_at_first_data_line
               (lines_of ["Record,Date/Time,50,Tamb(K),Rh(%)";
                          "Record,Date/Time,400,Ch1,Ch2"])
               ("1,03/01/16 00:00:01,51,280.5,40.1," ++ nl)
               (lines_of ["2,03/01/16 00:00:02,401,1.5,2.5,";
                          "3,03/01/16 00:00:03,99,restart";
                          "4,03/01/16 00:01:01,51,281.5,41.1,"])
               [] _) _).
  - vm_compute. discriminate.
  - reflexivity.
Defined.

(** ** The table of the radar profiler *)

Lemma inert_masked_cell (vals : list spec_float) (cols : list string) :
  inert (masked_cell vals cols).
Proof.
  intros c x T. unfold masked_cell.
  replace (existsb (cell_eq x) vals) with false; [now rewrite andb_false_r|].
  symmetry. induction vals as [|v vals IH]; simpl; [reflexivity|].
  rewrite IH. now destruct x.
Qed.

(** Rows that are stamped stay so when the frames are stitched. *)
Lemma pd_concat_stamped (dfs : list DataFrame) (df : DataFrame) :
  (forall d, In d dfs ->
     (forall r, In r (rows d) -> length r = length (columns d))
     /\ exists t, forall r, In r (rows d) ->
          lookup "date_time" (columns d) r = Some (CTime t)) ->
  (forall d, In d dfs -> In "date_time" (columns d)) ->
  pd_concat dfs = inr df ->
  forall r, In r (rows df) ->
    length r = length (columns df)
    /\ exists t, lookup "date_time" (columns df) r = Some (CTime t).
Proof.
  intros P Hin. destruct dfs as [|d0 dfs]; [discriminate|]. unfold pd_concat.
  destruct (forallb _ (d0 :: dfs)) eqn:Same.
  - intros E; inversion E; subst df. intros r Hr.
    change (In r (flat_map rows (d0 :: dfs))) in Hr.
    change (columns (mkFrame (columns d0) (flat_map rows (d0 :: dfs))))
      with (columns d0).
    apply in_flat_map in Hr. destruct Hr as [d [Hd Hr]].
    assert (Ec : columns d = columns d0).
    { rewrite forallb_forall in Same. specialize (Same d Hd).
      unfold list_string_eqb in Same.
      now destruct (list_eq_dec string_dec (columns d) (columns d0)). }
    destruct (P d Hd) as [W [t Ht]]. rewrite <- Ec. split; [now apply W|].
    exists t. now apply Ht.
  - destruct (existsb _ (d0 :: dfs)); [discriminate|].
    intros E; inversion E; subst df. intros r Hr.
    set (cols := union_columns (d0 :: dfs)) in *.
    change (In r (flat_map (fun f => map (reindex cols (columns f)) (rows f))
                           (d0 :: dfs))) in Hr.
    change (columns (mkFrame cols
                       (flat_map (fun f => map (reindex cols (columns f))
                                               (rows f)) (d0 :: dfs))))
      with cols.
    apply in_flat_map in Hr. destruct Hr as [d [Hd Hr]].
    apply in_map_iff in Hr. destruct Hr as [r0 [Er Hr0]]. subst r.
    destruct (P d Hd) as [W [t Ht]]. split.
    + unfold reindex. apply length_map.
    + exists t. unfold reindex. rewrite lookup_map.
      * now rewrite (Ht r0 Hr0).
      * apply (union_columns_incl (d0 :: dfs) d); [exact Hd | now apply Hin].
Qed.

Section RadarTable.

Variable to_datetime : string -> option Z.

(** Every block has the column [date_time]. *)
Lemma block_has_date_time (f f' : stream) (df : DataFrame) :
  read_profiler_data_block to_datetime f = inr (df, f') ->
  In "date_time" (columns df).
Proof.
  unfold read_profiler_data_block.
  destruct (readline f) as [l1 f1].
  destruct (readline (if String.eqb (Py.strip l1) "" then snd (readline f1)
                      else f1)) as [l3 fb].
  destruct (Py.split l3) as [|tag toks]; [discriminate|].
  destruct (negb (Py.mem tag default_datatypes)); [discriminate|].
  destruct (readline (snd (readline fb))) as [l5 fd].
  destruct (Py.split l5) as [|yr [|mo [|dy [|hr [|mi [|sc [|z [|]]]]]]]];
    try discriminate.
  destruct (readline (skip_lines 5 fd)) as [hl ff].
  destruct (read_block_rows ff) as [block fg].
  destruct (pd_to_datetime _ _) as [e | t]; [discriminate|].
  unfold bind at 1.
  destruct (float_frame_of_rows block (resolve_header (Py.split hl)))
    as [e | d]; [discriminate|].
  cbn [bind ret]. intros E. inversion E; subst df f'. clear E.
  unfold assign. destruct (Py.mem "date_time" (columns d)) eqn:M;
    cbn [columns].
  - now apply mem_In.
  - apply in_or_app. right. now left.
Qed.

Lemma read_blocks_from_stream (n : nat) (f : stream) (dfs : list DataFrame) :
  read_blocks to_datetime n f = inr dfs ->
  forall d, In d dfs ->
    exists g g', read_profiler_data_block to_datetime g = inr (d, g').
Proof.
  revert f dfs; induction n as [|n IH]; intros f dfs; simpl.
  - intros E; inversion E. intros d [].
  - destruct (read_profiler_data_block to_datetime f) as [e | [d0 f1]] eqn:B;
      [discriminate|].
    destruct (read_blocks to_datetime n f1) as [e | dfs1] eqn:R;
      [discriminate|].
    cbn [bind ret]. intros E; inversion E; subst dfs. intros d [Hd | Hd].
    + subst d0. eauto.
    + now apply (IH f1 dfs1).
Qed.

Lemma read_all_blocks_from_stream (fuel : nat) (f : stream)
  (dfs : list DataFrame) :
  read_all_blocks to_datetime fuel f = inr dfs ->
  forall d, In d dfs ->
    exists g g', read_profiler_data_block to_datetime g = inr (d, g').
Proof.
  revert f dfs; induction fuel as [|fuel IH]; intros f dfs; simpl.
  - intros E; inversion E. intros d [].
  - destruct (read_profiler_data_block to_datetime f) as [e | [d0 f1]] eqn:B.
    + destruct e; try discriminate; intros E; inversion E; intros d [].
    + destruct (read_all_blocks to_datetime fuel f1) as [e | dfs1] eqn:R;
        [discriminate|].
      cbn [bind ret]. intros E; inversion E; subst dfs. intros d [Hd | Hd].
      * subst d0. eauto.
      * now apply (IH f1 dfs1).
Qed.

(** X24.  In the table that [radar_profiler] returns, whatever the
    blocks and their headers, every row has a cell under each label and
    carries a time stamp under [date_time]: stitching blocks on different
    headers and masking the sentinels never takes it away. *)
Theorem X24_every_row_has_a_time_stamp (f : stream) (modes : option nat)
  (check_na : list string) (na_values : option na_arg)
  (printed : list string) (df : DataFrame) :
  radar_profiler to_datetime f modes check_na na_values = inr (printed, df) ->
  forall r, In r (rows df) ->
    length r = length (columns df)
    /\ exists t, lookup "date_time" (columns df) r = Some (CTime t).
Proof.
  unfold radar_profiler.
  destruct (match modes with
            | Some n => read_blocks to_datetime n f
            | None => read_all_blocks to_datetime (S (length f)) f
            end) as [e | dfs] eqn:R; [discriminate|].
  cbn [bind].
  assert (From : forall d, In d dfs ->
            exists g g', read_profiler_data_block to_datetime g = inr (d, g')).
  { destruct modes as [n|].
    - now apply (read_blocks_from_stream n f).
    - now apply (read_all_blocks_from_stream (S (length f)) f). }
  destruct (pd_concat dfs) as [e | d1] eqn:C; [discriminate|]. cbn [bind].
  assert (S1 : forall r, In r (rows d1) ->
            length r = length (columns d1)
            /\ exists t, lookup "date_time" (columns d1) r = Some (CTime t)).
  { apply (pd_concat_stamped dfs); [| |exact C].
    - intros d Hd. destruct (From d Hd) as [g [g' B]].
      exact (block_stamped to_datetime g g' d B).
    - intros d Hd. destruct (From d Hd) as [g [g' B]].
      exact (block_has_date_time g g' d B). }
  unfold mask_sentinels. destruct na_values as [na|].
  - unfold sentinel_mask.
    destruct (resolve_check_na (columns d1) check_na) as [out nalist].
    destruct (mask_values (na_list na) nalist d1) as [e | d2] eqn:M;
      [discriminate|].
    apply mask_values_returns in M. destruct M as [_ M].
    cbn [bind ret]. intros E; inversion E; subst printed df d2. clear E.
    unfold map_frame. cbn [rows columns]. intros r Hr.
    apply in_map_iff in Hr. destruct Hr as [r0 [Er Hr0]]. subst r.
    destruct (S1 r0 Hr0) as [L [t Ht]]. split.
    + now rewrite map_row_length.
    + exists t. rewrite lookup_map_row, Ht. simpl. f_equal.
      now apply inert_masked_cell.
  - intros E; inversion E; subst printed df. exact S1.
Qed.

End RadarTable.

Lemma X24_every_row_has_a_time_stamp_witness :
  exists printed df,
    radar_profiler any_datetime radar_file None ["SPD"; "DIR"]
      (Some (NaScalar (Py.float_of_Z 999999))) = inr (printed, df)
    /\ forall r, In r (rows df) ->
         length r = length (columns df)
         /\ exists t, lookup "date_time" (columns df) r = Some (CTime t).
Proof.
  destruct (radar_profiler any_datetime radar_file None ["SPD"; "DIR"]
              (Some (NaScalar (Py.float_of_Z 999999))))
    as [e | [printed df]] eqn:E; [vm_compute in E; discriminate E|].
  exists printed, df. split; [reflexivity|].
  exact (X24_every_row_has_a_time_stamp any_datetime radar_file None
           ["SPD"; "DIR"] (Some (NaScalar (Py.float_of_Z 999999)))
           printed df E).
Defined.

(** The loop over the profiles of a Scintec file uses no more rounds
    than there are lines. *)
Lemma read_profiles_rounds (to_datetime to_timedelta : string -> option Z)
  (fuel extra : nat) (datetime0 : Z) (cols : list string) (Nz : nat)
  (firstread : bool) (f : stream) :
  length f < fuel ->
  read_profiles to_datetime to_timedelta (fuel + extra) datetime0 cols Nz
    firstread f
  = read_profiles to_datetime to_timedelta fuel datetime0 cols Nz firstread f.
Proof.
  revert firstread f; induction fuel as [|fuel IH]; intros firstread f L;
    [lia|].
  simpl. destruct f as [|line f1]; [reflexivity|]. cbn [readline].
  destruct (Py.split line) as [|day [|time [|duration rest]]];
    try reflexivity.
  destruct (pd_to_datetime to_datetime _) as [e | t1]; [reflexivity|].
  destruct (pd_to_timedelta to_timedelta duration) as [e | dt];
    [reflexivity|].
  destruct (firstread && negb (Z.eqb t1 datetime0)); [reflexivity|].
  destruct (scintec_read_block cols Nz f1) as [e | [d0 f2]] eqn:B;
    [reflexivity|].
  rewrite IH; [reflexivity|].
  unfold scintec_read_block in B.
  pose proof (read_fixed_rows_rest Py.split Nz (snd (readline f1))) as Lr.
  destruct (read_fixed_rows Py.split Nz (snd (readline f1))) as [data frest].
  destruct (frame_of_rows data cols); [discriminate|].
  cbn [bind ret] in B. inversion B; subst f2. simpl in Lr, L.
  assert (length (snd (readline f1)) <= length f1)
    by (destruct f1; simpl; lia).
  assert (length (snd (readline frest)) <= length frest)
    by (destruct frest; simpl; lia).
  lia.
Qed.
